(** * Label-validation pipeline: a shallow embedding of the activities,
      the regulatory tool server and the workflow.

    The JavaScript sources are embedded function by function.  JavaScript
    values are a small tagged union ([value]); every function that can
    throw, or that awaits an external capability, lives in the monad [M]
    (state passing for the clock and the trace of external actions, with
    the outcomes [Ok], [Throw] and [Pending]).

    Conventions of the embedding
    - strings: one [ascii] per UTF-16 code unit, code units below 256;
    - numbers: [NaN] or a rational; [parseFloat] rounds what it reads to
      the nearest double, the numeric literals of the sources are read
      exactly, arithmetic is not rounded and the infinities are outside
      the fragment;
    - objects: association lists in insertion order, keys unique;
    - console output is dropped, but the arguments of a logging call are
      still evaluated where evaluating them can throw. *)

From Stdlib Require Import String Ascii List Bool Arith ZArith QArith Lia Lqa.
From Stdlib Require Import DecimalString.
From Stdlib Require DecimalPos DecimalN DecimalZ DecimalFacts.
Import ListNotations.

Local Close Scope Q_scope.
Local Open Scope list_scope.
Local Open Scope string_scope.

(** ** Strings *)

Module Str.

Definition dq : string := String (ascii_of_nat 34) EmptyString.
Definition nl : string := String (ascii_of_nat 10) EmptyString.
Definition bq3 : string := "```".

Definition quoted (s : string) : string := dq ++ s ++ dq.

(** WhiteSpace and LineTerminator code units below 256 (what [trim] and
    the regular-expression class \s strip). *)
Definition is_ws (c : ascii) : bool :=
  let n := nat_of_ascii c in
  (Nat.eqb n 9 || Nat.eqb n 10 || Nat.eqb n 11 || Nat.eqb n 12
   || Nat.eqb n 13 || Nat.eqb n 32 || Nat.eqb n 160)%bool.

Definition is_digit (c : ascii) : bool :=
  let n := nat_of_ascii c in (Nat.leb 48 n && Nat.leb n 57)%bool.

Definition digit_val (c : ascii) : Z := Z.of_nat (nat_of_ascii c) - 48.

Definition lower_char (c : ascii) : ascii :=
  let n := nat_of_ascii c in
  if (Nat.leb 65 n && Nat.leb n 90)%bool then ascii_of_nat (n + 32)
  else if (Nat.leb 192 n && Nat.leb n 222 && negb (Nat.eqb n 215))%bool
       then ascii_of_nat (n + 32)
  else c.

Fixpoint toLowerCase (s : string) : string :=
  match s with
  | EmptyString => EmptyString
  | String c t => String (lower_char c) (toLowerCase t)
  end.

Fixpoint rev_onto (s acc : string) : string :=
  match s with
  | EmptyString => acc
  | String c t => rev_onto t (String c acc)
  end.

Definition rev (s : string) : string := rev_onto s EmptyString.

Fixpoint trimStart (s : string) : string :=
  match s with
  | EmptyString => EmptyString
  | String c t => if is_ws c then trimStart t else s
  end.

Definition trim (s : string) : string := rev (trimStart (rev (trimStart s))).

(** [includes s sub]: String.prototype.includes. *)
Fixpoint includes (s sub : string) : bool :=
  (String.prefix sub s ||
   match s with
   | EmptyString => false
   | String _ t => includes t sub
   end)%bool.

Fixpoint drop (n : nat) (s : string) : string :=
  match n, s with
  | O, _ => s
  | S _, EmptyString => EmptyString
  | S k, String _ t => drop k t
  end.

Fixpoint take (n : nat) (s : string) : string :=
  match n, s with
  | O, _ => EmptyString
  | S _, EmptyString => EmptyString
  | S k, String c t => String c (take k t)
  end.

(** Split at the first occurrence of [sub]: what precedes it and what
    follows it. *)
Fixpoint split_first (sub s : string) : option (string * string) :=
  if String.prefix sub s then Some (EmptyString, drop (String.length sub) s)
  else match s with
       | EmptyString => None
       | String c t =>
           match split_first sub t with
           | Some (a, b) => Some (String c a, b)
           | None => None
           end
       end.

(** Split at the last occurrence of the one-character string [c]. *)
Fixpoint split_last_char (c : ascii) (s : string) : option (string * string) :=
  match s with
  | EmptyString => None
  | String d t =>
      match split_last_char c t with
      | Some (a, b) => Some (String d a, b)
      | None => if Ascii.eqb c d then Some (EmptyString, t) else None
      end
  end.

(** [s.split('\n')]: never empty. *)
Fixpoint split_lines (s : string) : list string :=
  match s with
  | EmptyString => [EmptyString]
  | String c t =>
      if Nat.eqb (nat_of_ascii c) 10 then EmptyString :: split_lines t
      else match split_lines t with
           | [] => [String c EmptyString]
           | l :: ls => String c l :: ls
           end
  end.

Fixpoint filter (p : ascii -> bool) (s : string) : string :=
  match s with
  | EmptyString => EmptyString
  | String c t => if p c then String c (filter p t) else filter p t
  end.

Definition of_Z (z : Z) : string := NilZero.string_of_int (Z.to_int z).

End Str.

(** ** Numbers *)

Inductive number : Type :=
| NaN
| Num (q : Q).

Module Number.

Definition of_Z (z : Z) : number := Num (inject_Z z).
Definition of_nat (n : nat) : number := of_Z (Z.of_nat n).

(** The comparisons of the language: anything compared with NaN is false. *)
Definition ltb (a b : number) : bool :=
  match a, b with
  | Num x, Num y => negb (Qle_bool y x)
  | _, _ => false
  end.

Definition gtb (a b : number) : bool := ltb b a.

Definition eqb (a b : number) : bool :=
  match a, b with
  | Num x, Num y => Qeq_bool x y
  | _, _ => false
  end.

Definition lift2 (f : Q -> Q -> Q) (a b : number) : number :=
  match a, b with
  | Num x, Num y => Num (Qred (f x y))
  | _, _ => NaN
  end.

Definition add := lift2 Qplus.
Definition sub := lift2 Qminus.
Definition mul := lift2 Qmult.

(** Division by zero leaves the fragment (it is an infinity, or NaN for
    0/0); the sources modelled here only divide by non-zero values. *)
Definition div (a b : number) : number :=
  match a, b with
  | Num x, Num y => if Qeq_bool y 0 then NaN else Num (Qred (x / y))
  | _, _ => NaN
  end.

(** Digits of the fractional part r/d, at most [fuel] of them. *)
Fixpoint frac_digits (fuel : nat) (r d : Z) : string :=
  match fuel with
  | O => EmptyString
  | S k =>
      if Z.eqb r 0 then EmptyString
      else Str.of_Z ((r * 10) / d) ++ frac_digits k ((r * 10) mod d) d
  end.

(** Number::toString for integers and for decimals with a short
    expansion (no exponent notation). *)
Definition toString (n : number) : string :=
  match n with
  | NaN => "NaN"
  | Num q =>
      let q := Qred q in
      let d := Z.pos (Qden q) in
      let a := Z.abs (Qnum q) in
      let sign := if Z.ltb (Qnum q) 0 then "-" else "" in
      if Z.eqb (a mod d) 0 then sign ++ Str.of_Z (a / d)
      else sign ++ Str.of_Z (a / d) ++ "." ++ frac_digits 20 (a mod d) d
  end.

(** A run of decimal digits: its value, its length, and the rest. *)
Fixpoint scan_digits (s : string) (acc : Z) (n : nat) : Z * nat * string :=
  match s with
  | String c t =>
      if Str.is_digit c then scan_digits t (acc * 10 + Str.digit_val c) (S n)
      else (acc, n, s)
  | EmptyString => (acc, n, s)
  end.

Definition pow10 (k : nat) : Z := Z.pow 10 (Z.of_nat k).

Definition scan_sign (s : string) : bool * string :=
  match s with
  | String "-" t => (true, t)
  | String "+" t => (false, t)
  | _ => (false, s)
  end.

(** Optional exponent part: the factor it stands for and the rest. *)
Definition scan_exponent (s : string) : Q * string :=
  match s with
  | String c t =>
      if (Ascii.eqb c "e" || Ascii.eqb c "E")%bool then
        let '(neg, t1) := scan_sign t in
        let '(e, n, rest) := scan_digits t1 0 0 in
        match n with
        | O => (1%Q, s)
        | S _ => (if neg then (1 # Z.to_pos (Z.pow 10 e))%Q
                  else inject_Z (Z.pow 10 e), rest)
        end
      else (1%Q, s)
  | EmptyString => (1%Q, s)
  end.

(** StrDecimalLiteral: the longest prefix of [s] that is one, with its
    value and what follows.  The literal Infinity is outside the
    fragment and reads as no literal. *)
Definition scan_decimal (s : string) : option (Q * string) :=
  let '(neg, s1) := scan_sign s in
  let '(ip, n1, s2) := scan_digits s1 0 0 in
  let '(fp, n2, s3) :=
    match s2 with
    | String "." t =>
        let '(f, n, r) := scan_digits t 0 0 in
        match n1, n with
        | O, O => (0%Z, O, s2)
        | _, _ => (f, n, r)
        end
    | _ => (0%Z, O, s2)
    end in
  match n1, n2, s2 with
  | O, O, _ => None
  | _, _, _ =>
      let m := (inject_Z ip + (fp # Z.to_pos (pow10 n2)))%Q in
      let '(ex, s4) := scan_exponent s3 in
      let v := Qred (m * ex) in
      Some (if neg then Qred (- v) else v, s4)
  end.

(** [n / d] rounded to the nearest integer, ties to even, for [n >= 0]
    and [d > 0]. *)
Definition round_half_even (n d : Z) : Z :=
  let q := (n / d)%Z in
  match Z.compare (2 * (n mod d)) d with
  | Lt => q
  | Gt => (q + 1)%Z
  | Eq => if Z.even q then q else (q + 1)%Z
  end.

(** The double nearest to a rational (round to nearest, ties to even),
    as its exact value: 53 significant bits, the last of them of weight
    2^-1074 at least.  A value that rounds beyond the largest double is
    Infinity in the language; the fragment has no infinities, and the
    result is then 2^1024 (what the rounding gives with an unbounded
    exponent), which compares with every double as Infinity does. *)
Definition double (q : Q) : number :=
  let n := Z.abs (Qnum q) in
  let d := Z.pos (Qden q) in
  if Z.eqb n 0 then Num 0
  else
    let e0 := (Z.log2 n - Z.log2 d)%Z in
    let e := if Z.leb (d * 2 ^ Z.max e0 0) (n * 2 ^ Z.max (- e0) 0)
             then e0 else (e0 - 1)%Z in
    let u := Z.max (e - 52) (-1074) in
    let m := round_half_even (n * 2 ^ Z.max (- u) 0) (d * 2 ^ Z.max u 0) in
    let top := (2 ^ 1024)%Z in
    let v := if Z.leb top (m * 2 ^ Z.max u 0) then inject_Z top
             else Qred ((m * 2 ^ Z.max u 0) # Z.to_pos (2 ^ Z.max (- u) 0)) in
    Num (if Z.ltb (Qnum q) 0 then Qred (- v) else v).

(** The global [parseFloat] on a string: the double nearest to the
    decimal literal read. *)
Definition parseFloat (s : string) : number :=
  match scan_decimal (Str.trimStart s) with
  | Some (q, _) => double q
  | None => NaN
  end.

(** StringToNumber: the whole trimmed string must be a decimal literal;
    the empty string is [0].  Hexadecimal, octal and binary literals and
    Infinity are outside the fragment and read as NaN. *)
Definition ofString (s : string) : number :=
  match Str.trim s with
  | EmptyString => Num 0
  | t => match scan_decimal t with
         | Some (q, EmptyString) => Num q
         | _ => NaN
         end
  end.

End Number.

(** ** Values *)

#[warnings="-register-all"]
Inductive value : Type :=
| VUndefined
| VNull
| VBool (b : bool)
| VNum (n : number)
| VStr (s : string)
| VArr (xs : list value)
| VObj (fields : list (string * value)).

(** What a [throw] carries: an Error object, with its name and message. *)
Record error : Type := mkError { ename : string; emessage : string }.

Definition TypeError (msg : string) : error := mkError "TypeError" msg.
Definition SyntaxError (msg : string) : error := mkError "SyntaxError" msg.
Definition Error (msg : string) : error := mkError "Error" msg.

Module Obj.

Fixpoint lookup (k : string) (fs : list (string * value)) : option value :=
  match fs with
  | [] => None
  | (k', v) :: t => if String.eqb k k' then Some v else lookup k t
  end.

(** Assignment of a property: in place when the key exists, appended
    otherwise. *)
Fixpoint set (k : string) (v : value) (fs : list (string * value))
  : list (string * value) :=
  match fs with
  | [] => [(k, v)]
  | (k', v') :: t =>
      if String.eqb k k' then (k, v) :: t else (k', v') :: set k v t
  end.

(** An object literal or a spread: the properties are assigned from left
    to right. *)
Definition assign (base extra : list (string * value)) : list (string * value) :=
  fold_left (fun acc kv => set (fst kv) (snd kv) acc) extra base.

Definition literal (fs : list (string * value)) : value := VObj (assign [] fs).

Fixpoint indexed (i : nat) (xs : list value) : list (string * value) :=
  match xs with
  | [] => []
  | x :: t => (Str.of_Z (Z.of_nat i), x) :: indexed (S i) t
  end.

Fixpoint chars (s : string) : list value :=
  match s with
  | EmptyString => []
  | String c t => VStr (String c EmptyString) :: chars t
  end.

(** The own enumerable properties that [{...v}] copies. *)
Definition own (v : value) : list (string * value) :=
  match v with
  | VObj fs => fs
  | VArr xs => indexed 0 xs
  | VStr s => indexed 0 (chars s)
  | _ => []
  end.

End Obj.

Module JS.

Definition nullish (v : value) : bool :=
  match v with
  | VUndefined | VNull => true
  | _ => false
  end.

(** ToBoolean. *)
Definition truthy (v : value) : bool :=
  match v with
  | VUndefined | VNull => false
  | VBool b => b
  | VNum NaN => false
  | VNum (Num q) => negb (Qeq_bool q 0)
  | VStr s => negb (String.eqb s "")
  | VArr _ | VObj _ => true
  end.

(** ToString; arrays join their elements with commas, an absent element
    printing as the empty string. *)
Fixpoint toString (v : value) : string :=
  match v with
  | VUndefined => "undefined"
  | VNull => "null"
  | VBool true => "true"
  | VBool false => "false"
  | VNum n => Number.toString n
  | VStr s => s
  | VArr xs =>
      (fix join (l : list value) : string :=
         match l with
         | [] => ""
         | [x] => if nullish x then "" else toString x
         | x :: t =>
             ((if nullish x then "" else toString x) ++ "," ++ join t)%string
         end) xs
  | VObj _ => "[object Object]"
  end.

(** ToNumber. *)
Definition toNumber (v : value) : number :=
  match v with
  | VUndefined => NaN
  | VNull => Num 0
  | VBool true => Num 1
  | VBool false => Num 0
  | VNum n => n
  | VStr s => Number.ofString s
  | VArr _ | VObj _ => Number.ofString (toString v)
  end.

(** [a < b] and [a > b] where at least one side is a number, which is the
    only way the sources use them: both sides go through ToNumber. *)
Definition lt (a b : value) : bool := Number.ltb (toNumber a) (toNumber b).
Definition gt (a b : value) : bool := Number.gtb (toNumber a) (toNumber b).

Definition mul (a b : value) : value := VNum (Number.mul (toNumber a) (toNumber b)).
Definition div (a b : value) : value := VNum (Number.div (toNumber a) (toNumber b)).
Definition sub (a b : value) : value := VNum (Number.sub (toNumber a) (toNumber b)).

(** Binary [+]: concatenation as soon as one side is a string (or an
    array or object, whose primitive is a string), addition otherwise. *)
Definition stringy (v : value) : bool :=
  match v with
  | VStr _ | VArr _ | VObj _ => true
  | _ => false
  end.

Definition add (a b : value) : value :=
  if (stringy a || stringy b)%bool then VStr (toString a ++ toString b)%string
  else VNum (Number.add (toNumber a) (toNumber b)).

(** [v === 0] *)
Definition is_zero (v : value) : bool :=
  match v with
  | VNum (Num q) => Qeq_bool q 0
  | _ => false
  end.

(** [a || b] and [a && b]. *)
Definition or (a b : value) : value := if truthy a then a else b.
Definition and (a b : value) : value := if truthy a then b else a.

(** Strict equality with a string literal. *)
Definition is_str (v : value) (s : string) : bool :=
  match v with
  | VStr t => String.eqb t s
  | _ => false
  end.

(** Property read on a value that is known not to be nullish. *)
Definition get (v : value) (k : string) : value :=
  match v with
  | VObj fs => match Obj.lookup k fs with Some x => x | None => VUndefined end
  | VArr xs => if String.eqb k "length" then VNum (Number.of_nat (List.length xs))
               else VUndefined
  | VStr s => if String.eqb k "length" then VNum (Number.of_nat (String.length s))
              else VUndefined
  | _ => VUndefined
  end.

(** Element read [v[i]]. *)
Definition at_ (v : value) (i : nat) : value :=
  match v with
  | VArr xs => nth i xs VUndefined
  | VStr s => match String.get i s with
              | Some c => VStr (String c EmptyString)
              | None => VUndefined
              end
  | VObj fs => match Obj.lookup (Str.of_Z (Z.of_nat i)) fs with
               | Some x => x
               | None => VUndefined
               end
  | _ => VUndefined
  end.

End JS.

(** ** Outcomes, external actions and the monad *)

Inductive outcome (A : Type) : Type :=
| Ok (a : A)
| Throw (e : error)
| Pending.

Arguments Ok {A} a.
Arguments Throw {A} e.
Arguments Pending {A}.

(** What the code does to the outside world, in order. *)
Inductive action : Type :=
| Spawn (command : string) (args : list string)
| StdinWrite (data : string)
| StdinEnd
| Kill
| Recognize (imageSource : value) (lang : string)
| AnthropicCreate (request : value)
| OpenAICreate (request : value)
(** an ['error'] event that has no listener: the emitter throws it
    outside every promise and the process exits *)
| Uncaught (e : error).

(** The state threaded through a run: how often the clock was read, the
    external actions so far, and the [let] variables that closures and
    nested blocks assign (they keep their value when a block throws). *)
Record state : Type := mkState {
  ticks : nat;
  trace : list action;
  store : list (string * value)
}.

Definition M (A : Type) : Type := state -> outcome A * state.

Definition ret {A} (a : A) : M A := fun st => (Ok a, st).

Definition bind {A B} (m : M A) (k : A -> M B) : M B :=
  fun st =>
    match m st with
    | (Ok a, st') => k a st'
    | (Throw e, st') => (Throw e, st')
    | (Pending, st') => (Pending, st')
    end.

Definition throw {A} (e : error) : M A := fun st => (Throw e, st).

(** [try { m } catch (e) { h e }]: a promise that never settles is not an
    exception. *)
Definition try_catch {A} (m : M A) (h : error -> M A) : M A :=
  fun st =>
    match m st with
    | (Throw e, st') => h e st'
    | r => r
    end.

Definition lift {A} (o : outcome A) : M A := fun st => (o, st).

Definition emit (a : action) : M unit :=
  fun st => (Ok tt, mkState (ticks st) (trace st ++ [a])%list (store st)).

Declare Scope js_scope.
Delimit Scope js_scope with js.
Notation "x <- m ;; k" := (bind m (fun x => k))
  (at level 61, m at next level, right associativity) : js_scope.
Notation "m ;;; k" := (bind m (fun _ => k))
  (at level 61, right associativity) : js_scope.
Local Open Scope js_scope.

Definition getVar (x : string) : M value :=
  fun st => (Ok (match Obj.lookup x (store st) with
                 | Some v => v
                 | None => VUndefined
                 end), st).

Definition setVar (x : string) (v : value) : M unit :=
  fun st => (Ok tt, mkState (ticks st) (trace st) (Obj.set x v (store st))).

(** [x.push(v)] on a variable that holds an array. *)
Definition push (x : string) (v : value) : M unit :=
  a <- getVar x ;;
  match a with
  | VArr xs => setVar x (VArr (xs ++ [v])%list)
  | _ => throw (TypeError (x ++ ".push is not a function"))
  end.

Definition raises {A} (r : outcome A * state) : Prop :=
  exists e, fst r = Throw e.

Definition returns {A} (r : outcome A * state) : Prop :=
  exists a, fst r = Ok a.

(** Reads with the checks the language makes: a property of [undefined]
    or [null] is a TypeError. *)
Definition getProp (v : value) (k : string) : M value :=
  match v with
  | VUndefined =>
      throw (TypeError ("Cannot read properties of undefined (reading '" ++ k ++ "')"))
  | VNull =>
      throw (TypeError ("Cannot read properties of null (reading '" ++ k ++ "')"))
  | _ => ret (JS.get v k)
  end.

Definition getIndex (v : value) (i : nat) : M value :=
  let k := Str.of_Z (Z.of_nat i) in
  match v with
  | VUndefined =>
      throw (TypeError ("Cannot read properties of undefined (reading '" ++ k ++ "')"))
  | VNull =>
      throw (TypeError ("Cannot read properties of null (reading '" ++ k ++ "')"))
  | _ => ret (JS.at_ v i)
  end.

(** Optional chaining [v?.k] and [v?.[i]]. *)
Definition getOpt (v : value) (k : string) : value :=
  if JS.nullish v then VUndefined else JS.get v k.

Definition atOpt (v : value) (i : nat) : value :=
  if JS.nullish v then VUndefined else JS.at_ v i.

(** A method call [v.name(...)] on something that has no such method. *)
Definition not_a_function {A} (expr : string) : M A :=
  throw (TypeError (expr ++ " is not a function")).

(** The value bound by [catch (error)], read through [error.message]. *)
Definition message (e : error) : value := VStr (emessage e).

(** The system clock: the k-th reading, and its ISO rendering. *)
Record Clock : Type := mkClock { now : nat -> Z; iso : Z -> string }.

Definition Date_now (c : Clock) : M value :=
  fun st => (Ok (VNum (Number.of_Z (now c (ticks st)))),
             mkState (S (ticks st)) (trace st) (store st)).

Definition Date_toISOString (c : Clock) : M value :=
  fun st => (Ok (VStr (iso c (now c (ticks st)))),
             mkState (S (ticks st)) (trace st) (store st)).

(** [for (const x of xs) { f x }] and [xs.forEach(f)]. *)
Fixpoint forEach {A} (f : A -> M unit) (xs : list A) : M unit :=
  match xs with
  | [] => ret tt
  | x :: t => f x ;;; forEach f t
  end.

Fixpoint mapM {A B} (f : A -> M B) (xs : list A) : M (list B) :=
  match xs with
  | [] => ret []
  | x :: t => y <- f x ;; ys <- mapM f t ;; ret (y :: ys)
  end.

(** ** JSON.parse and JSON.stringify *)

Module JSON.

Definition is_json_ws (c : ascii) : bool :=
  let n := nat_of_ascii c in
  (Nat.eqb n 32 || Nat.eqb n 9 || Nat.eqb n 10 || Nat.eqb n 13)%bool.

Fixpoint skip_ws (s : string) : string :=
  match s with
  | String c t => if is_json_ws c then skip_ws t else s
  | EmptyString => s
  end.

Definition hex_val (c : ascii) : option nat :=
  let n := nat_of_ascii c in
  if (Nat.leb 48 n && Nat.leb n 57)%bool then Some (n - 48)
  else if (Nat.leb 97 n && Nat.leb n 102)%bool then Some (n - 87)
  else if (Nat.leb 65 n && Nat.leb n 70)%bool then Some (n - 55)
  else None.

(** The characters of a string literal after its opening quote, up to
    the closing one; [acc] is reversed.  A \u escape keeps the low byte
    of its code unit. *)
Fixpoint string_body (s acc : string) : option (string * string) :=
  match s with
  | EmptyString => None
  | String c t =>
      let n := nat_of_ascii c in
      if Nat.eqb n 34 then Some (Str.rev acc, t)
      else if Nat.ltb n 32 then None
      else if Nat.eqb n 92 then
        match t with
        | String e t' =>
            let keep (x : nat) := string_body t' (String (ascii_of_nat x) acc) in
            match e with
            | "b"%char => keep 8
            | "f"%char => keep 12
            | "n"%char => keep 10
            | "r"%char => keep 13
            | "t"%char => keep 9
            | "/"%char => keep 47
            | "\"%char => keep 92
            | "u"%char =>
                match t' with
                | String h1 (String h2 (String h3 (String h4 t''))) =>
                    match hex_val h1, hex_val h2, hex_val h3, hex_val h4 with
                    | Some _, Some _, Some c3, Some c4 =>
                        string_body t'' (String (ascii_of_nat (16 * c3 + c4)) acc)
                    | _, _, _, _ => None
                    end
                | _ => None
                end
            | _ => if Nat.eqb (nat_of_ascii e) 34 then keep 34 else None
            end
        | EmptyString => None
        end
      else string_body t (String c acc)
  end.

(** The JSON number grammar: -? (0 | [1-9][0-9]* ) (.[0-9]+)? ([eE][+-]?[0-9]+)? *)
Definition json_number (s : string) : option (number * string) :=
  let '(neg, s1) := match s with
                    | String "-" t => (true, t)
                    | _ => (false, s)
                    end in
  let '(ip, n1, s2) := Number.scan_digits s1 0 0 in
  let leading_zero := match s1 with
                      | String "0" _ => Nat.ltb 1 n1
                      | _ => false
                      end in
  if (Nat.eqb n1 0 || leading_zero)%bool then None
  else
    let frac :=
      match s2 with
      | String "." t =>
          let '(f, n, r) := Number.scan_digits t 0 0 in
          if Nat.eqb n 0 then None else Some (f, n, r)
      | _ => Some (0%Z, O, s2)
      end in
    match frac with
    | None => None
    | Some (fp, n2, s3) =>
        let m := (inject_Z ip + (fp # Z.to_pos (Number.pow10 n2)))%Q in
        let '(ex, s4) :=
          match s3 with
          | String c t =>
              if (Ascii.eqb c "e" || Ascii.eqb c "E")%bool then
                let '(eneg, t1) := Number.scan_sign t in
                let '(e, n, rest) := Number.scan_digits t1 0 0 in
                if Nat.eqb n 0 then (None, s3)
                else (Some (if eneg then (1 # Z.to_pos (Z.pow 10 e))%Q
                            else inject_Z (Z.pow 10 e)), rest)
              else (Some 1%Q, s3)
          | EmptyString => (Some 1%Q, s3)
          end in
        match ex with
        | None => None
        | Some x =>
            let v := Qred (m * x) in
            Some (Num (if neg then Qred (- v) else v), s4)
        end
    end.

Fixpoint parse_value (fuel : nat) (s : string) {struct fuel}
  : option (value * string) :=
  match fuel with
  | O => None
  | S f =>
      let s := skip_ws s in
      if String.prefix "null" s then Some (VNull, Str.drop 4 s)
      else if String.prefix "true" s then Some (VBool true, Str.drop 4 s)
      else if String.prefix "false" s then Some (VBool false, Str.drop 5 s)
      else
        match s with
        | EmptyString => None
        | String c t =>
            let n := nat_of_ascii c in
            if Nat.eqb n 34 then
              match string_body t EmptyString with
              | Some (str, rest) => Some (VStr str, rest)
              | None => None
              end
            else if Nat.eqb n 91 then
              match skip_ws t with
              | String "]" rest => Some (VArr [], rest)
              | t' => match parse_elements f t' with
                      | Some (xs, rest) => Some (VArr xs, rest)
                      | None => None
                      end
              end
            else if Nat.eqb n 123 then
              match skip_ws t with
              | String "}" rest => Some (VObj [], rest)
              | t' => match parse_members f t' [] with
                      | Some (fs, rest) => Some (VObj fs, rest)
                      | None => None
                      end
              end
            else
              match json_number s with
              | Some (x, rest) => Some (VNum x, rest)
              | None => None
              end
        end
  end
with parse_elements (fuel : nat) (s : string) {struct fuel}
  : option (list value * string) :=
  match fuel with
  | O => None
  | S f =>
      match parse_value f s with
      | None => None
      | Some (v, rest) =>
          match skip_ws rest with
          | String "]" rest' => Some ([v], rest')
          | String "," rest' =>
              match parse_elements f rest' with
              | Some (vs, r) => Some (v :: vs, r)
              | None => None
              end
          | _ => None
          end
      end
  end
with parse_members (fuel : nat) (s : string) (acc : list (string * value))
  {struct fuel} : option (list (string * value) * string) :=
  match fuel with
  | O => None
  | S f =>
      match skip_ws s with
      | String c t =>
          if Nat.eqb (nat_of_ascii c) 34 then
            match string_body t EmptyString with
            | None => None
            | Some (k, rest) =>
                match skip_ws rest with
                | String ":" rest1 =>
                    match parse_value f rest1 with
                    | None => None
                    | Some (v, rest2) =>
                        let acc' := Obj.set k v acc in
                        match skip_ws rest2 with
                        | String "}" rest3 => Some (acc', rest3)
                        | String "," rest3 => parse_members f rest3 acc'
                        | _ => None
                        end
                    end
                | _ => None
                end
            end
          else None
      | EmptyString => None
      end
  end.

(** [JSON.parse(text)]; the wording of the SyntaxError is the engine's
    and is not reproduced. *)
Definition parse_string (s : string) : outcome value :=
  match parse_value (2 * String.length s + 2) s with
  | Some (v, rest) =>
      match skip_ws rest with
      | EmptyString => Ok v
      | _ => Throw (SyntaxError "Unexpected non-whitespace character after JSON")
      end
  | None => Throw (SyntaxError "Unexpected token in JSON")
  end.

(** [JSON.parse(v)]: the argument is converted to a string first. *)
Definition parse (v : value) : M value := lift (parse_string (JS.toString v)).

Definition hex_digit (n : nat) : ascii :=
  if Nat.ltb n 10 then ascii_of_nat (48 + n) else ascii_of_nat (87 + n).

Fixpoint escape (s : string) : string :=
  match s with
  | EmptyString => EmptyString
  | String c t =>
      let n := nat_of_ascii c in
      let two (x : string) := (x ++ escape t)%string in
      if Nat.eqb n 34 then String "\" (String c (escape t))
      else if Nat.eqb n 92 then two "\\"
      else if Nat.eqb n 8 then two "\b"
      else if Nat.eqb n 12 then two "\f"
      else if Nat.eqb n 10 then two "\n"
      else if Nat.eqb n 13 then two "\r"
      else if Nat.eqb n 9 then two "\t"
      else if Nat.ltb n 32 then
        ("\u00" ++ String (hex_digit (n / 16)) (String (hex_digit (n mod 16)) (escape t)))%string
      else String c (escape t)
  end.

Definition quote (s : string) : string := Str.quoted (escape s).

Fixpoint join (sep : string) (xs : list string) : string :=
  match xs with
  | [] => ""
  | [x] => x
  | x :: t => (x ++ sep ++ join sep t)%string
  end.

(** Serialisation with the indentation unit [gap] (empty for the compact
    form) at the current indentation [cur].  A property whose value is
    [undefined] is skipped; in an array it prints as null, like NaN. *)
Fixpoint ser (gap cur : string) (v : value) : string :=
  let inner := (cur ++ gap)%string in
  let wrap (o c : string) (items : list string) : string :=
    match items with
    | [] => (o ++ c)%string
    | _ =>
        if String.eqb gap "" then (o ++ join "," items ++ c)%string
        else (o ++ Str.nl ++ inner ++ join ("," ++ Str.nl ++ inner) items
                ++ Str.nl ++ cur ++ c)%string
    end in
  match v with
  | VUndefined | VNull => "null"
  | VBool true => "true"
  | VBool false => "false"
  | VNum NaN => "null"
  | VNum n => Number.toString n
  | VStr s => quote s
  | VArr xs =>
      wrap "[" "]"
        ((fix items (l : list value) : list string :=
            match l with
            | [] => []
            | x :: t => ser gap inner x :: items t
            end) xs)
  | VObj fs =>
      wrap "{" "}"
        ((fix members (l : list (string * value)) : list string :=
            match l with
            | [] => []
            | (k, VUndefined) :: t => members t
            | (k, x) :: t =>
                (quote k ++ (if String.eqb gap "" then ":" else ": ")
                   ++ ser gap inner x)%string :: members t
            end) fs)
  end.

(** [JSON.stringify(v)] and [JSON.stringify(v, null, 2)]. *)
Definition stringify (v : value) : value :=
  match v with
  | VUndefined => VUndefined
  | _ => VStr (ser "" "" v)
  end.

Definition stringify2 (v : value) : value :=
  match v with
  | VUndefined => VUndefined
  | _ => VStr (ser "  " "" v)
  end.

End JSON.

(** ** The regulatory tool server (mcp-servers/fda-validation/index.js) *)

Module Server.

(** [fdaThresholds], in the order of the object literal, which is the
    order [Object.entries] walks. *)
Definition fdaThresholds : list (string * list (string * number)) :=
  [ ("low fat", [("totalFat", Num 3)]);
    ("fat free", [("totalFat", Num (1 # 2))]);
    ("low sodium", [("sodium", Num 140)]);
    ("sodium free", [("sodium", Num 5)]);
    ("high fiber", [("dietaryFiber", Num 5)]);
    ("good source of fiber", [("dietaryFiber", Num (5 # 2))]) ].

(** The class [^\d.] of the replace. *)
Definition digit_or_dot (c : ascii) : bool :=
  (Str.is_digit c || Ascii.eqb c ".")%bool.

(** [nutritionalData[nutrient]?.replace(/[^\d.]/g, '') || '0'] *)
Definition cleaned (nutritionalData : value) (nutrient : string) : M value :=
  raw <- getProp nutritionalData nutrient ;;
  stripped <- match raw with
              | VUndefined | VNull => ret VUndefined
              | VStr s => ret (VStr (Str.filter digit_or_dot s))
              | _ => not_a_function "nutritionalData[nutrient]?.replace"
              end ;;
  ret (JS.or stripped (VStr "0")).

Fixpoint checkNutritionalThreshold (nutritionalData : value)
  (thresholds : list (string * number)) : M bool :=
  match thresholds with
  | [] => ret true
  | (nutrient, maxValue) :: rest =>
      text <- cleaned nutritionalData nutrient ;;
      let actualValue := Number.parseFloat (JS.toString text) in
      if Number.gtb actualValue maxValue then ret false
      else checkNutritionalThreshold nutritionalData rest
  end.

(** [claim.toLowerCase()] *)
Definition toLowerCase (expr : string) (v : value) : M string :=
  match v with
  | VStr s => ret (Str.toLowerCase s)
  | VUndefined | VNull =>
      _ <- getProp v "toLowerCase" ;; ret ""
  | _ => not_a_function (expr ++ ".toLowerCase")
  end.

Definition meets (claimType : string) : string :=
  "Claim meets FDA requirements for " ++ Str.quoted claimType.

Definition fails (claimType : string) : string :=
  "Claim does not meet FDA requirements for " ++ Str.quoted claimType.

Definition unrecognized : string := "Claim not recognized or cannot be validated".

(** The loop over the thresholds, with its [break] at the first claim
    type that the normalised claim contains. *)
Fixpoint firstMatch (normalizedClaim : string) (nutritionalData : value)
  (table : list (string * list (string * number))) : M (bool * string) :=
  match table with
  | [] => ret (false, unrecognized)
  | (claimType, thresholds) :: rest =>
      if Str.includes normalizedClaim claimType then
        isValid <- checkNutritionalThreshold nutritionalData thresholds ;;
        ret (isValid, if isValid then meets claimType else fails claimType)
      else firstMatch normalizedClaim nutritionalData rest
  end.

Definition validateSingleClaim (claim nutritionalData : value) : M value :=
  normalizedClaim <- toLowerCase "claim" claim ;;
  r <- firstMatch normalizedClaim nutritionalData fdaThresholds ;;
  ret (Obj.literal [ ("claim", claim);
                     ("isValid", VBool (fst r));
                     ("reason", VStr (snd r));
                     ("fdaSource", VStr "FDA Nutrition Labeling Guidelines") ]).

(** The values a [for ... of] walks. *)
Definition iterate (expr : string) (v : value) : M (list value) :=
  match v with
  | VArr xs => ret xs
  | VStr s => ret (Obj.chars s)
  | _ => throw (TypeError (expr ++ " is not iterable"))
  end.

Definition textContent (text : value) : value :=
  Obj.literal [ ("content", VArr [Obj.literal [("type", VStr "text"); ("text", text)]]) ].

(** The part of the server's world that is not its own code: its clock
    and the search of FDA Food Data Central (a mock when no API key is
    set, an HTTP request otherwise). *)
Record World : Type := mkWorld {
  clk : Clock;
  searchFoodDataCentral : value -> M value
}.

Definition knownGRAS : list string :=
  [ "salt"; "sugar"; "water"; "wheat flour"; "corn starch"; "soybean oil";
    "milk"; "eggs"; "butter"; "vanilla extract"; "baking soda"; "yeast";
    "vinegar"; "citric acid"; "ascorbic acid"; "sodium chloride" ].

Definition checkGRASStatus (ingredient : value) : M value :=
  lower <- toLowerCase "ingredient" ingredient ;;
  let normalizedIngredient := Str.trim lower in
  let isGRAS :=
    existsb (fun gras => (Str.includes normalizedIngredient gras
                          || Str.includes gras normalizedIngredient)%bool)
            knownGRAS in
  ret (Obj.literal
         [ ("status", VStr (if isGRAS then "GRAS" else "REQUIRES_REVIEW"));
           ("confidence", VNum (Num (if isGRAS then 9 # 10 else 3 # 10)));
           ("notes", VStr (if isGRAS then "Generally Recognized as Safe"
                           else "Not found in common GRAS ingredients - manual review recommended")) ]).

Definition majorAllergens : list string :=
  [ "milk"; "eggs"; "fish"; "shellfish"; "tree nuts"; "peanuts"; "wheat"; "soybeans" ].

Definition performSafetyCheck (ingredient : value) : M value :=
  normalizedIngredient <- toLowerCase "ingredient" ingredient ;;
  let has := Str.includes normalizedIngredient in
  let allergenWarnings :=
    List.map (fun allergen =>
                VStr ("Contains " ++ allergen ++ " - Major allergen requiring disclosure"))
             (List.filter has majorAllergens) in
  let warnings :=
    (allergenWarnings ++
     (if (has "artificial" || has "fdc" || has "red dye" || has "yellow dye")%bool
      then [VStr "Contains artificial additives - verify FDA approval status"]
      else []))%list in
  let notes :=
    if (has "sodium benzoate" || has "potassium sorbate" || has "bht" || has "bha")%bool
    then [VStr "Contains preservatives - generally recognized as safe in specified amounts"]
    else [] in
  ret (Obj.literal
         [ ("level", VStr (match warnings with [] => "SAFE" | _ => "WARNING" end));
           ("warnings", VArr warnings);
           ("notes", VArr notes) ]).

(** [results.filter(p).length] *)
Definition count (p : value -> bool) (xs : list value) : value :=
  VNum (Number.of_nat (List.length (List.filter p xs))).

Section WithWorld.
Variable world : World.

Definition validateOne (ingredient : value) : M value :=
  try_catch
    (searchResults <- searchFoodDataCentral world ingredient ;;
     grasStatus <- checkGRASStatus ingredient ;;
     safetyCheck <- performSafetyCheck ingredient ;;
     found <- getProp searchResults "found" ;;
     validatedAt <- Date_toISOString (clk world) ;;
     ret (Obj.literal
            [ ("ingredient", ingredient);
              ("fdaApproved", found);
              ("grasStatus", JS.get grasStatus "status");
              ("safetyLevel", JS.get safetyCheck "level");
              ("warnings", JS.get safetyCheck "warnings");
              ("regulatoryNotes", JS.get safetyCheck "notes");
              ("source", VStr "FDA Food Data Central");
              ("validatedAt", validatedAt) ]))
    (fun error =>
       validatedAt <- Date_toISOString (clk world) ;;
       ret (Obj.literal [ ("ingredient", ingredient);
                          ("error", message error);
                          ("validatedAt", validatedAt) ])).

Definition validateIngredients (ingredients : value) : M value :=
  items <- iterate "ingredients" ingredients ;;
  results <- mapM validateOne items ;;
  ret (textContent
         (JSON.stringify2
            (Obj.literal
               [ ("validationResults", VArr results);
                 ("summary",
                  Obj.literal
                    [ ("totalIngredients", JS.get ingredients "length");
                      ("approved", count (fun r => JS.truthy (JS.get r "fdaApproved")) results);
                      ("warnings",
                       count (fun r => JS.gt (getOpt (JS.get r "warnings") "length")
                                             (VNum (Num 0))) results);
                      ("source", VStr "FDA MCP Validation Server") ]) ]))).

Definition validateNutritionalClaims (claims nutritionalData : value) : M value :=
  cs <- iterate "claims" claims ;;
  validationResults <- mapM (fun claim => validateSingleClaim claim nutritionalData) cs ;;
  validatedAt <- Date_toISOString (clk world) ;;
  ret (textContent
         (JSON.stringify2
            (Obj.literal [ ("claimValidations", VArr validationResults);
                           ("source", VStr "FDA Nutritional Claims Validation");
                           ("validatedAt", validatedAt) ]))).

Definition approvedAdditives : list (string * list (string * value)) :=
  [ ("citric acid", [("status", VStr "APPROVED"); ("cfr", VStr "21 CFR 182.6033")]);
    ("ascorbic acid", [("status", VStr "APPROVED"); ("cfr", VStr "21 CFR 182.3013")]);
    ("sodium benzoate", [("status", VStr "APPROVED"); ("cfr", VStr "21 CFR 182.3013")]);
    ("yellow 5", [("status", VStr "APPROVED"); ("cfr", VStr "21 CFR 74.705")]);
    ("red 40", [("status", VStr "APPROVED"); ("cfr", VStr "21 CFR 74.340")]) ].

(** [approvedAdditives[key] || { status: 'UNKNOWN', ... }], as the spread
    sees it; the two lower-case names every object inherits are truthy
    and spread to nothing. *)
Definition additiveEntry (key : string) : list (string * value) :=
  match List.find (fun e => String.eqb (fst e) key) approvedAdditives with
  | Some e => snd e
  | None =>
      if (String.eqb key "constructor" || String.eqb key "__proto__")%bool then []
      else [ ("status", VStr "UNKNOWN");
             ("cfr", VStr "Not found - manual verification required") ]
  end.

Definition checkAdditiveStatus (additive : value) : M value :=
  key <- toLowerCase "additive" additive ;;
  checkedAt <- Date_toISOString (clk world) ;;
  ret (textContent
         (JSON.stringify2
            (Obj.literal
               (("additive", additive) :: additiveEntry key
                ++ [ ("source", VStr "FDA Food Additive Database");
                     ("checkedAt", checkedAt) ])%list))).

Definition allergenFindingsOf (ingredient : value) : M (list value) :=
  normalizedIngredient <- toLowerCase "ingredient" ingredient ;;
  ret (List.map
         (fun allergen =>
            Obj.literal
              [ ("ingredient", ingredient);
                ("allergen", VStr allergen);
                ("requirement", VStr ("Must be disclosed as " ++ Str.dq ++ "Contains "
                                      ++ allergen ++ Str.dq ++ " per FDA regulations"));
                ("regulation",
                 VStr "Food Allergen Labeling and Consumer Protection Act (FALCPA)") ])
         (List.filter (Str.includes normalizedIngredient) majorAllergens)).

Definition checkAllergenRequirements (ingredients : value) : M value :=
  items <- match ingredients with
           | VArr l => ret l
           | VUndefined | VNull => _ <- getProp ingredients "forEach" ;; ret []
           | _ => not_a_function "ingredients.forEach"
           end ;;
  found <- mapM allergenFindingsOf items ;;
  let allergenFindings := List.concat found in
  checkedAt <- Date_toISOString (clk world) ;;
  ret (textContent
         (JSON.stringify2
            (Obj.literal
               [ ("allergenFindings", VArr allergenFindings);
                 ("totalIngredients", JS.get ingredients "length");
                 ("allergensFound", VNum (Number.of_nat (List.length allergenFindings)));
                 ("complianceStatus",
                  VStr (match allergenFindings with
                        | [] => "COMPLIANT"
                        | _ => "LABELING_REQUIRED"
                        end));
                 ("source", VStr "FDA Allergen Labeling Requirements");
                 ("checkedAt", checkedAt) ]))).

(** The handler of tools/call: the tool is chosen by name; whatever the
    tool throws becomes an error content. *)
Definition callTool (request : value) : M value :=
  params <- getProp request "params" ;;
  name <- getProp params "name" ;;
  let args := JS.get params "arguments" in
  try_catch
    (if JS.is_str name "validate_ingredients" then
       ingredients <- getProp args "ingredients" ;;
       validateIngredients ingredients
     else if JS.is_str name "check_additive_status" then
       additive <- getProp args "additive" ;;
       checkAdditiveStatus additive
     else if JS.is_str name "validate_nutritional_claims" then
       claims <- getProp args "claims" ;;
       validateNutritionalClaims claims (JS.get args "nutritionalData")
     else if JS.is_str name "check_allergen_requirements" then
       ingredients <- getProp args "ingredients" ;;
       checkAllergenRequirements ingredients
     else throw (Error ("Unknown tool: " ++ JS.toString name)))
    (fun error =>
       ret (Obj.literal
              [ ("content", VArr [Obj.literal [ ("type", VStr "text");
                                                ("text", VStr ("Error: " ++ emessage error)) ]]);
                ("isError", VBool true) ])).

End WithWorld.

End Server.

Definition st0 : state := mkState 0 [] [].

Definition clock0 : Clock := mkClock (fun k => Z.of_nat k) (fun z => "T" ++ Str.of_Z z).

(** ** The environment of the activities *)

(** What a spawned process does, as the events its handle and the
    streams of the handle emit; time passing without an event is
    [Elapsed].  The chunk of a ['data'] event is its text,
    [data.toString()]: every chunk is decoded on its own, so that for
    output that is not ASCII the texts depend on where the output is
    split.  [ChildError] is the ['error'] event of the handle (the
    process could not be spawned) and [StdinError] the one of its stdin
    (a write that fails, as when the process exits before it has read
    the request). *)
Inductive child_event : Type :=
| StdoutData (chunk : string)
| StderrData (chunk : string)
| Close (code : value)
| Elapsed (ms : Z)
| ChildError (e : error)
| StdinError (e : error).

Record Env : Type := mkEnv {
  clk : Clock;
  (** [Tesseract.recognize(imageSource, 'eng', ocrConfig)] *)
  recognize : value -> outcome value;
  (** [anthropic.messages.create(request)] *)
  anthropic : value -> outcome value;
  (** the [openai] client, when a key is configured:
      [openai.chat.completions.create(request)] *)
  openai : option (value -> outcome value);
  (** the process [spawn] starts, given what is written to its stdin *)
  child : string -> list child_event
}.

(** [const { k = dflt } = src]: the default applies to [undefined] only;
    [name] is how the engine names the source in its TypeError. *)
Definition destructure_from (name : string) (src : value) (k : string) (dflt : value)
  : M value :=
  match src with
  | VUndefined =>
      throw (TypeError ("Cannot destructure property '" ++ k
                        ++ "' of '" ++ name ++ "' as it is undefined."))
  | VNull =>
      throw (TypeError ("Cannot destructure property '" ++ k
                        ++ "' of '" ++ name ++ "' as it is null."))
  | _ => ret (match JS.get src k with
              | VUndefined => dflt
              | v => v
              end)
  end.

Definition destructure := destructure_from "data".

(** ** temporal/activities/fdaValidation.js *)

Module FDA.

(** [path.join(__dirname, '../../mcp-servers/fda-validation/index.js')],
    relative to the directory of the module. *)
Definition mcpServerPath : string := "../../mcp-servers/fda-validation/index.js".

(** The closure state of the promise in [callFDAMCPTool]. *)
Record pipe : Type := mkPipe {
  stdout : string;
  stderr : string;
  settled : option (outcome value);
  (** the ['error'] event that found no listener, if any: the process
      is dead from then on *)
  crashed : option error
}.

Definition pipe0 : pipe := mkPipe "" "" None None.

(** [code !== 0] *)
Definition not_zero (code : value) : bool := negb (JS.is_zero code).

(** The ['close'] handler. *)
Definition on_close (p : pipe) (code : value) : outcome value :=
  if not_zero code then
    Throw (Error ("MCP server exited with code " ++ JS.toString code ++ ": " ++ stderr p))
  else
    let lines := Str.split_lines (Str.trim (stdout p)) in
    let jsonResponse := List.last lines "" in
    match JSON.parse_string jsonResponse with
    | Ok result => Ok result
    | Throw error => Throw (Error ("Failed to parse MCP response: " ++ emessage error))
    | Pending => Pending
    end.

(** One event of the child, through the three handlers registered; no
    timer is registered, so elapsed time changes nothing.  No handler is
    registered for ['error'], neither on the handle nor on its stdin:
    such an event, while the promise is not settled, is thrown by the
    emitter and ends the process, after which nothing happens any more.
    (Once the promise has settled, the events of the handle are no
    longer part of the call.) *)
Definition step (p : pipe) (ev : child_event) : pipe :=
  match crashed p with
  | Some _ => p
  | None =>
      match ev with
      | StdoutData data => mkPipe (stdout p ++ data) (stderr p) (settled p) None
      | StderrData data => mkPipe (stdout p) (stderr p ++ data) (settled p) None
      | Close code =>
          match settled p with
          | None => mkPipe (stdout p) (stderr p) (Some (on_close p code)) None
          | Some _ => p
          end
      | Elapsed _ => p
      | ChildError e | StdinError e =>
          match settled p with
          | None => mkPipe (stdout p) (stderr p) None (Some e)
          | Some _ => p
          end
      end
  end.

(** The promise awaited: settled by the ['close'] handler; never
    settled when no close event came, or when an unhandled ['error']
    ended the process first. *)
Definition await (p : pipe) : M value :=
  match settled p with
  | Some o => lift o
  | None =>
      match crashed p with
      | Some e => emit (Uncaught e) ;;; lift Pending
      | None => lift Pending
      end
  end.

Definition mcpRequest (toolName : string) (args : value) : value :=
  Obj.literal [ ("jsonrpc", VStr "2.0");
                ("id", VNum (Num 1));
                ("method", VStr "tools/call");
                ("params", Obj.literal [ ("name", VStr toolName);
                                         ("arguments", args) ]) ].

Definition requestLine (toolName : string) (args : value) : string :=
  JS.toString (JS.add (JSON.stringify (mcpRequest toolName args)) (VStr Str.nl)).

Section WithEnv.
Variable env : Env.

Definition callFDAMCPTool (toolName : string) (args : value) : M value :=
  emit (Spawn "node" [mcpServerPath]) ;;;
  emit (StdinWrite (requestLine toolName args)) ;;;
  emit StdinEnd ;;;
  await (fold_left step (child env (requestLine toolName args)) pipe0).

(** An object literal whose last field is
    [timestamp: new Date().toISOString()]. *)
Definition stamped (fields : list (string * value)) : M value :=
  timestamp <- Date_toISOString (clk env) ;;
  ret (Obj.literal (fields ++ [ ("timestamp", timestamp) ])%list).

(** [xs.forEach(f)] on a value. *)
Definition valueForEach (expr : string) (xs : value) (f : value -> M unit) : M unit :=
  match xs with
  | VArr l => forEach f l
  | VUndefined | VNull => _ <- getProp xs "forEach" ;; ret tt
  | _ => not_a_function (expr ++ ".forEach")
  end.

Definition perValidationResult (validationResult : value) : M unit :=
  fdaApproved <- getProp validationResult "fdaApproved" ;;
  let ingredient := JS.get validationResult "ingredient" in
  (if negb (JS.truthy fdaApproved) then
     f <- stamped [ ("type", VStr "FDA_INGREDIENT_NOT_APPROVED");
                    ("severity", VStr "WARNING");
                    ("message", VStr ("Ingredient " ++ Str.quoted (JS.toString ingredient)
                                      ++ " not found in FDA approved database"));
                    ("source", VStr "FDA Food Data Central");
                    ("sourceTag", VStr "FDA-INGREDIENT");
                    ("ingredient", ingredient) ] ;;
     push "issues" f
   else ret tt) ;;;
  let warnings := JS.get validationResult "warnings" in
  (if JS.truthy (JS.and warnings (VBool (JS.gt (JS.get warnings "length") (VNum (Num 0)))))
   then
     valueForEach "validationResult.warnings" warnings (fun warning =>
       f <- stamped [ ("type", VStr "FDA_INGREDIENT_WARNING");
                      ("severity", VStr "WARNING");
                      ("message", warning);
                      ("source", VStr "FDA Food Data Central");
                      ("sourceTag", VStr "FDA-INGREDIENT");
                      ("ingredient", ingredient) ] ;;
       push "issues" f)
   else ret tt) ;;;
  (if negb (JS.truthy (JS.get validationResult "grasStatus")) then
     f <- stamped [ ("type", VStr "FDA_GRAS_RECOMMENDATION");
                    ("severity", VStr "INFO");
                    ("message", VStr ("Verify GRAS (Generally Recognized as Safe) status for "
                                      ++ Str.quoted (JS.toString ingredient)));
                    ("source", VStr "FDA MCP Server");
                    ("sourceTag", VStr "FDA-GRAS");
                    ("ingredient", ingredient) ] ;;
     push "recommendations" f
   else ret tt).

Definition processFDAResult (parsedResult : value) : M unit :=
  validationResults <- getProp parsedResult "validationResults" ;;
  (if JS.truthy validationResults then
     valueForEach "parsedResult.validationResults" validationResults perValidationResult
   else ret tt) ;;;
  let summary := JS.get parsedResult "summary" in
  if JS.truthy summary then
    f <- stamped [ ("type", VStr "FDA_VALIDATION_SUMMARY");
                   ("severity", VStr "INFO");
                   ("message",
                    VStr ("FDA validation completed: "
                          ++ JS.toString (JS.get summary "approved") ++ "/"
                          ++ JS.toString (JS.get summary "totalIngredients")
                          ++ " ingredients approved, "
                          ++ JS.toString (JS.get summary "warnings")
                          ++ " warnings found"));
                   ("source", VStr "FDA MCP Server");
                   ("sourceTag", VStr "FDA-INGREDIENT") ] ;;
    push "recommendations" f
  else ret tt.

Definition serviceError : list (string * value) :=
  [ ("type", VStr "FDA_SERVICE_ERROR");
    ("severity", VStr "WARNING");
    ("message", VStr "FDA validation service temporarily unavailable - manual review recommended");
    ("source", VStr "FDA MCP Server");
    ("sourceTag", VStr "FDA-INGREDIENT") ].

Definition noIngredients : list (string * value) :=
  [ ("type", VStr "FDA_NO_INGREDIENTS");
    ("severity", VStr "WARNING");
    ("message", VStr "No ingredients detected - manual ingredient list review recommended");
    ("source", VStr "FDA Ingredient Database");
    ("sourceTag", VStr "FDA-INGREDIENT") ].

(** [xs.filter(i => i.severity === sev).length] and [xs.length] on the
    arrays the function itself built. *)
Definition countSeverity (sev : string) (xs : value) : value :=
  match xs with
  | VArr l =>
      VNum (Number.of_nat
              (List.length (List.filter (fun i => JS.is_str (JS.get i "severity") sev) l)))
  | _ => VUndefined
  end.

(** What the response of the tool holds once it has arrived: the
    payload at [result.content[0].text], parsed and turned into findings;
    a payload that does not parse, or whose processing throws, is logged
    and dropped. *)
Definition readResponse (response : value) : M unit :=
  setVar "fdaValidationResult" response ;;;
  res <- getProp response "result" ;;
  let content := JS.get res "content" in
  if JS.truthy (JS.and res (JS.and content (JS.at_ content 0))) then
    let result := JS.get (JS.at_ content 0) "text" in
    try_catch
      (parsedResult <- JSON.parse result ;;
       processFDAResult parsedResult)
      (fun parseError => ret tt)
  else ret tt.

(** The inner try/catch of validateIngredientsWithFDA: the call of the
    tool and the reading of its response; any failure replaces the
    issues by the single service-unavailable finding. *)
Definition queryFDA (ingredientsToValidate : value) : M unit :=
  try_catch
    (response <- callFDAMCPTool "validate_ingredients"
                   (Obj.literal [("ingredients", ingredientsToValidate)]) ;;
     readResponse response)
    (fun error =>
       f <- stamped serviceError ;;
       setVar "issues" (VArr [f])).

Definition validateIngredientsWithFDA (data : value) : M value :=
  try_catch
    (startTime <- Date_now (clk env) ;;
     ingredients <- destructure data "ingredients" (VArr []) ;;
     extractedInformation <- destructure data "extractedInformation" (VObj []) ;;
     len <- getProp ingredients "length" ;;
     ingredientsToValidate <-
       (if negb (JS.truthy len) then
          fromInfo <- getProp extractedInformation "ingredients" ;;
          ret (if JS.truthy fromInfo then fromInfo else ingredients)
        else ret ingredients) ;;
     setVar "fdaValidationResult" VUndefined ;;;
     setVar "issues" (VArr []) ;;;
     setVar "recommendations" (VArr []) ;;;
     queryFDA ingredientsToValidate ;;;
     (if JS.is_zero (JS.get ingredientsToValidate "length") then
        f <- stamped noIngredients ;;
        push "issues" f
      else ret tt) ;;;
     finished <- Date_now (clk env) ;;
     let processingTime := JS.sub finished startTime in
     issues <- getVar "issues" ;;
     recommendations <- getVar "recommendations" ;;
     fdaValidationResult <- getVar "fdaValidationResult" ;;
     let count := JS.get ingredientsToValidate "length" in
     validatedAt <- Date_toISOString (clk env) ;;
     ret (Obj.literal
            [ ("success", VBool true);
              ("fdaValidation",
               Obj.literal
                 [ ("ingredientsValidated", count);
                   ("issues", issues);
                   ("recommendations", recommendations);
                   ("summary",
                    Obj.literal
                      [ ("totalIssues", JS.get issues "length");
                        ("complianceIssues", countSeverity "COMPLIANCE" issues);
                        ("warnings", countSeverity "WARNING" issues);
                        ("recommendations", JS.get recommendations "length");
                        ("ingredientsValidated", count);
                        ("message",
                         VStr (if JS.truthy fdaValidationResult
                               then "FDA validation completed with real FDA API data"
                               else "FDA validation completed with fallback data")) ]);
                   ("processingTime", processingTime);
                   ("validatedAt", validatedAt);
                   ("source", VStr "FDA MCP Validation Server (Live API)");
                   ("fdaApiResult", fdaValidationResult) ]) ]))
    (fun error =>
       issue <- stamped [ ("type", VStr "FDA_VALIDATION_ERROR");
                          ("severity", VStr "ERROR");
                          ("message", VStr ("FDA validation failed: " ++ emessage error));
                          ("source", VStr "FDA MCP Server");
                          ("sourceTag", VStr "FDA-ERROR") ] ;;
       retry <- stamped [ ("type", VStr "FDA_RETRY");
                          ("severity", VStr "INFO");
                          ("message", VStr "Retry FDA validation or perform manual regulatory review");
                          ("source", VStr "FDA MCP Server");
                          ("sourceTag", VStr "FDA-RETRY") ] ;;
       ret (Obj.literal
              [ ("success", VBool false);
                ("error", message error);
                ("fdaValidation",
                 Obj.literal [ ("issues", VArr [issue]);
                               ("recommendations", VArr [retry]) ]) ])).

Definition perClaimValidation (validation : value) : M unit :=
  isValid <- getProp validation "isValid" ;;
  let source := JS.or (JS.get validation "fdaSource")
                      (VStr "FDA Nutrition Labeling Guidelines") in
  if negb (JS.truthy isValid) then
    f <- stamped [ ("type", VStr "FDA_INVALID_CLAIM");
                   ("severity", VStr "COMPLIANCE");
                   ("claim", JS.get validation "claim");
                   ("message", JS.get validation "reason");
                   ("source", source);
                   ("sourceTag", VStr "FDA-CLAIMS") ] ;;
    push "issues" f
  else
    f <- stamped [ ("type", VStr "FDA_VALID_CLAIM");
                   ("severity", VStr "INFO");
                   ("claim", JS.get validation "claim");
                   ("message", JS.get validation "reason");
                   ("source", source);
                   ("sourceTag", VStr "FDA-CLAIMS") ] ;;
    push "recommendations" f.

(** [validationData.claimValidations?.forEach(...)] *)
Definition claimFindings (validationData : value) : M unit :=
  claimValidations <- getProp validationData "claimValidations" ;;
  if JS.nullish claimValidations then ret tt
  else valueForEach "validationData.claimValidations" claimValidations perClaimValidation.

Definition validateNutritionalClaimsWithFDA (data : value) : M value :=
  try_catch
    (startTime <- Date_now (clk env) ;;
     claims <- destructure data "claims" (VArr []) ;;
     nutritionalInfo <- destructure data "nutritionalInfo" (VObj []) ;;
     len <- getProp claims "length" ;;
     if negb (JS.truthy len) then
       none <- stamped [ ("type", VStr "FDA_NO_CLAIMS");
                         ("severity", VStr "INFO");
                         ("message", VStr "No nutritional claims detected - no FDA validation required");
                         ("source", VStr "FDA Claims Validation");
                         ("sourceTag", VStr "FDA-CLAIMS") ] ;;
       ret (Obj.literal
              [ ("success", VBool true);
                ("fdaClaimsValidation",
                 Obj.literal [ ("claimsValidated", VNum (Num 0));
                               ("issues", VArr []);
                               ("recommendations", VArr [none]) ]) ])
     else
       claimsValidation <- callFDAMCPTool "validate_nutritional_claims"
                             (Obj.literal [ ("claims", claims);
                                            ("nutritionalData", nutritionalInfo) ]) ;;
       finished <- Date_now (clk env) ;;
       let processingTime := JS.sub finished startTime in
       setVar "issues" (VArr []) ;;;
       setVar "recommendations" (VArr []) ;;;
       content <- getProp claimsValidation "content" ;;
       let text := getOpt (atOpt content 0) "text" in
       (if JS.truthy text then
          validationData <- JSON.parse text ;;
          claimFindings validationData
        else ret tt) ;;;
       issues <- getVar "issues" ;;
       recommendations <- getVar "recommendations" ;;
       validatedAt <- Date_toISOString (clk env) ;;
       ret (Obj.literal
              [ ("success", VBool true);
                ("fdaClaimsValidation",
                 Obj.literal [ ("claimsValidated", len);
                               ("issues", issues);
                               ("recommendations", recommendations);
                               ("processingTime", processingTime);
                               ("validatedAt", validatedAt) ]) ]))
    (fun error =>
       issue <- stamped [ ("type", VStr "FDA_CLAIMS_ERROR");
                          ("severity", VStr "ERROR");
                          ("message", VStr ("FDA claims validation failed: " ++ emessage error));
                          ("source", VStr "FDA MCP Server");
                          ("sourceTag", VStr "FDA-ERROR") ] ;;
       ret (Obj.literal
              [ ("success", VBool false);
                ("error", message error);
                ("fdaClaimsValidation", Obj.literal [ ("issues", VArr [issue]) ]) ])).

(** [checkFoodAdditiveStatus]: the status and the CFR reference are read
    at the top of what the call resolves with. *)
Definition checkFoodAdditiveStatus (additive : value) : M value :=
  try_catch
    (startTime <- Date_now (clk env) ;;
     additiveCheck <- callFDAMCPTool "check_additive_status"
                        (Obj.literal [("additive", additive)]) ;;
     finished <- Date_now (clk env) ;;
     let processingTime := JS.sub finished startTime in
     status <- getProp additiveCheck "status" ;;
     checkedAt <- Date_toISOString (clk env) ;;
     ret (Obj.literal
            [ ("success", VBool true);
              ("additiveValidation",
               Obj.literal [ ("additive", additive);
                             ("status", JS.or status (VStr "UNKNOWN"));
                             ("cfr", JS.get additiveCheck "cfr");
                             ("processingTime", processingTime);
                             ("checkedAt", checkedAt) ]) ]))
    (fun error =>
       ret (Obj.literal [ ("success", VBool false);
                          ("error", message error) ])).

End WithEnv.

End FDA.

(** ** The text-extraction activities (performOCR, assessOCRQuality) *)

Module OCR.

(** The class [[:\s-]] of the section patterns. *)
Definition separator (c : ascii) : bool :=
  (Ascii.eqb c ":" || Str.is_ws c || Ascii.eqb c "-")%bool.

Fixpoint skip_separators (s : string) : string :=
  match s with
  | String c t => if separator c then skip_separators t else s
  | EmptyString => s
  end.

(** The lazy group [(.*?)] in front of the lookahead
    [(?=\n|$|stop1|stop2|...)]: the shortest prefix after which a line
    feed, the end of the text or a stop word follows. *)
Fixpoint lazy_until (stops : list string) (s : string) : string :=
  match s with
  | EmptyString => ""
  | String c t =>
      if (Nat.eqb (nat_of_ascii c) 10 || existsb (fun k => String.prefix k s) stops)%bool
      then ""
      else String c (lazy_until stops t)
  end.

(** [lowerText.match(/keyword s?[:\s-]*(.*?)(?=...)/si)[1]], when the
    pattern matches: the leftmost occurrence of the keyword decides, since
    the lookahead succeeds at the end of the text at the latest.
    [plural] tells whether the pattern has the optional s. *)
Definition capture (keyword : string) (plural : bool) (stops : list string)
  (lowerText : string) : option string :=
  match Str.split_first keyword lowerText with
  | None => None
  | Some (_, rest) =>
      let rest := match plural, rest with
                  | true, String "s" t => t
                  | _, _ => rest
                  end in
      Some (lazy_until stops (skip_separators rest))
  end.

(** The seven patterns, in the order of the object literal: the section,
    its keyword, whether a plural s is optional, and the stop words of
    the lookahead. *)
Definition patterns : list (string * (string * bool * list string)) :=
  [ ("ingredients", ("ingredient", true, ["directions"; "warnings"; "caution"]));
    ("directions", ("direction", true, ["ingredients"; "warnings"; "caution"]));
    ("warnings", ("warning", true, ["ingredients"; "directions"]));
    ("caution", ("caution", false, ["ingredients"; "directions"; "warnings"]));
    ("dosage", ("dosage", false, ["ingredients"; "directions"; "warnings"]));
    ("activeIngredients", ("active ingredient", true, ["inactive"; "directions"]));
    ("inactiveIngredients", ("inactive ingredient", true, ["active"; "directions"])) ].

(** [parseRegulatoryStructure]: a section is recorded when its pattern
    matches with a non-empty group. *)
Definition parseRegulatoryStructure (text : string) : value :=
  let lowerText := Str.toLowerCase text in
  VObj (fold_left
          (fun sections p =>
             let '(section, (keyword, plural, stops)) := p in
             match capture keyword plural stops lowerText with
             | Some (String c t) =>
                 Obj.set section (VStr (Str.trim (String c t))) sections
             | _ => sections
             end)
          patterns []).

(** [v.trim()] *)
Definition trim (expr : string) (v : value) : M value :=
  match v with
  | VStr s => ret (VStr (Str.trim s))
  | VUndefined | VNull => getProp v "trim"
  | _ => not_a_function (expr ++ ".trim")
  end.

(** [(xs || []).map(f)], [.filter(p)] and [.length] need an array. *)
Definition asArray (expr method : string) (v : value) : M (list value) :=
  match JS.or v (VArr []) with
  | VArr l => ret l
  | _ => not_a_function ("(" ++ expr ++ " || [])." ++ method)
  end.

Definition wordEntry (word : value) : M value :=
  text <- getProp word "text" ;;
  ret (Obj.literal [ ("text", text);
                     ("confidence", JS.get word "confidence");
                     ("bbox", JS.get word "bbox") ]).

Definition lineText (line : value) : M value :=
  text <- getProp line "text" ;;
  trim "line.text" text.

Definition lowConfidence (word : value) : M bool :=
  confidence <- getProp word "confidence" ;;
  ret (JS.lt confidence (VNum (Num 60))).

Fixpoint filterM {A} (p : A -> M bool) (xs : list A) : M (list A) :=
  match xs with
  | [] => ret []
  | x :: t => b <- p x ;; r <- filterM p t ;; ret (if b then x :: r else r)
  end.

(** [xs.reduce((sum, word) => sum + word.confidence, 0)] *)
Fixpoint sumConfidence (sum : value) (xs : list value) : M value :=
  match xs with
  | [] => ret sum
  | word :: t =>
      confidence <- getProp word "confidence" ;;
      sumConfidence (JS.add sum confidence) t
  end.

Definition noImageSource : string :=
  "No valid image source provided (imageUrl, imagePath, or imageBuffer)".

Section WithEnv.
Variable env : Env.

Definition performOCR (labelData : value) : M value :=
  _ <- getProp labelData "filename" ;;
  try_catch
    (startTime <- Date_now (clk env) ;;
     imageSource <-
       (if JS.truthy (JS.get labelData "imageUrl") then ret (JS.get labelData "imageUrl")
        else if JS.truthy (JS.get labelData "imagePath") then ret (JS.get labelData "imagePath")
        else if JS.truthy (JS.get labelData "imageBuffer") then ret (JS.get labelData "imageBuffer")
        else throw (Error noImageSource)) ;;
     emit (Recognize imageSource "eng") ;;;
     recognized <- lift (recognize env imageSource) ;;
     data <- destructure_from "(intermediate value)" recognized "data" VUndefined ;;
     finished <- Date_now (clk env) ;;
     let processingTime := JS.sub finished startTime in
     rawText <- getProp data "text" ;;
     text <- trim "data.text" rawText ;;
     ws <- asArray "data.words" "map" (JS.get data "words") ;;
     wordList <- mapM wordEntry ws ;;
     ls <- asArray "data.lines" "map" (JS.get data "lines") ;;
     trimmed <- mapM lineText ls ;;
     let lines := List.filter (fun line => JS.gt (JS.get line "length") (VNum (Num 0))) trimmed in
     low <- filterM lowConfidence ws ;;
     averageWordConfidence <-
       (if Nat.ltb 0 (List.length ws) then
          sum <- sumConfidence (VNum (Num 0)) ws ;;
          ret (JS.div sum (VNum (Number.of_nat (List.length ws))))
        else ret (VNum (Num 0))) ;;
     extractedAt <- Date_toISOString (clk env) ;;
     ret (Obj.literal
            [ ("text", text);
              ("confidence", JS.div (JS.get data "confidence") (VNum (Num 100)));
              ("meanConfidence", JS.get data "confidence");
              ("words", VArr wordList);
              ("processingTime", processingTime);
              ("filename", JS.get labelData "filename");
              ("imageSource", JS.or (JS.get labelData "imageUrl")
                                (JS.or (JS.get labelData "imagePath") (VStr "buffer")));
              ("lines", VArr lines);
              ("totalWords", VNum (Number.of_nat (List.length ws)));
              ("lowConfidenceWords", VNum (Number.of_nat (List.length low)));
              ("averageWordConfidence", averageWordConfidence);
              ("extractedAt", extractedAt);
              ("detectedSections", parseRegulatoryStructure (JS.toString rawText)) ]))
    (fun error =>
       failedAt <- Date_now (clk env) ;;
       since <- (if JS.truthy (JS.get labelData "startTime")
                 then ret (JS.get labelData "startTime")
                 else Date_now (clk env)) ;;
       extractedAt <- Date_toISOString (clk env) ;;
       ret (Obj.literal
              [ ("success", VBool false);
                ("error", message error);
                ("filename", JS.get labelData "filename");
                ("processingTime", JS.sub failedAt since);
                ("extractedAt", extractedAt) ])).

Definition preprocessImageForOCR (labelData : value) : M value :=
  _ <- getProp labelData "filename" ;;
  try_catch
    (preprocessedAt <- Date_toISOString (clk env) ;;
     ret (VObj (Obj.assign (Obj.own labelData)
                  [ ("preprocessed", VBool true);
                    ("preprocessedAt", preprocessedAt) ])))
    (fun error => throw error).

(** [assessOCRQuality]: the three quality checks, then the spread of the
    assessment; whatever the body throws is thrown again. *)
Definition assessOCRQuality (ocrResult : value) : M value :=
  try_catch
    (confidence <- getProp ocrResult "confidence" ;;
     let '(overall, issues, recommendations) :=
       if JS.lt confidence (VNum (Num (7 # 10))) then
         ("poor", ["Low overall confidence"],
          ["Consider image preprocessing or manual review"])
       else if JS.lt confidence (VNum (Num (85 # 100))) then
         ("fair", ["Moderate confidence"], ["Verify critical sections manually"])
       else ("good", [], []) in
     let '(issues, recommendations) :=
       if JS.gt (JS.get ocrResult "lowConfidenceWords")
                (JS.mul (JS.get ocrResult "totalWords") (VNum (Num (2 # 10))))
       then ((issues ++ ["High number of low confidence words"])%list,
             (recommendations ++ ["Review text for accuracy"])%list)
       else (issues, recommendations) in
     length <- getProp (JS.get ocrResult "text") "length" ;;
     let '(issues, recommendations) :=
       if JS.lt length (VNum (Num 50))
       then ((issues ++ ["Very short text extracted"])%list,
             (recommendations ++ ["Check if image contains readable text"])%list)
       else (issues, recommendations) in
     assessedAt <- Date_toISOString (clk env) ;;
     ret (Obj.literal
            [ ("overall", VStr overall);
              ("confidence", confidence);
              ("issues", VArr (List.map VStr issues));
              ("recommendations", VArr (List.map VStr recommendations));
              ("assessedAt", assessedAt) ]))
    (fun error => throw error).

End WithEnv.

End OCR.

(** ** The AI correction and extraction activity (performAIValidation) *)

Module AI.

(** [aiResponse.match(/```json\n([\s\S]*?)\n```/)[1]]: the text between
    the first opening fence and the first closing fence after it. *)
Definition fenced (s : string) : option string :=
  match Str.split_first (Str.bq3 ++ "json" ++ Str.nl) s with
  | None => None
  | Some (_, rest) =>
      match Str.split_first (Str.nl ++ Str.bq3) rest with
      | None => None
      | Some (inside, _) => Some inside
      end
  end.

(** [aiResponse.match(/{[\s\S]*}/)[0]]: from the first opening brace to
    the last closing brace after it. *)
Definition braced (s : string) : option string :=
  match Str.split_first "{" s with
  | None => None
  | Some (_, rest) =>
      match Str.split_last_char "}" rest with
      | None => None
      | Some (inside, _) => Some ("{" ++ inside ++ "}")
      end
  end.

(** The receiver of [.match] and [.substring] must be a string. *)
Definition asString (expr method : string) (v : value) : M string :=
  match v with
  | VStr s => ret s
  | VUndefined | VNull => _ <- getProp v method ;; ret ""
  | _ => not_a_function (expr ++ "." ++ method)
  end.

Definition parseFallback (fallbackText : value) (raw : string) : value :=
  Obj.literal
    [ ("isValid", VBool false);
      ("confidence", VNum (Num (4 # 10)));
      ("correctedText", fallbackText);
      ("extractedInformation", VObj []);
      ("ocrIssuesFound", VArr [VStr "Could not parse AI validation response"]);
      ("completenessScore", VNum (Num 4));
      ("complianceIssues", VArr [VStr "AI response parsing failed"]);
      ("recommendations", VArr [VStr "Manual review recommended"]);
      ("qualityImprovement", VStr "None");
      ("rawAiResponse", VStr (Str.take 500 raw ++ "...")) ].

Definition parseAIResponse (aiResponse fallbackText : value) : M value :=
  try_catch
    (text <- asString "aiResponse" "match" aiResponse ;;
     match fenced text with
     | Some inside => JSON.parse (VStr inside)
     | None =>
         match braced text with
         | Some object => JSON.parse (VStr object)
         | None => JSON.parse aiResponse
         end
     end)
    (fun parseError =>
       raw <- asString "aiResponse" "substring" aiResponse ;;
       ret (parseFallback fallbackText raw)).

(** The prompt: the OCR text between a fixed heading and the fixed
    instructions (the transcription rules and the JSON template, which
    are constant text and are abbreviated here). *)
Definition promptHead : string :=
  "Please transcribe and validate this OCR-extracted text from a product label."
  ++ Str.nl ++ Str.nl ++ "OCR-Extracted Text:" ++ Str.nl.

Definition promptTail : string :=
  Str.nl ++ Str.nl ++ "TASK: Please provide verbatim transcription and analysis: [...]"
  ++ Str.nl ++ Str.nl
  ++ "IMPORTANT: Return ONLY valid JSON - no explanation text before or after.".

Definition promptFor (ocrText : value) : value :=
  VStr (promptHead ++ JS.toString ocrText ++ promptTail).

Definition userMessages (prompt : value) : value :=
  VArr [Obj.literal [("role", VStr "user"); ("content", prompt)]].

Definition claudeModel : string := "claude-3-5-sonnet-20241022".
Definition openaiModel : string := "gpt-4o-mini".

Definition claudeRequest (prompt : value) : value :=
  Obj.literal [ ("model", VStr claudeModel);
                ("max_tokens", VNum (Num 4000));
                ("temperature", VNum (Num (1 # 10)));
                ("messages", userMessages prompt) ].

Definition openaiRequest (prompt : value) : value :=
  Obj.literal [ ("model", VStr openaiModel);
                ("messages", userMessages prompt);
                ("temperature", VNum (Num (1 # 10)));
                ("max_tokens", VNum (Num 4000)) ].

Definition bothFailed (ocrText : value) (claudeError openaiError : error) : value :=
  Obj.literal
    [ ("isValid", VBool false);
      ("confidence", VNum (Num (3 # 10)));
      ("correctedText", ocrText);
      ("extractedInformation", VObj []);
      ("ocrIssuesFound", VArr [VStr "Both AI providers failed to process"]);
      ("completenessScore", VNum (Num 3));
      ("complianceIssues", VArr [VStr "AI validation unavailable"]);
      ("recommendations", VArr [VStr "Manual review required"]);
      ("qualityImprovement", VStr "None");
      ("errors", Obj.literal [ ("claude", message claudeError);
                               ("openai", message openaiError) ]) ].

Definition onlyClaude (ocrText : value) (claudeError : error) : value :=
  Obj.literal
    [ ("isValid", VBool false);
      ("confidence", VNum (Num (4 # 10)));
      ("correctedText", ocrText);
      ("extractedInformation", VObj []);
      ("ocrIssuesFound", VArr [VStr "Only Claude available, but failed to process"]);
      ("completenessScore", VNum (Num 4));
      ("complianceIssues", VArr [VStr "AI validation partially unavailable"]);
      ("recommendations", VArr [VStr "Configure OpenAI as backup or manual review"]);
      ("qualityImprovement", VStr "None");
      ("errors", Obj.literal [ ("claude", message claudeError);
                               ("openai", VStr "Not configured") ]) ].

(** *** correctOCRText and extractStructuredInfo *)

(** The prompt of correctOCRText around the text. *)
Definition correctionPrompt (ocrText : value) : value :=
  VStr (String.concat Str.nl
    [ "Please correct the following OCR-extracted text by fixing obvious OCR errors, improving readability, and maintaining the original meaning. Keep the same structure and don't add information that wasn't there.";
      EmptyString;
      "Original OCR text:";
      EmptyString ]
    ++ JS.toString ocrText ++
    String.concat Str.nl
    [ EmptyString;
      EmptyString;
      "Please provide only the corrected text without any explanation:" ]).

(** The prompt of extractStructuredInfo around the text. *)
Definition extractionPrompt (validatedText : value) : value :=
  VStr (String.concat Str.nl
    [ "Extract structured information from this product label text. Focus on regulatory compliance elements:";
      EmptyString;
      "Label text:";
      EmptyString ]
    ++ JS.toString validatedText ++
    String.concat Str.nl
    [ EmptyString;
      EmptyString;
      "Extract and return in JSON format:";
      "```json";
      "{";
      "  " ++ Str.quoted "productName" ++ ": " ++ Str.quoted "Name of the product" ++ ",";
      "  " ++ Str.quoted "brandName" ++ ": " ++ Str.quoted "Brand name" ++ ",";
      "  " ++ Str.quoted "ingredients" ++ ": [" ++ Str.quoted "list" ++ ", " ++ Str.quoted "of" ++ ", " ++ Str.quoted "ingredients" ++ "],";
      "  " ++ Str.quoted "activeIngredients" ++ ": [" ++ Str.quoted "active" ++ ", " ++ Str.quoted "ingredients" ++ "],";
      "  " ++ Str.quoted "warnings" ++ ": " ++ Str.quoted "Warning text" ++ ",";
      "  " ++ Str.quoted "directions" ++ ": " ++ Str.quoted "Usage directions" ++ ",";
      "  " ++ Str.quoted "netWeight" ++ ": " ++ Str.quoted "Product weight/volume" ++ ",";
      "  " ++ Str.quoted "nutritionalInfo" ++ ": {";
      "    " ++ Str.quoted "calories" ++ ": " ++ Str.quoted "per serving" ++ ",";
      "    " ++ Str.quoted "other" ++ ": " ++ Str.quoted "nutritional facts";
      "  },";
      "  " ++ Str.quoted "regulatoryInfo" ++ ": {";
      "    " ++ Str.quoted "fdaDisclaimer" ++ ": " ++ Str.quoted "FDA disclaimer if present" ++ ",";
      "    " ++ Str.quoted "allergens" ++ ": [" ++ Str.quoted "list" ++ ", " ++ Str.quoted "of" ++ ", " ++ Str.quoted "allergens" ++ "],";
      "    " ++ Str.quoted "claims" ++ ": [" ++ Str.quoted "health" ++ ", " ++ Str.quoted "claims" ++ "]";
      "  }";
      "}";
      "```" ]).

(** The request of the two smaller activities: 2000 tokens at most. *)
Definition shortRequest (prompt : value) : value :=
  Obj.literal [ ("model", VStr claudeModel);
                ("max_tokens", VNum (Num 2000));
                ("temperature", VNum (Num (1 # 10)));
                ("messages", userMessages prompt) ].

(** What stands for an answer that does not parse. *)
Definition parseFailed : value :=
  Obj.literal [("error", VStr "Could not parse structured information")].

Section WithEnv.
Variable env : Env.

Definition elapsedSince (startTime : value) : M value :=
  finished <- Date_now (clk env) ;;
  ret (JS.sub finished startTime).

(** The nested try/catch of the two providers: the validation result,
    the processing time and the model name it leaves behind. *)
Definition askProviders (prompt ocrText startTime : value)
  : M (value * value * string) :=
  try_catch
    (emit (AnthropicCreate (claudeRequest prompt)) ;;;
     response <- lift (anthropic env (claudeRequest prompt)) ;;
     content <- getProp response "content" ;;
     first <- getIndex content 0 ;;
     aiResponse <- getProp first "text" ;;
     processingTime <- elapsedSince startTime ;;
     validationResult <- parseAIResponse aiResponse ocrText ;;
     ret (validationResult, processingTime, claudeModel))
    (fun claudeError =>
       match openai env with
       | Some create =>
           try_catch
             (emit (OpenAICreate (openaiRequest prompt)) ;;;
              response <- lift (create (openaiRequest prompt)) ;;
              choices <- getProp response "choices" ;;
              first <- getIndex choices 0 ;;
              msg <- getProp first "message" ;;
              aiResponse <- getProp msg "content" ;;
              processingTime <- elapsedSince startTime ;;
              validationResult <- parseAIResponse aiResponse ocrText ;;
              ret (validationResult, processingTime, openaiModel))
             (fun openaiError =>
                processingTime <- elapsedSince startTime ;;
                ret (bothFailed ocrText claudeError openaiError,
                     processingTime, openaiModel))
       | None =>
           processingTime <- elapsedSince startTime ;;
           ret (onlyClaude ocrText claudeError, processingTime, claudeModel)
       end).

Definition performAIValidation (data : value) : M value :=
  try_catch
    (startTime <- Date_now (clk env) ;;
     ocrText <- destructure data "ocrText" VUndefined ;;
     let ocrQuality := JS.get data "ocrQuality" in
     r <- askProviders (promptFor ocrText) ocrText startTime ;;
     let '(validationResult, processingTime, aiModel) := r in
     validatedAt <- Date_toISOString (clk env) ;;
     inputQuality <- getProp ocrQuality "overall" ;;
     ret (VObj (Obj.assign (Obj.own validationResult)
                  [ ("originalOcrText", ocrText);
                    ("aiModel", VStr aiModel);
                    ("processingTime", processingTime);
                    ("validatedAt", validatedAt);
                    ("inputQuality", inputQuality);
                    ("inputConfidence", JS.get ocrQuality "confidence") ])))
    (fun error =>
       ocrText <- getProp data "ocrText" ;;
       validatedAt <- Date_toISOString (clk env) ;;
       ret (Obj.literal
              [ ("isValid", VBool false);
                ("confidence", VNum (Num 0));
                ("correctedText", ocrText);
                ("extractedInformation", VObj []);
                ("ocrIssuesFound", VArr [VStr ("AI validation error: " ++ emessage error)]);
                ("completenessScore", VNum (Num 0));
                ("complianceIssues", VArr [VStr "AI validation failed - manual review required"]);
                ("recommendations", VArr [VStr "Retry AI validation or perform manual review"]);
                ("qualityImprovement", VStr "None");
                ("error", message error);
                ("processingTime", VNum (Num 0));
                ("validatedAt", validatedAt) ])).

(** [response.content[0].text] of a request to the primary provider *)
Definition ask (request : value) : M value :=
  emit (AnthropicCreate request) ;;;
  response <- lift (anthropic env request) ;;
  content <- getProp response "content" ;;
  first <- getIndex content 0 ;;
  getProp first "text".

(** [correctOCRText]: whatever fails, the original text is returned as
    the corrected one. *)
Definition correctOCRText (ocrText : value) : M value :=
  try_catch
    (text <- ask (shortRequest (correctionPrompt ocrText)) ;;
     correctedText <- OCR.trim "response.content[0].text" text ;;
     correctedAt <- Date_toISOString (clk env) ;;
     ret (Obj.literal [ ("originalText", ocrText);
                        ("correctedText", correctedText);
                        ("correctedAt", correctedAt) ]))
    (fun error =>
       correctedAt <- Date_toISOString (clk env) ;;
       ret (Obj.literal [ ("originalText", ocrText);
                          ("correctedText", ocrText);
                          ("error", message error);
                          ("correctedAt", correctedAt) ])).

(** [extractStructuredInfo] (the one with the short prompt): the fenced
    block, or else the whole answer, is parsed. *)
Definition extractStructuredInfo (validatedText : value) : M value :=
  try_catch
    (aiResponse <- ask (shortRequest (extractionPrompt validatedText)) ;;
     structuredInfo <-
       try_catch
         (text <- asString "aiResponse" "match" aiResponse ;;
          match fenced text with
          | Some inside => JSON.parse (VStr inside)
          | None => JSON.parse aiResponse
          end)
         (fun parseError => ret parseFailed) ;;
     extractedAt <- Date_toISOString (clk env) ;;
     ret (Obj.literal [ ("structuredInfo", structuredInfo);
                        ("extractedAt", extractedAt) ]))
    (fun error =>
       extractedAt <- Date_toISOString (clk env) ;;
       ret (Obj.literal [ ("structuredInfo", Obj.literal [("error", message error)]);
                          ("extractedAt", extractedAt) ])).

End WithEnv.

End AI.

(** ** The compliance check and the workflow *)

Module Workflow.

Section WithEnv.
Variable env : Env.

(** [performComplianceCheck]: a fixed verdict. *)
Definition performComplianceCheck (data : value) : M value :=
  checkedAt <- Date_toISOString (clk env) ;;
  ret (Obj.literal [ ("compliant", VBool true);
                     ("violations", VArr []);
                     ("warnings", VArr []);
                     ("score", VNum (Num 95));
                     ("checkedAt", checkedAt) ]).

(** [!!v] *)
Definition toBool (v : value) : value := VBool (JS.truthy v).

(** [labelValidationWorkflow]: the five activities in sequence; whatever
    one of them throws is thrown again. *)
Definition labelValidationWorkflow (labelData : value) : M value :=
  _ <- getProp labelData "filename" ;;
  try_catch
    (preprocessedData <- OCR.preprocessImageForOCR env labelData ;;
     ocrResult <- OCR.performOCR env preprocessedData ;;
     qualityAssessment <- OCR.assessOCRQuality env ocrResult ;;
     ocrText <- getProp ocrResult "text" ;;
     validationResult <-
       AI.performAIValidation env
         (Obj.literal [ ("ocrText", ocrText);
                        ("ocrQuality", qualityAssessment);
                        ("imageUrl", JS.get labelData "imageUrl");
                        ("labelType", JS.get labelData "type");
                        ("detectedSections", JS.get ocrResult "detectedSections") ]) ;;
     complianceResult <-
       performComplianceCheck
         (Obj.literal [ ("validationResult", validationResult);
                        ("regulations", JS.get labelData "regulations") ]) ;;
     compliant <- getProp complianceResult "compliant" ;;
     preprocessed <- getProp preprocessedData "preprocessed" ;;
     overall <- getProp qualityAssessment "overall" ;;
     isValid <- getProp validationResult "isValid" ;;
     completedAt <- Date_toISOString (clk env) ;;
     ret (Obj.literal
            [ ("workflowId", JS.get labelData "workflowId");
              ("filename", JS.get labelData "filename");
              ("status", VStr (if JS.truthy compliant then "APPROVED" else "REQUIRES_REVIEW"));
              ("ocrResult", ocrResult);
              ("qualityAssessment", qualityAssessment);
              ("validationResult", validationResult);
              ("complianceResult", complianceResult);
              ("processingSteps",
               Obj.literal [ ("preprocessing", preprocessed);
                             ("ocrCompleted", toBool ocrText);
                             ("qualityAssessed", toBool overall);
                             ("aiValidated", toBool isValid);
                             ("complianceChecked", toBool compliant) ]);
              ("completedAt", completedAt) ]))
    (fun error => throw error).

End WithEnv.

End Workflow.

(** ** temporal/clients/ocrClient.js: the activities without the workflow *)

Module Client.

(** [c > 0.8 ? 'good' : c > 0.6 ? 'fair' : 'poor'] *)
Definition quickTier (confidence : value) : string :=
  if JS.gt confidence (VNum (Num (8 # 10))) then "good"
  else if JS.gt confidence (VNum (Num (6 # 10))) then "fair"
  else "poor".

Section WithEnv.
(** [await import(specifier)]: what loading the module settles with.  The
    top level of the module runs then: the activities construct their
    engine and provider clients there. *)
Variable dynamicImport : string -> outcome unit.
Variable env : Env.

(** [runSimpleOCR] *)
Definition runSimpleOCR (imageData : value) : M value :=
  try_catch
    (lift (dynamicImport "../activities/ocr.js") ;;;
     filename <- getProp imageData "filename" ;;
     ocrResult <- OCR.performOCR env
                    (Obj.literal [ ("filename", JS.or filename (VStr "test-image"));
                                   ("imageBuffer", JS.get imageData "buffer");
                                   ("imageUrl", JS.get imageData "url") ]) ;;
     ret (Obj.literal [ ("success", VBool true);
                        ("ocrResult", ocrResult) ]))
    (fun error =>
       ret (Obj.literal [ ("success", VBool false);
                          ("error", message error);
                          ("ocrResult", VNull) ])).

(** [runSimpleAIValidation] *)
Definition runSimpleAIValidation (ocrResult : value) : M value :=
  try_catch
    (lift (dynamicImport "../activities/aiValidation.js") ;;;
     text <- getProp ocrResult "text" ;;
     let confidence := JS.get ocrResult "confidence" in
     validationResult <-
       AI.performAIValidation env
         (Obj.literal
            [ ("ocrText", text);
              ("ocrQuality", Obj.literal [ ("overall", VStr (quickTier confidence));
                                           ("confidence", confidence);
                                           ("issues", VArr []) ]);
              ("detectedSections", JS.or (JS.get ocrResult "detectedSections") (VObj [])) ]) ;;
     ret (Obj.literal [ ("success", VBool true);
                        ("validationResult", validationResult) ]))
    (fun error =>
       ret (Obj.literal [ ("success", VBool false);
                          ("error", message error);
                          ("validationResult", VNull) ])).

End WithEnv.

End Client.

(** ** backend/src/server.js: the endpoint POST /ocr-validate *)

Module Backend.

(** What the handler sends: [res.status(code).json(body)], the code being
    200 when [res.json] is called directly. *)
Record reply : Type := mkReply { code : nat; body : value }.

Definition notPerformed : value :=
  Obj.literal [ ("error", VStr "AI validation not performed - no text extracted");
                ("isValid", VBool false) ].

(** The ten fields of the validation that the response repeats. *)
Definition validationSummary (aiValidation : value) : value :=
  Obj.literal
    (List.map (fun k => (k, JS.get aiValidation k))
       [ "isValid"; "confidence"; "correctedText"; "extractedInformation";
         "ocrIssuesFound"; "completenessScore"; "complianceIssues";
         "recommendations"; "qualityImprovement"; "processingTime" ]).

Section WithEnv.
(** [await import(specifier)], as in the client. *)
Variable dynamicImport : string -> outcome unit.
Variable env : Env.

(** The second step: the AI validation, when the text is not blank. *)
Definition validated (ocrResult : value) : M value :=
  text <- getProp ocrResult "text" ;;
  if JS.truthy text then
    trimmed <- OCR.trim "ocrResult.text" text ;;
    if JS.gt (JS.get trimmed "length") (VNum (Num 0)) then
      aiResponse <- Client.runSimpleAIValidation dynamicImport env ocrResult ;;
      success <- getProp aiResponse "success" ;;
      ret (if JS.truthy success then JS.get aiResponse "validationResult" else VNull)
    else ret VNull
  else ret VNull.

(** The handler of POST /ocr-validate on a request whose uploaded file
    (set by the upload middleware) is [req.file]. *)
Definition ocrValidate (req : value) : M reply :=
  try_catch
    (file <- getProp req "file" ;;
     if negb (JS.truthy file) then
       ret (mkReply 400 (Obj.literal [("error", VStr "No file provided")]))
     else
       lift (dynamicImport "../../temporal/clients/ocrClient.js") ;;;
       ocrResponse <- Client.runSimpleOCR dynamicImport env
                        (Obj.literal [ ("filename", JS.get file "originalname");
                                       ("buffer", JS.get file "buffer") ]) ;;
       success <- getProp ocrResponse "success" ;;
       if negb (JS.truthy success) then
         ret (mkReply 500 (Obj.literal [ ("error", VStr "OCR processing failed");
                                         ("details", JS.get ocrResponse "error") ]))
       else
         let ocrResult := JS.get ocrResponse "ocrResult" in
         aiValidation <- validated ocrResult ;;
         processedAt <- Date_toISOString (clk env) ;;
         ret (mkReply 200
                (Obj.literal
                   [ ("success", VBool true);
                     ("filename", JS.get file "originalname");
                     ("fileSize", JS.get file "size");
                     ("contentType", JS.get file "mimetype");
                     ("processedAt", processedAt);
                     ("ocr",
                      Obj.literal
                        [ ("text", JS.get ocrResult "text");
                          ("confidence", JS.get ocrResult "confidence");
                          ("processingTime", JS.get ocrResult "processingTime");
                          ("totalWords", JS.get ocrResult "totalWords");
                          ("lines", JS.get ocrResult "lines");
                          ("detectedSections", JS.get ocrResult "detectedSections");
                          ("qualityAssessment",
                           Obj.literal
                             [ ("overall",
                                VStr (Client.quickTier (JS.get ocrResult "confidence")));
                               ("issues", VArr []);
                               ("recommendations", VArr []) ]) ]);
                     ("aiValidation",
                      if JS.truthy aiValidation then validationSummary aiValidation
                      else notPerformed) ])))
    (fun error =>
       ret (mkReply 500 (Obj.literal [ ("error", VStr "OCR + AI validation failed");
                                       ("details", message error) ]))).

End WithEnv.

End Backend.

(** * The notions the properties use *)

(** A computation that always returns: it neither throws nor pends. *)
Definition total {A} (m : M A) : Prop :=
  forall st, exists a st', m st = (Ok a, st').

(** A computation that never throws (it may pend). *)
Definition safe {A} (m : M A) : Prop :=
  forall st, ~ raises (m st).

(** Whatever a computation returns satisfies [Q]. *)
Definition post {A} (Q : A -> Prop) (m : M A) : Prop :=
  forall st a st', m st = (Ok a, st') -> Q a.

(** Neither undefined nor null. *)
Definition isObject (v : value) : Prop := JS.nullish v = false.

(** The event that settles a call. *)
Definition closes (ev : child_event) : bool :=
  match ev with
  | Close _ => true
  | _ => false
  end.

(** An ['error'] event, of the handle or of its stdin: no listener is
    registered for either. *)
Definition unhandled (ev : child_event) : bool :=
  match ev with
  | ChildError _ | StdinError _ => true
  | _ => false
  end.

(** The process closes, and no ['error'] event comes before it does. *)
Fixpoint closesCleanly (events : list child_event) : bool :=
  match events with
  | [] => false
  | Close _ :: _ => true
  | ChildError _ :: _ | StdinError _ :: _ => false
  | _ :: rest => closesCleanly rest
  end.

(** The three actions of one call: spawn, one line on stdin, end of
    stdin.  No action kills the process. *)
Definition callActions (toolName : string) (args : value) : list action :=
  [ Spawn "node" [FDA.mcpServerPath];
    StdinWrite (FDA.requestLine toolName args);
    StdinEnd ].

(** What the trace of a call ends with when an unhandled ['error'] ended
    the process before the promise settled. *)
Definition uncaught (p : FDA.pipe) : list action :=
  match FDA.settled p, FDA.crashed p with
  | None, Some e => [Uncaught e]
  | _, _ => []
  end.

(** The external calls of an environment all settle: the engine and the
    providers answer or reject, and every process closes, no ['error']
    event coming before it does. *)
Definition settling (env : Env) : Prop :=
  (forall imageSource, recognize env imageSource <> Pending)
  /\ (forall request, anthropic env request <> Pending)
  /\ (forall create request, openai env = Some create -> create request <> Pending)
  /\ (forall stdin, closesCleanly (child env stdin) = true).

(** Every process of the environment is ended by an ['error'] event
    before it closes. *)
Definition diesWith (env : Env) (e : error) : Prop :=
  forall stdin, uncaught (fold_left FDA.step (child env stdin) FDA.pipe0) = [Uncaught e].

(** A run that returned, with an object. *)
Definition returnsObject (r : outcome value * state) : Prop :=
  exists v st', r = (Ok v, st') /\ isObject v.

(** The variable [x] holds an array. *)
Definition isArr (x : string) (st : state) : Prop :=
  exists xs, Obj.lookup x (store st) = Some (VArr xs).

(** The invariant of the findings: the two variables hold arrays, and
    the trace of external actions is the given one. *)
Definition Inv (T : list action) (st : state) : Prop :=
  trace st = T /\ isArr "issues" st /\ isArr "recommendations" st.

(** A computation that keeps the invariant and settles. *)
Definition keeps (T : list action) {A} (m : M A) : Prop :=
  forall st, Inv T st -> Inv T (snd (m st)) /\ fst (m st) <> Pending.

(** An ingredient list is empty when it is absent or the empty array. *)
Definition emptyList (v : value) : Prop := v = VUndefined \/ v = VArr [].

(** The number the server reads from a string field: what is left of
    the string once everything but digits and dots is removed, or "0",
    through parseFloat. *)
Definition amount (s : string) : number :=
  Number.parseFloat
    (JS.toString (JS.or (VStr (Str.filter Server.digit_or_dot s)) (VStr "0"))).

(** The verdict of a claim that is exactly one of the claim types, on a
    string field. *)
Definition verdictRecord (claim : string) (isValid : bool) : value :=
  VObj [ ("claim", VStr claim); ("isValid", VBool isValid);
         ("reason", VStr (if isValid then Server.meets claim else Server.fails claim));
         ("fdaSource", VStr "FDA Nutrition Labeling Guidelines") ].

(** The six claim types. *)
Definition recognizedClaims : list string := List.map fst Server.fdaThresholds.

(** ** Texts, sections, findings and settled computations *)

(** Every character of [s] satisfies [p]. *)
Fixpoint allChars (p : ascii -> bool) (s : string) : bool :=
  match s with
  | EmptyString => true
  | String c t => (p c && allChars p t)%bool
  end.

(** Empty, or white space only. *)
Definition blank (s : string) : bool := allChars Str.is_ws s.

(** Not a line feed. *)
Definition not_nl (c : ascii) : bool := negb (Nat.eqb (nat_of_ascii c) 10).

(** The seven section names. *)
Definition sectionNames : list string := List.map fst OCR.patterns.

(** A character that toLowerCase leaves as it is. *)
Definition lowered (c : ascii) : bool := Ascii.eqb (Str.lower_char c) c.

(** What a detected section holds. *)
Definition sectionText (v : value) : Prop :=
  exists s, v = VStr s /\ s <> ""
            /\ allChars not_nl s = true
            /\ Str.toLowerCase s = s.

(** A field of the detected sections: a section name with such a text. *)
Definition goodSection (kv : string * value) : Prop :=
  In (fst kv) sectionNames /\ sectionText (snd kv).

(** A string that is not empty. *)
Definition nonEmptyText (v : value) : Prop := exists s, v = VStr s /\ s <> "".

(** What the record of a successful extraction says about its words and
    lines. *)
Definition countsAgree (r : value) : Prop :=
  exists words lines low,
    JS.get r "words" = VArr words
    /\ JS.get r "totalWords" = VNum (Number.of_nat (List.length words))
    /\ JS.get r "lowConfidenceWords" = VNum (Number.of_nat low)
    /\ low <= List.length words
    /\ JS.get r "lines" = VArr lines
    /\ Forall nonEmptyText lines.

(** A finding of severity WARNING. *)
Definition isWarning (f : value) : Prop := JS.get f "severity" = VStr "WARNING".

(** The variable [issues] holds an array of WARNING-severity findings. *)
Definition Warn (st : state) : Prop :=
  exists xs, Obj.lookup "issues" (store st) = Some (VArr xs) /\ Forall isWarning xs.

(** A computation that keeps it, however it ends. *)
Definition warns {A} (m : M A) : Prop := forall st, Warn st -> Warn (snd (m st)).

(** A computation that never pends: it returns or throws. *)
Definition settles {A} (m : M A) : Prop := forall st, fst (m st) <> Pending.

(** One text content. *)
Definition oneText (r : value) : Prop :=
  exists text, JS.get r "content" = VArr [VObj [("type", VStr "text"); ("text", text)]].

(** ** Calls that resolve, and total correctness *)

(** The call of the tool is resolved with [response]. *)
Definition resolvesWith (env : Env) (toolName : string) (args response : value) : Prop :=
  FDA.settled (fold_left FDA.step (child env (FDA.requestLine toolName args)) FDA.pipe0)
  = Some (Ok response).

(** [messages.create] resolved with one text block. *)
Definition saysText (text : string) : outcome value :=
  Ok (VObj [("content", VArr [VObj [("type", VStr "text"); ("text", VStr text)]])]).

(** The data runSimpleAIValidation hands over. *)
Definition quickData (text confidence sections : value) : value :=
  Obj.literal
    [ ("ocrText", text);
      ("ocrQuality", Obj.literal [ ("overall", VStr (Client.quickTier confidence));
                                   ("confidence", confidence);
                                   ("issues", VArr []) ]);
      ("detectedSections", sections) ].

(** The tier assessOCRQuality gives to a confidence. *)
Definition assessedTier (confidence : value) : string :=
  if JS.lt confidence (VNum (Num (7 # 10))) then "poor"
  else if JS.lt confidence (VNum (Num (85 # 100))) then "fair"
  else "good".

(** Total correctness: the computation returns, with a result in [Q]. *)
Definition yields {A} (Q : A -> Prop) (m : M A) : Prop :=
  forall st, exists a st', m st = (Ok a, st') /\ Q a.

(** The computation throws, whatever the state. *)
Definition throws {A} (m : M A) : Prop :=
  forall st, exists e st', m st = (Throw e, st').

(** What the failure record of performOCR lacks. *)
Definition failureRecord (r : value) : Prop :=
  JS.nullish r = false
  /\ JS.get r "success" = VBool false
  /\ JS.get r "text" = VUndefined
  /\ JS.get r "confidence" = VUndefined.

(** ** The values JSON carries unchanged *)

(** A number that is a natural number. *)
Definition isNat (n : number) : bool :=
  match n with
  | Num (Qmake z 1%positive) => Z.leb 0 z
  | _ => false
  end.

(** No key occurs twice. *)
Fixpoint uniqueKeys (ks : list string) : bool :=
  match ks with
  | [] => true
  | k :: t => (negb (existsb (String.eqb k) t) && uniqueKeys t)%bool
  end.

(** The values JSON carries unchanged: no undefined, no NaN, natural
    numbers, and objects whose keys are all different. *)
Fixpoint plain (v : value) : bool :=
  match v with
  | VUndefined => false
  | VNull | VBool _ | VStr _ => true
  | VNum n => isNat n
  | VArr xs => forallb plain xs
  | VObj fs =>
      (forallb (fun kv => plain (snd kv)) fs && uniqueKeys (List.map fst fs))%bool
  end.

(** JSON white space only, as the indentation JSON.stringify writes. *)
Definition jblank (s : string) : bool := allChars JSON.is_json_ws s.

(** The double quote. *)
Definition dqc : ascii := ascii_of_nat 34.

(** What follows a number or a literal: not a character that would
    continue a number. *)
Definition delimited (rest : string) : bool :=
  match rest with
  | EmptyString => true
  | String c _ =>
      negb (Str.is_digit c || Ascii.eqb c "." || Ascii.eqb c "e" || Ascii.eqb c "E")
  end.

(** The number that decimal digits denote, continuing [acc]. *)
Fixpoint uval (d : Decimal.uint) (acc : Z) : Z :=
  match d with
  | Decimal.Nil => acc
  | Decimal.D0 l => uval l (acc * 10 + 0)
  | Decimal.D1 l => uval l (acc * 10 + 1)
  | Decimal.D2 l => uval l (acc * 10 + 2)
  | Decimal.D3 l => uval l (acc * 10 + 3)
  | Decimal.D4 l => uval l (acc * 10 + 4)
  | Decimal.D5 l => uval l (acc * 10 + 5)
  | Decimal.D6 l => uval l (acc * 10 + 6)
  | Decimal.D7 l => uval l (acc * 10 + 7)
  | Decimal.D8 l => uval l (acc * 10 + 8)
  | Decimal.D9 l => uval l (acc * 10 + 9)
  end.

(** What [JSON.ser] writes for an array or an object, given its items as
    written: the brackets [o] and [c] around the items, which are on
    lines of their own when there is an indentation. *)
Definition wrapped (gap cur o c : string) (items : list string) : string :=
  match items with
  | [] => (o ++ c)%string
  | _ =>
      if String.eqb gap "" then (o ++ JSON.join "," items ++ c)%string
      else (o ++ Str.nl ++ (cur ++ gap) ++ JSON.join ("," ++ Str.nl ++ (cur ++ gap)) items
              ++ Str.nl ++ cur ++ c)%string
  end.

(** One member of an object, as written. *)
Definition member (gap inner : string) (kv : string * value) : string :=
  (JSON.quote (fst kv) ++ (if String.eqb gap "" then ":" else ": ")
     ++ JSON.ser gap inner (snd kv))%string.

(** One step of [JSON.parse_value], with the fuel [f] left for the
    elements and members. *)
Definition value_body (f : nat) (s : string) : option (value * string) :=
  let s := JSON.skip_ws s in
  if String.prefix "null" s then Some (VNull, Str.drop 4 s)
  else if String.prefix "true" s then Some (VBool true, Str.drop 4 s)
  else if String.prefix "false" s then Some (VBool false, Str.drop 5 s)
  else
    match s with
    | EmptyString => None
    | String c t =>
        let n := nat_of_ascii c in
        if Nat.eqb n 34 then
          match JSON.string_body t EmptyString with
          | Some (str, rest) => Some (VStr str, rest)
          | None => None
          end
        else if Nat.eqb n 91 then
          match JSON.skip_ws t with
          | String "]" rest => Some (VArr [], rest)
          | t' => match JSON.parse_elements f t' with
                  | Some (xs, rest) => Some (VArr xs, rest)
                  | None => None
                  end
          end
        else if Nat.eqb n 123 then
          match JSON.skip_ws t with
          | String "}" rest => Some (VObj [], rest)
          | t' => match JSON.parse_members f t' [] with
                  | Some (fs, rest) => Some (VObj fs, rest)
                  | None => None
                  end
          end
        else
          match JSON.json_number s with
          | Some (x, rest) => Some (VNum x, rest)
          | None => None
          end
    end.

(** One step of [JSON.parse_elements]. *)
Definition elements_body (f : nat) (s : string) : option (list value * string) :=
  match JSON.parse_value f s with
  | None => None
  | Some (v, rest) =>
      match JSON.skip_ws rest with
      | String "]" rest' => Some ([v], rest')
      | String "," rest' =>
          match JSON.parse_elements f rest' with
          | Some (vs, r) => Some (v :: vs, r)
          | None => None
          end
      | _ => None
      end
  end.

(** One step of [JSON.parse_members]. *)
Definition members_body (f : nat) (s : string) (acc : list (string * value))
  : option (list (string * value) * string) :=
  match JSON.skip_ws s with
  | String c t =>
      if Nat.eqb (nat_of_ascii c) 34 then
        match JSON.string_body t EmptyString with
        | None => None
        | Some (k, rest) =>
            match JSON.skip_ws rest with
            | String ":" rest1 =>
                match JSON.parse_value f rest1 with
                | None => None
                | Some (v, rest2) =>
                    let acc' := Obj.set k v acc in
                    match JSON.skip_ws rest2 with
                    | String "}" rest3 => Some (acc', rest3)
                    | String "," rest3 => JSON.parse_members f rest3 acc'
                    | _ => None
                    end
                end
            | _ => None
            end
        end
      else None
  | EmptyString => None
  end.

(** A text that begins a value: its first character is neither white
    space nor a closing bracket. *)
Definition opens (s : string) : bool :=
  match s with
  | EmptyString => false
  | String c _ =>
      (negb (JSON.is_json_ws c) && negb (Ascii.eqb c "]") && negb (Ascii.eqb c "}"))%bool
  end.

(** [v] is read back from what is written for it, at every indentation
    and before any text that does not continue a number, given fuel
    beyond the length of what is written. *)
Definition readsBack (v : value) : Prop :=
  forall gap cur rest fuel,
    jblank gap = true -> jblank cur = true -> delimited rest = true ->
    String.length (JSON.ser gap cur v) < fuel ->
    JSON.parse_value fuel (JSON.ser gap cur v ++ rest) = Some (v, rest).

(** ** The validation records of the server *)

(** Every search of the food database answers, with an object whose
    [found] is a boolean. *)
Definition findsBool (world : Server.World) : Prop :=
  forall v st, exists r b st',
    Server.searchFoodDataCentral world v st = (Ok r, st')
    /\ JS.nullish r = false /\ JS.get r "found" = VBool b.

(** The record validateIngredients builds for an ingredient whose
    validation did not throw. *)
Definition validation (v : value) : Prop :=
  exists name b g level ws notes at_,
    v = VObj [ ("ingredient", VStr name); ("fdaApproved", VBool b);
               ("grasStatus", VStr g); ("safetyLevel", VStr level);
               ("warnings", VArr (List.map VStr ws));
               ("regulatoryNotes", VArr (List.map VStr notes));
               ("source", VStr "FDA Food Data Central");
               ("validatedAt", VStr at_) ]
    /\ g <> "".

(** The two lists of findings are arrays, the recommendations being
    [recs]. *)
Definition Recs (recs : list value) (st : state) : Prop :=
  isArr "issues" st /\ Obj.lookup "recommendations" (store st) = Some (VArr recs).

(** From a state in [I] the computation returns a result in [Q], in a
    state in [I]. *)
Definition runs (I : state -> Prop) {A} (Q : A -> Prop) (m : M A) : Prop :=
  forall st, I st -> exists a st', m st = (Ok a, st') /\ I st' /\ Q a.

(** The payload of validate_ingredients. *)
Definition ingredientsPayload (results : list value) (summary : list (string * value)) : value :=
  VObj [ ("validationResults", VArr results); ("summary", VObj summary) ].

(** ** The output of the process *)

(** The texts of the chunks the process wrote to its stdout, end to
    end. *)
Fixpoint stdoutOf (events : list child_event) : string :=
  match events with
  | [] => ""
  | StdoutData chunk :: t => chunk ++ stdoutOf t
  | _ :: t => stdoutOf t
  end.

(** A character of ASCII: one byte in the output of the process, so that
    a text made of such characters is the same however the output is
    split into chunks. *)
Definition ascii7 (c : ascii) : bool := Nat.ltb (nat_of_ascii c) 128.

(** Not a white-space character. *)
Definition solid (c : ascii) : bool := negb (Str.is_ws c).

(** A text that trimming leaves as it is: not empty, with neither
    leading nor trailing white space. *)
Definition tight (s : string) : Prop :=
  (exists c t, s = String c t /\ solid c = true)
  /\ (exists d u, Str.rev s = String d u /\ solid d = true).

(** Text that ends a line, or no text at all. *)
Definition endsLine (logs : string) : Prop :=
  logs = "" \/ exists pre, logs = pre ++ Str.nl.

(** * The tool server as the spawned process *)

(** Modelled from the spec: the response the server's transport (the MCP
    SDK, which is not part of the sources) prints for a tools/call
    request, one line of JSON with the handler's result under [result]:
    "the tool-specific payload is nested at result.content[0].text". *)
Definition rpcResponse (id result : value) : value :=
  Obj.literal [ ("result", result); ("jsonrpc", VStr "2.0"); ("id", id) ].

(** Modelled from the spec: the short-lived process of one call.  It
    reads the request written to its stdin, answers it on stdout and
    exits with code 0; a request it cannot read makes it exit with
    code 1. *)
Definition serverProcess (world : Server.World) (stdin : string) : list child_event :=
  match JSON.parse_string stdin with
  | Ok request =>
      match fst (Server.callTool world request st0) with
      | Ok result =>
          [ StdoutData (JS.toString (JSON.stringify (rpcResponse (JS.get request "id") result))
                        ++ Str.nl);
            Close (VNum (Num 0)) ]
      | _ => [ Close (VNum (Num 1)) ]
      end
  | _ => [ Close (VNum (Num 1)) ]
  end.

(** The server without an API key: every search is answered by the mock. *)
Definition mockWorld : Server.World :=
  Server.mkWorld clock0
    (fun _ => ret (Obj.literal [ ("found", VBool true);
                                 ("confidence", VNum (Num (8 # 10)));
                                 ("fdcId", VStr "mock-0") ])).

(** An environment whose regulatory process is the server itself. *)
Definition served : Env :=
  mkEnv clock0 (fun _ => Pending) (fun _ => Pending) None (serverProcess mockWorld).

(** The same server behind a transport that prints the handler's result
    bare, with [content] at the top of the line: the shape the claims
    activity reads. *)
Definition servedUnwrapped : Env :=
  mkEnv clock0 (fun _ => Pending) (fun _ => Pending) None
        (fun stdin =>
           match JSON.parse_string stdin with
           | Ok request =>
               match fst (Server.callTool mockWorld request st0) with
               | Ok result =>
                   [ StdoutData (JS.toString (JSON.stringify result) ++ Str.nl);
                     Close (VNum (Num 0)) ]
               | _ => [ Close (VNum (Num 1)) ]
               end
           | _ => [ Close (VNum (Num 1)) ]
           end).

(** * Inputs and environments *)

(** [mockImageData] of the OCR tests. *)
Definition mockImageData : value :=
  VObj [ ("filename", VStr "test-label.jpg");
         ("imageUrl", VStr "https://example.com/test-image.jpg");
         ("type", VStr "food-label") ].

(** An environment whose capabilities all fail: the recognition engine
    rejects, the primary provider rejects, no secondary provider is
    configured, and the spawned process, having taken its input, writes
    to its stderr and exits with code 1. *)
Definition allFail : Env :=
  mkEnv clock0
        (fun _ => Throw (Error "OCR processing failed"))
        (fun _ => Throw (Error "Anthropic failed"))
        None
        (fun _ => [StderrData "boom"; Close (VNum (Num 1))]).

(** Both providers fail: the secondary one is configured and rejects. *)
Definition bothFail : Env :=
  mkEnv clock0
        (fun _ => Throw (Error "OCR processing failed"))
        (fun _ => Throw (Error "Anthropic API error"))
        (Some (fun _ => Throw (Error "OpenAI API error")))
        (fun _ => []).

(** A process that never answers: a minute and more passes without any
    output or close event. *)
Definition silent : Env :=
  mkEnv clock0 (fun _ => Pending) (fun _ => Pending) None
        (fun _ => [Elapsed 5000; Elapsed 5000; Elapsed 60000]).

(** A process whose stdin breaks before the request is written out: the
    ['error'] event of the stream comes first, then the process closes
    with code 1. *)
Definition brokenPipe : Env :=
  mkEnv clock0 (fun _ => Pending) (fun _ => Pending) None
        (fun _ => [StdinError (Error "write EPIPE"); Close (VNum (Num 1))]).

(** The input of the test "should assess high quality OCR results". *)
Definition highQualityOCR : value :=
  let body := "Serving Size 1 cup (240ml)" ++ Str.nl ++ "Calories 150" in
  VObj [ ("text", VStr ("NUTRITION FACTS" ++ Str.nl ++ body));
         ("confidence", VNum (Num (92 # 100)));
         ("totalWords", VNum (Num 8));
         ("lowConfidenceWords", VNum (Num 0));
         ("detectedSections", VObj [("nutritionFacts", VStr body)]) ].

(** A three-character text read with confidence 0.92. *)
Definition shortConfidentOCR : value :=
  VObj [ ("text", VStr "abc");
         ("confidence", VNum (Num (92 # 100)));
         ("totalWords", VNum (Num 1));
         ("lowConfidenceWords", VNum (Num 0)) ].

(** The data the workflow hands to performAIValidation for the text of
    the AI tests. *)
Definition aiInput : value :=
  VObj [ ("ocrText", VStr ("NUTRITION FACTS" ++ Str.nl ++ "Serving Size 1 cup"
                           ++ Str.nl ++ "Calories 150"));
         ("ocrQuality", VObj [ ("overall", VStr "good");
                               ("confidence", VNum (Num (85 # 100)));
                               ("issues", VArr []);
                               ("recommendations", VArr []) ]) ].

(** [messages.create] resolving with one text block. *)
Definition claudeSays (text : string) : value -> outcome value :=
  fun _ => Ok (VObj [("content", VArr [VObj [("type", VStr "text"); ("text", VStr text)]])]).

(** The response of the test "should validate required response fields":
    JSON.stringify({ someOtherField: 'value' }). *)
Definition sparseResponse : string :=
  "{" ++ Str.quoted "someOtherField" ++ ":" ++ Str.quoted "value" ++ "}".

(** The primary provider answers with that text. *)
Definition sparseEnv : Env :=
  mkEnv clock0 (fun _ => Pending) (claudeSays sparseResponse) None (fun _ => []).

(** An answer in prose: no fenced block, and not JSON. *)
Definition proseAnswer : string := "The label names no product.".

(** The primary provider answers in prose. *)
Definition proseEnv : Env :=
  mkEnv clock0 (fun _ => Pending) (claudeSays proseAnswer) None (fun _ => []).

(** Three known ingredients. *)
Definition waterSugarSalt : value :=
  VObj [("ingredients", VArr [VStr "water"; VStr "sugar"; VStr "salt"])].

(** The arguments of a call for no ingredient at all. *)
Definition emptyArgs : value := Obj.literal [("ingredients", VArr [])].

(** No ingredient, neither as the argument nor in the extracted
    information. *)
Definition noIngredientsData : value :=
  VObj [ ("ingredients", VArr []);
         ("extractedInformation", VObj [("ingredients", VArr [])]) ].

(** A claim that names none of the six claim types. *)
Definition heartHealthy : value :=
  VObj [ ("claims", VArr [VStr "heart healthy"]);
         ("nutritionalInfo", VObj [("totalFat", VStr "2g")]) ].

(** What the recognition engine resolves with for a label of two lines,
    read with confidence 82: four words, three lines (one of them
    blank). *)
Definition twoLines : value :=
  let word (text : string) (confidence : Z) :=
    VObj [("text", VStr text); ("confidence", VNum (Num (inject_Z confidence)))] in
  VObj [("data",
         VObj [ ("text", VStr ("Ingredients: Water, Sugar" ++ Str.nl
                               ++ "Warnings: Contains milk" ++ Str.nl));
                ("confidence", VNum (Num 82));
                ("words", VArr [ word "Ingredients:" 91%Z; word "Water," 88%Z;
                                 word "Sugar" 45%Z; word "Warnings:" 90%Z ]);
                ("lines", VArr [ VObj [("text", VStr "Ingredients: Water, Sugar ")];
                                 VObj [("text", VStr "  ")];
                                 VObj [("text", VStr "Warnings: Contains milk")] ]) ])].

(** An environment whose engine reads that label, whose primary provider
    rejects, and whose regulatory process is the server itself. *)
Definition reading : Env :=
  mkEnv clock0 (fun _ => Ok twoLines) (fun _ => Throw (Error "Anthropic failed")) None
        (serverProcess mockWorld).

(** Every module loads. *)
Definition loaded : string -> outcome unit := fun _ => Ok tt.

(** The OCR activities do not load, their engine not being installed;
    every other module does. *)
Definition engineMissing : string -> outcome unit :=
  fun specifier =>
    if String.eqb specifier "../activities/ocr.js"
    then Throw (Error "Cannot find package 'tesseract.js'")
    else Ok tt.

(** The request of an upload, as the upload middleware leaves it. *)
Definition uploadRequest : value :=
  VObj [("file", VObj [ ("originalname", VStr "label.png");
                        ("buffer", VStr "PNG");
                        ("size", VNum (Num 3));
                        ("mimetype", VStr "image/png") ])].

(** A text read with confidence 0.82. *)
Definition fairlyConfidentOCR : value :=
  VObj [ ("text", VStr "Ingredients: Water"); ("confidence", VNum (Num (82 # 100))) ].

(** A response of the server. *)
Definition approvedResponse : value :=
  VObj [ ("result", Server.textContent (VStr "APPROVED"));
         ("jsonrpc", VStr "2.0");
         ("id", VNum (Num 1)) ].

(** A process that logs a line on its stdout before it prints its
    response, in two chunks, and exits with code 0. *)
Definition chatty : Env :=
  mkEnv clock0 (fun _ => Pending) (fun _ => Pending) None
        (fun _ => [ StdoutData ("FDA Validation MCP Server running on stdio" ++ Str.nl);
                    StderrData "debug";
                    Elapsed 10;
                    StdoutData (JS.toString (JSON.stringify approvedResponse));
                    StdoutData Str.nl;
                    Close (VNum (Num 0)) ]).

(** * Properties *)

(** ** Checks of the string, number and JSON primitives *)

Example toLowerCase_ex : Str.toLowerCase "Low FAT" = "low fat".
Proof. reflexivity. Qed.

Example split_lines_ex :
  Str.split_lines ("a" ++ Str.nl ++ "b") = ["a"; "b"].
Proof. reflexivity. Qed.

Example of_Z_ex : Str.of_Z (-120) = "-120" /\ Str.of_Z 0 = "0".
Proof. split; reflexivity. Qed.

Example parseFloat_ex :
  Number.parseFloat "5" = Num 5 /\ Number.parseFloat "1.5.2" = Num (3 # 2)
  /\ Number.parseFloat "." = NaN /\ Number.parseFloat "5." = Num 5
  /\ Number.parseFloat ".5" = Num (1 # 2) /\ Number.parseFloat "12e1x" = Num 120.
Proof. repeat split; reflexivity. Qed.

Example number_toString_ex :
  Number.toString (Num (17 # 20)) = "0.85" /\ Number.toString (Num 3) = "3"
  /\ Number.toString (Num (-5 # 2)) = "-2.5".
Proof. repeat split; reflexivity. Qed.

Example add_ex :
  JS.add (VNum (Num 1)) (VStr "2") = VStr "12"
  /\ JS.add (VNum (Num 1)) VUndefined = VNum NaN
  /\ JS.toNumber (VArr [VNum (Num 5)]) = Num 5.
Proof. repeat split; reflexivity. Qed.

Example json_parse_ex :
  JSON.parse_string ("{" ++ Str.quoted "a" ++ ": [1, 2.5, true, null], "
                     ++ Str.quoted "b" ++ ":{}}")
  = Ok (VObj [("a", VArr [VNum (Num 1); VNum (Num (5 # 2)); VBool true; VNull]);
              ("b", VObj [])]).
Proof. vm_compute. reflexivity. Qed.

Example json_parse_bad :
  JSON.parse_string "This is not valid JSON"
  = Throw (SyntaxError "Unexpected token in JSON").
Proof. vm_compute. reflexivity. Qed.

Example json_roundtrip_ex :
  let v := VObj [("a", VArr [VNum (Num 1); VStr ("x" ++ Str.dq ++ "y")]);
                 ("b", VObj [("c", VNull); ("d", VUndefined)])] in
  JSON.stringify v
  = VStr ("{" ++ Str.quoted "a" ++ ":[1," ++ Str.dq ++ "x\" ++ Str.dq ++ "y" ++ Str.dq
          ++ "]," ++ Str.quoted "b" ++ ":{" ++ Str.quoted "c" ++ ":null}}")
  /\ JSON.parse_string (JS.toString (JSON.stringify2 v))
     = Ok (VObj [("a", VArr [VNum (Num 1); VStr ("x" ++ Str.dq ++ "y")]);
                 ("b", VObj [("c", VNull)])]).
Proof. split; vm_compute; reflexivity. Qed.

Example low_fat_2g :
  fst (Server.validateSingleClaim (VStr "Low Fat")
         (VObj [("totalFat", VStr "2g")]) st0)
  = Ok (VObj [ ("claim", VStr "Low Fat"); ("isValid", VBool true);
               ("reason", VStr (Server.meets "low fat"));
               ("fdaSource", VStr "FDA Nutrition Labeling Guidelines") ]).
Proof. vm_compute. reflexivity. Qed.

Example low_fat_number_throws :
  fst (Server.validateSingleClaim (VStr "low fat")
         (VObj [("totalFat", VNum (Num 2))]) st0)
  = Throw (TypeError "nutritionalData[nutrient]?.replace is not a function").
Proof. vm_compute. reflexivity. Qed.

(** ** Facts about the monad *)

Section MonadFacts.
Context {A B : Type}.

Lemma bind_ok (m : M A) (k : A -> M B) st a st' :
  m st = (Ok a, st') -> bind m k st = k a st'.
Proof. intros H. unfold bind. now rewrite H. Qed.

Lemma bind_throw (m : M A) (k : A -> M B) st e st' :
  m st = (Throw e, st') -> bind m k st = (Throw e, st').
Proof. intros H. unfold bind. now rewrite H. Qed.

Lemma bind_pending (m : M A) (k : A -> M B) st st' :
  m st = (Pending, st') -> bind m k st = (Pending, st').
Proof. intros H. unfold bind. now rewrite H. Qed.

Lemma total_safe (m : M A) : total m -> safe m.
Proof.
  intros H st [e He]. destruct (H st) as (a & st' & Hm).
  rewrite Hm in He. discriminate.
Qed.

Lemma try_catch_safe (m : M A) (h : error -> M A) :
  (forall e, safe (h e)) -> safe (try_catch m h).
Proof.
  intros Hh st [e He]. unfold try_catch in He.
  destruct (m st) as [[a | e' | ] st'] eqn:Hm; simpl in He; try discriminate.
  apply (Hh e' st'). now exists e.
Qed.

Lemma try_catch_ok (m : M A) (h : error -> M A) st a st' :
  m st = (Ok a, st') -> try_catch m h st = (Ok a, st').
Proof. intros H. unfold try_catch. now rewrite H. Qed.

Lemma try_catch_caught (m : M A) (h : error -> M A) st e st' :
  m st = (Throw e, st') -> try_catch m h st = h e st'.
Proof. intros H. unfold try_catch. now rewrite H. Qed.

End MonadFacts.

Lemma total_ret {A} (a : A) : total (ret a).
Proof. intros st. now exists a, st. Qed.

Lemma total_bind {A B} (m : M A) (k : A -> M B) :
  total m -> (forall a, total (k a)) -> total (bind m k).
Proof.
  intros Hm Hk st. destruct (Hm st) as (a & st' & H).
  rewrite (bind_ok _ _ _ _ _ H). apply Hk.
Qed.

Lemma safe_bind {A B} (m : M A) (k : A -> M B) :
  safe m -> (forall a, safe (k a)) -> safe (bind m k).
Proof.
  intros Hm Hk st [e He]. unfold bind in He.
  destruct (m st) as [[a | e' | ] st'] eqn:H; simpl in He; try discriminate.
  - apply (Hk a st'). now exists e.
  - apply (Hm st). exists e'. now rewrite H.
Qed.

Lemma total_Date_now c : total (Date_now c).
Proof. intros st. unfold Date_now. eauto. Qed.

Lemma total_Date_toISOString c : total (Date_toISOString c).
Proof. intros st. unfold Date_toISOString. eauto. Qed.

Lemma total_emit a : total (emit a).
Proof. intros st. unfold emit. eauto. Qed.

Lemma total_setVar x v : total (setVar x v).
Proof. intros st. unfold setVar. eauto. Qed.

Lemma total_getVar x : total (getVar x).
Proof. intros st. unfold getVar. eauto. Qed.

Lemma total_if {A} (b : bool) (m1 m2 : M A) :
  total m1 -> total m2 -> total (if b then m1 else m2).
Proof. now destruct b. Qed.

Lemma getProp_ok v k st :
  JS.nullish v = false -> getProp v k st = (Ok (JS.get v k), st).
Proof. destruct v; simpl; intros H; try discriminate; reflexivity. Qed.

Lemma getProp_nullish v k st :
  JS.nullish v = true -> exists e, getProp v k st = (Throw e, st).
Proof. destruct v; simpl; intros H; try discriminate; eexists; reflexivity. Qed.

Lemma total_getProp v k : JS.nullish v = false -> total (getProp v k).
Proof. intros H st. rewrite (getProp_ok _ _ _ H). eauto. Qed.

Lemma literal_not_nullish fs : JS.nullish (Obj.literal fs) = false.
Proof. reflexivity. Qed.

Create HintDb js.
#[local] Hint Resolve total_ret total_Date_now total_Date_toISOString total_emit
  total_setVar total_getVar total_if total_getProp literal_not_nullish : js.
#[local] Hint Extern 2 (total (bind _ _)) => apply total_bind; [ | intros ] : js.

(** ** Text extraction *)

Lemma performOCR_handler_total env labelData error :
  total (failedAt <- Date_now (clk env) ;;
         since <- (if JS.truthy (JS.get labelData "startTime")
                   then ret (JS.get labelData "startTime")
                   else Date_now (clk env)) ;;
         extractedAt <- Date_toISOString (clk env) ;;
         ret (Obj.literal
                [ ("success", VBool false);
                  ("error", message error);
                  ("filename", JS.get labelData "filename");
                  ("processingTime", JS.sub failedAt since);
                  ("extractedAt", extractedAt) ])).
Proof. auto 10 with js. Qed.

(** performOCR never raises on a label that is an object, whatever the
    engine does. *)
Lemma performOCR_safe env labelData :
  JS.nullish labelData = false -> safe (OCR.performOCR env labelData).
Proof.
  intros H. unfold OCR.performOCR.
  apply safe_bind.
  - apply total_safe. auto with js.
  - intros _. apply try_catch_safe. intros e. apply total_safe.
    apply performOCR_handler_total.
Qed.

(** X9. When the engine rejects, the record performOCR returns has five
    fields: success, error, filename, processingTime and extractedAt. *)
Lemma performOCR_engine_failure env labelData e st :
  JS.truthy (JS.get labelData "imageUrl") = true ->
  recognize env (JS.get labelData "imageUrl") = Throw e ->
  exists processingTime extractedAt st',
    OCR.performOCR env labelData st
    = (Ok (VObj [ ("success", VBool false);
                  ("error", VStr (emessage e));
                  ("filename", JS.get labelData "filename");
                  ("processingTime", processingTime);
                  ("extractedAt", extractedAt) ]), st').
Proof.
  intros Hurl Hrec.
  assert (Hn : JS.nullish labelData = false).
  { destruct labelData; simpl in Hurl; try discriminate; reflexivity. }
  unfold OCR.performOCR.
  rewrite (bind_ok _ _ _ _ _ (getProp_ok _ "filename" st Hn)).
  unfold try_catch, bind at 1, Date_now at 1.
  rewrite Hurl. unfold bind at 1, ret at 1. unfold bind at 1, emit at 1.
  unfold bind at 1, lift at 1. rewrite Hrec.
  destruct (performOCR_handler_total env labelData e
              (mkState (S (ticks st))
                 (trace st ++ [Recognize (JS.get labelData "imageUrl") "eng"])%list
                 (store st))) as (r & st' & Hh).
  revert Hh. unfold bind, Date_now, Date_toISOString, ret.
  destruct (JS.truthy (JS.get labelData "startTime")); cbn;
    intros Hh; injection Hh as <- <-.
  all: do 3 eexists; reflexivity.
Qed.

(** C8, at the input of the repository's test "should handle OCR
    processing errors": the engine rejects with "OCR processing failed".
    performOCR does not raise and returns success:false with the error
    message, but the record has no [text] and no [confidence] field,
    where the claim (and the test) require text '' and confidence 0. *)
Theorem performOCR_failure_record_lacks_text_and_confidence :
  exists r st',
    OCR.performOCR allFail mockImageData st0 = (Ok r, st')
    /\ JS.get r "success" = VBool false
    /\ JS.get r "error" = VStr "OCR processing failed"
    /\ JS.get r "text" = VUndefined
    /\ JS.get r "confidence" = VUndefined
    /\ JS.get r "text" <> VStr ""
    /\ JS.get r "confidence" <> VNum (Num 0).
Proof.
  eexists. eexists. split; [ vm_compute; reflexivity | ].
  repeat split; try reflexivity; intros H; discriminate H.
Qed.

(** ** The quality gate *)

Lemma ltb_Qlt a b : Number.ltb (Num a) (Num b) = true <-> (a < b)%Q.
Proof.
  unfold Number.ltb. rewrite negb_true_iff.
  split; intros H.
  - apply Qnot_le_lt. intros Hle. apply Qle_bool_iff in Hle. congruence.
  - destruct (Qle_bool b a) eqn:E; [ | reflexivity ].
    apply Qle_bool_iff in E. exfalso. apply (Qlt_not_le _ _ H E).
Qed.

Lemma ltb_Qle a b : Number.ltb (Num a) (Num b) = false <-> (b <= a)%Q.
Proof.
  unfold Number.ltb. rewrite negb_false_iff. apply Qle_bool_iff.
Qed.

Lemma length_below n k :
  (n < k)%nat -> Number.ltb (Number.of_nat n) (Num (inject_Z (Z.of_nat k))) = true.
Proof.
  intros H. apply ltb_Qlt. unfold Qlt. simpl. lia.
Qed.

(** C6, at the input of the repository's test "should assess high
    quality OCR results" (confidence 0.92, no low-confidence word among
    8): the quality gate answers with the tier "good", where the claim
    (and the test) require "excellent". *)
Theorem assessOCRQuality_high_quality_is_good_not_excellent :
  exists r st',
    OCR.assessOCRQuality allFail highQualityOCR st0 = (Ok r, st')
    /\ JS.get r "overall" = VStr "good"
    /\ JS.get r "overall" <> VStr "excellent"
    /\ JS.get r "issues" = VArr [].
Proof.
  eexists. eexists. split; [ vm_compute; reflexivity | ].
  repeat split; try reflexivity. intros H; discriminate H.
Qed.

(** X1. No input makes the quality gate answer "excellent": every
    assessment it returns carries one of the three tiers of the code. *)
Lemma assessOCRQuality_three_tiers env ocrResult st r st' :
  OCR.assessOCRQuality env ocrResult st = (Ok r, st') ->
  JS.get r "overall" = VStr "poor" \/ JS.get r "overall" = VStr "fair"
  \/ JS.get r "overall" = VStr "good".
Proof.
  unfold OCR.assessOCRQuality, try_catch, bind.
  destruct (getProp ocrResult "confidence" st) as [[c | e | ] st1]; try discriminate.
  destruct (JS.lt c (VNum (Num (7 # 10))));
    [ | destruct (JS.lt c (VNum (Num (85 # 100)))) ];
    destruct (JS.gt _ _);
    (destruct (getProp (JS.get ocrResult "text") "length" st1) as [[l | e | ] st2];
     try discriminate);
    destruct (JS.lt l (VNum (Num 50))); cbn;
    intros H; injection H as <- _; cbn; auto.
Qed.

(** X2. With a confidence of at least 0.85 and a text, the tier is "good",
    whatever the share of low-confidence words. *)
Lemma assessOCRQuality_good_band env ocrResult st c s :
  JS.get ocrResult "confidence" = VNum (Num c) ->
  (85 # 100 <= c)%Q ->
  JS.get ocrResult "text" = VStr s ->
  exists r st',
    OCR.assessOCRQuality env ocrResult st = (Ok r, st')
    /\ JS.get r "overall" = VStr "good".
Proof.
  intros Hc Hle Ht.
  assert (Hn : JS.nullish ocrResult = false).
  { destruct ocrResult; simpl in Ht; try discriminate; reflexivity. }
  unfold OCR.assessOCRQuality, try_catch.
  rewrite (bind_ok _ _ _ _ _ (getProp_ok _ "confidence" st Hn)).
  rewrite Hc, Ht.
  assert (H1 : JS.lt (VNum (Num c)) (VNum (Num (7 # 10))) = false).
  { apply ltb_Qle. eapply Qle_trans; [ | exact Hle ]. unfold Qle. simpl. lia. }
  assert (H2 : JS.lt (VNum (Num c)) (VNum (Num (85 # 100))) = false).
  { apply ltb_Qle. exact Hle. }
  rewrite H1, H2. clear H1 H2.
  destruct (JS.gt _ _); unfold bind, getProp, ret, Date_toISOString; cbn;
    destruct (negb _); do 2 eexists; split; reflexivity.
Qed.




(** ** The AI stage *)

(** X8. parseAIResponse checks no field: whatever the extracted text parses
    to is returned as it is. *)
Lemma parseAIResponse_returns_what_parses text fallbackText v st :
  match AI.fenced text with
  | Some inside => JSON.parse_string inside
  | None => match AI.braced text with
            | Some object => JSON.parse_string object
            | None => JSON.parse_string text
            end
  end = Ok v ->
  AI.parseAIResponse (VStr text) fallbackText st = (Ok v, st).
Proof.
  intros H. unfold AI.parseAIResponse, try_catch, bind, AI.asString, ret.
  destruct (AI.fenced text) as [inside | ];
    [ | destruct (AI.braced text) as [object | ] ];
    unfold JSON.parse, lift; simpl JS.toString; rewrite H; reflexivity.
Qed.

(** C5, at the input of the repository's test "should validate required
    response fields": the provider answers JSON.stringify({someOtherField:
    'value'}), which parses but has none of the mandatory keys.  The
    stage returns the parsed object with its metadata, a sparse record:
    it has no isValid, confidence or correctedText, where the claim (and
    the test) require the fallback of a parse failure. *)
Theorem sparse_response_is_returned_not_replaced_by_fallback :
  exists r st',
    AI.performAIValidation sparseEnv aiInput st0 = (Ok r, st')
    /\ JS.get r "someOtherField" = VStr "value"
    /\ JS.get r "aiModel" = VStr "claude-3-5-sonnet-20241022"
    /\ JS.get r "isValid" = VUndefined
    /\ JS.get r "confidence" = VUndefined
    /\ JS.get r "correctedText" = VUndefined
    /\ JS.get r "extractedInformation" = VUndefined
    /\ JS.get r "isValid" <> VBool false
    /\ JS.get r "correctedText" <> JS.get aiInput "ocrText".
Proof.
  eexists. eexists. split; [ vm_compute; reflexivity | ].
  repeat split; try reflexivity; intros H; discriminate H.
Qed.

(** C4, at two inputs: the primary provider rejects and the secondary is
    not configured ([allFail]), or rejects too ([bothFail]).  The record
    returned has confidence 0.4, respectively 0.3, and an errors map with
    one message per provider, but it has no aiProvider field (the code
    records aiModel instead), where the claim requires aiProvider ==
    "none". *)
Theorem degraded_record_has_no_aiProvider :
  (exists r st',
      AI.performAIValidation allFail aiInput st0 = (Ok r, st')
      /\ JS.get r "aiProvider" = VUndefined
      /\ JS.get r "aiProvider" <> VStr "none"
      /\ JS.get r "aiModel" = VStr "claude-3-5-sonnet-20241022"
      /\ JS.get r "isValid" = VBool false
      /\ JS.get r "confidence" = VNum (Num (4 # 10))
      /\ JS.get r "errors" = VObj [ ("claude", VStr "Anthropic failed");
                                    ("openai", VStr "Not configured") ])
  /\ (exists r st',
         AI.performAIValidation bothFail aiInput st0 = (Ok r, st')
         /\ JS.get r "aiProvider" = VUndefined
         /\ JS.get r "aiProvider" <> VStr "none"
         /\ JS.get r "aiModel" = VStr "gpt-4o-mini"
         /\ JS.get r "isValid" = VBool false
         /\ JS.get r "confidence" = VNum (Num (3 # 10))
         /\ JS.get r "errors" = VObj [ ("claude", VStr "Anthropic API error");
                                       ("openai", VStr "OpenAI API error") ]).
Proof.
  split; eexists; eexists; (split; [ vm_compute; reflexivity | ]);
    repeat split; try reflexivity; intros H; discriminate H.
Qed.

Lemma destructure_no_default data k st :
  JS.nullish data = false ->
  destructure data k VUndefined st = (Ok (JS.get data k), st).
Proof.
  unfold destructure, destructure_from.
  destruct data; simpl; intros H; try discriminate; try reflexivity;
    unfold ret; f_equal; f_equal.
  all: match goal with |- match ?x with _ => _ end = _ => destruct x end;
    reflexivity.
Qed.

(** X3. In general: when the primary provider rejects and the secondary one
    is absent or rejects too, the record returned carries isValid false,
    confidence 0.4 or 0.3, the message of each provider, and no
    aiProvider. *)
Lemma performAIValidation_degraded env data st e1 :
  JS.nullish data = false ->
  JS.nullish (JS.get data "ocrQuality") = false ->
  anthropic env (AI.claudeRequest (AI.promptFor (JS.get data "ocrText"))) = Throw e1 ->
  (openai env = None \/
   exists create e2,
     openai env = Some create
     /\ create (AI.openaiRequest (AI.promptFor (JS.get data "ocrText"))) = Throw e2) ->
  exists r st',
    AI.performAIValidation env data st = (Ok r, st')
    /\ JS.get r "aiProvider" = VUndefined
    /\ JS.get r "isValid" = VBool false
    /\ JS.get r "correctedText" = JS.get data "ocrText"
    /\ JS.get (JS.get r "errors") "claude" = VStr (emessage e1)
    /\ ((openai env = None
         /\ JS.get r "confidence" = VNum (Num (4 # 10))
         /\ JS.get (JS.get r "errors") "openai" = VStr "Not configured"
         /\ JS.get r "aiModel" = VStr AI.claudeModel)
        \/ (exists create e2,
              openai env = Some create
              /\ create (AI.openaiRequest (AI.promptFor (JS.get data "ocrText")))
                 = Throw e2
              /\ JS.get r "confidence" = VNum (Num (3 # 10))
              /\ JS.get (JS.get r "errors") "openai" = VStr (emessage e2)
              /\ JS.get r "aiModel" = VStr AI.openaiModel)).
Proof.
  intros Hd Hq H1 H2.
  unfold AI.performAIValidation, try_catch.
  unfold bind at 1, Date_now at 1.
  rewrite (bind_ok _ _ _ _ _ (destructure_no_default _ "ocrText" _ Hd)).
  unfold AI.askProviders, try_catch.
  unfold bind at 2, emit at 1. unfold bind at 2, lift at 1. rewrite H1.
  destruct H2 as [Hnone | (create & e2 & Hsome & Hcreate)].
  - rewrite Hnone. unfold AI.elapsedSince.
    unfold bind, Date_now, Date_toISOString, ret.
    rewrite (getProp_ok _ "overall" _ Hq).
    do 2 eexists. split; [ reflexivity | ].
    repeat split. left. repeat split; assumption.
  - rewrite Hsome. unfold try_catch.
    unfold bind at 2, emit at 1. unfold bind at 2, lift at 1. rewrite Hcreate.
    unfold AI.elapsedSince.
    unfold bind, Date_now, Date_toISOString, ret.
    rewrite (getProp_ok _ "overall" _ Hq).
    do 2 eexists. split; [ reflexivity | ].
    repeat split. right. exists create, e2. repeat split; assumption.
Qed.

(** ** The call of the regulatory tool *)

(** Without a close event the promise of callFDAMCPTool stays as it is:
    data and elapsed time never settle it. *)
Lemma step_without_close events p :
  existsb closes events = false ->
  FDA.settled (fold_left FDA.step events p) = FDA.settled p.
Proof.
  revert p. induction events as [ | ev events IH]; intros p H; simpl in *.
  - reflexivity.
  - apply orb_false_iff in H as [Hev Hrest].
    rewrite (IH _ Hrest). unfold FDA.step.
    destruct (FDA.crashed p); [ reflexivity | ].
    destruct ev; simpl in *; try reflexivity; try discriminate;
      destruct (FDA.settled p) eqn:E; simpl; congruence.
Qed.

(** Without an ['error'] event the process lives on. *)
Lemma step_without_error events p :
  existsb unhandled events = false ->
  FDA.crashed p = None ->
  FDA.crashed (fold_left FDA.step events p) = None.
Proof.
  revert p. induction events as [ | ev events IH]; intros p H Hc; simpl in *.
  - exact Hc.
  - apply orb_false_iff in H as [Hev Hrest]. apply (IH _ Hrest).
    unfold FDA.step. rewrite Hc.
    destruct ev; simpl in *; try reflexivity; try exact Hc; try discriminate.
    now destruct (FDA.settled p).
Qed.

(** A settled promise is resolved or rejected. *)
Lemma settled_not_pending events p :
  FDA.settled p <> Some Pending ->
  FDA.settled (fold_left FDA.step events p) <> Some Pending.
Proof.
  revert p. induction events as [ | ev events IH]; intros p H; simpl.
  - exact H.
  - apply IH. unfold FDA.step.
    destruct (FDA.crashed p); [ exact H | ].
    destruct ev; simpl; try exact H;
      try (destruct (FDA.settled p) eqn:E; [ rewrite E; exact H | simpl; discriminate ]).
    destruct (FDA.settled p) eqn:E; [ rewrite E; exact H | ].
    simpl. unfold FDA.on_close.
    destruct (FDA.not_zero code); [ discriminate | ].
    destruct (JSON.parse_string _) eqn:Ep; try discriminate.
    unfold JSON.parse_string in Ep.
    destruct (JSON.parse_value _ _) as [[v rest] | ]; [ | discriminate ].
    destruct (JSON.skip_ws rest); discriminate.
Qed.

Lemma callFDAMCPTool_run env toolName args st :
  FDA.callFDAMCPTool env toolName args st
  = (match FDA.settled (fold_left FDA.step
                          (child env (FDA.requestLine toolName args)) FDA.pipe0) with
     | Some o => o
     | None => Pending
     end,
     mkState (ticks st)
       (trace st ++ callActions toolName args
          ++ uncaught (fold_left FDA.step
                         (child env (FDA.requestLine toolName args)) FDA.pipe0))%list
       (store st)).
Proof.
  unfold FDA.callFDAMCPTool, FDA.await, uncaught, bind, emit, lift, callActions. simpl.
  repeat rewrite <- app_assoc. simpl.
  destruct (FDA.settled _); [ reflexivity | ].
  destruct (FDA.crashed _); simpl; repeat rewrite <- app_assoc; reflexivity.
Qed.

(** A call that settled: its trace is the three actions. *)
Lemma callFDAMCPTool_settled env toolName args st o :
  FDA.settled (fold_left FDA.step (child env (FDA.requestLine toolName args)) FDA.pipe0)
  = Some o ->
  FDA.callFDAMCPTool env toolName args st
  = (o, mkState (ticks st) (trace st ++ callActions toolName args)%list (store st)).
Proof.
  intros H. rewrite callFDAMCPTool_run. unfold uncaught. rewrite H.
  now rewrite app_nil_r.
Qed.

(** X4. For every call whose process never closes, however much time
    passes: the call stays pending, and nothing that the call adds to
    the trace of external actions kills the process. *)
Lemma callFDAMCPTool_pending_without_close env toolName args st :
  existsb closes (child env (FDA.requestLine toolName args)) = false ->
  fst (FDA.callFDAMCPTool env toolName args st) = Pending
  /\ exists added,
       trace (snd (FDA.callFDAMCPTool env toolName args st)) = (trace st ++ added)%list
       /\ ~ In Kill added.
Proof.
  intros H. rewrite callFDAMCPTool_run, (step_without_close _ _ H). simpl.
  split; [ reflexivity | ].
  eexists. split; [ reflexivity | ].
  intros [K | [K | [K | K]]]; try discriminate K.
  unfold uncaught in K.
  destruct (FDA.settled _); [ exact K | ].
  destruct (FDA.crashed _); [ | exact K ].
  destruct K as [K | []]. discriminate K.
Qed.

(** C2, at a process that never answers while 70 seconds pass: the
    regulatory check neither completes with a WARNING Finding nor kills
    the process; it stays pending, having only spawned the process and
    written the request. *)
Theorem unanswered_call_stays_pending_and_is_not_killed :
  fst (FDA.validateIngredientsWithFDA silent waterSugarSalt st0) = Pending
  /\ trace (snd (FDA.validateIngredientsWithFDA silent waterSugarSalt st0))
     = callActions "validate_ingredients"
         (VObj [("ingredients", VArr [VStr "water"; VStr "sugar"; VStr "salt"])])
  /\ ~ In Kill (trace (snd (FDA.validateIngredientsWithFDA silent waterSugarSalt st0))).
Proof.
  split; [ vm_compute; reflexivity | ].
  split; [ vm_compute; reflexivity | ].
  vm_compute. intros [K | [K | [K | []]]]; discriminate K.
Qed.

(** When the process does close with a non-zero code, the stage reports
    the service-unavailable WARNING. *)
Example exit_code_1_is_a_warning :
  exists r st' f,
    FDA.validateIngredientsWithFDA allFail waterSugarSalt st0 = (Ok r, st')
    /\ JS.get (JS.get r "fdaValidation") "issues" = VArr [f]
    /\ JS.get f "type" = VStr "FDA_SERVICE_ERROR"
    /\ JS.get f "severity" = VStr "WARNING".
Proof.
  do 3 eexists. split; [ vm_compute; reflexivity | ].
  repeat split; reflexivity.
Qed.

(** ** Nutritional claims *)

Lemma checkNutritionalThreshold_single fields nutrient s maxValue st :
  Obj.lookup nutrient fields = Some (VStr s) ->
  Server.checkNutritionalThreshold (VObj fields) [(nutrient, maxValue)] st
  = (Ok (negb (Number.gtb (amount s) maxValue)), st).
Proof.
  intros H. unfold Server.checkNutritionalThreshold, Server.cleaned, bind, getProp, ret.
  cbv beta iota. unfold JS.get. rewrite H. cbv beta iota.
  fold (amount s). destruct (Number.gtb (amount s) maxValue); reflexivity.
Qed.

(** X5. "low fat": valid unless the amount read exceeds 3, the amount
    being the double that parseFloat reads from the digits and dots of the
    field. *)
Lemma low_fat_verdict fields s st :
  Obj.lookup "totalFat" fields = Some (VStr s) ->
  Server.validateSingleClaim (VStr "low fat") (VObj fields) st
  = (Ok (verdictRecord "low fat" (negb (Number.gtb (amount s) (Num 3)))), st).
Proof.
  intros H. unfold Server.validateSingleClaim, Server.toLowerCase.
  unfold bind at 1, ret at 1. change (Str.toLowerCase "low fat") with "low fat".
  unfold Server.fdaThresholds, Server.firstMatch.
  change (Str.includes "low fat" "low fat") with true. cbv iota.
  unfold bind at 1. unfold bind at 1.
  rewrite (checkNutritionalThreshold_single _ _ _ _ _ H).
  destruct (negb _); reflexivity.
Qed.

(** X6. "sodium free": valid unless the amount read exceeds 5, so that an
    amount of exactly 5 is accepted; the amount is the double that
    parseFloat reads from the digits and dots of the field. *)
Lemma sodium_free_verdict fields s st :
  Obj.lookup "sodium" fields = Some (VStr s) ->
  Server.validateSingleClaim (VStr "sodium free") (VObj fields) st
  = (Ok (verdictRecord "sodium free" (negb (Number.gtb (amount s) (Num 5)))), st).
Proof.
  intros H. unfold Server.validateSingleClaim, Server.toLowerCase.
  unfold bind at 1, ret at 1. change (Str.toLowerCase "sodium free") with "sodium free".
  unfold Server.fdaThresholds, Server.firstMatch.
  change (Str.includes "sodium free" "low fat") with false.
  change (Str.includes "sodium free" "fat free") with false.
  change (Str.includes "sodium free" "low sodium") with false.
  change (Str.includes "sodium free" "sodium free") with true. cbv iota.
  unfold bind at 1. unfold bind at 1.
  rewrite (checkNutritionalThreshold_single _ _ _ _ _ H).
  destruct (negb _); reflexivity.
Qed.

(** The amount is rounded before it is compared: a field just above the
    threshold, by less than a double can tell, is accepted. *)
Example amount_is_rounded :
  amount "3.0000000000000001g" = Num 3
  /\ amount "5.0000000000000001mg" = Num 5
  /\ amount "0.1g" = Num (3602879701896397 # 36028797018963968)
  /\ fst (Server.validateSingleClaim (VStr "low fat")
            (VObj [("totalFat", VStr "3.0000000000000001g")]) st0)
     = Ok (verdictRecord "low fat" true).
Proof. repeat split; vm_compute; reflexivity. Qed.

(** In terms of the order on the rationals: with an amount q read from
    the field, "low fat" is valid exactly when q <= 3 and "sodium free"
    exactly when q <= 5. *)
Lemma not_gtb_iff_le q t : negb (Number.gtb (Num q) (Num t)) = true <-> (q <= t)%Q.
Proof.
  unfold Number.gtb. rewrite negb_true_iff. apply ltb_Qle.
Qed.

(** C9, at the failing input: claim "sodium free" with sodium "5mg".
    The server judges the claim valid, since it only rejects amounts
    above the threshold, where the claim (and the comment of the
    threshold table, "Less than 5mg per serving") require sodium < 5.
    The "low fat" part holds: "2g" is valid, "5g" is invalid with a
    reason naming the requirement, and the boundary "3g" is valid. *)
Theorem sodium_free_accepts_exactly_5mg :
  fst (Server.validateSingleClaim (VStr "sodium free") (VObj [("sodium", VStr "5mg")]) st0)
  = Ok (verdictRecord "sodium free" true)
  /\ fst (Server.validateSingleClaim (VStr "sodium free") (VObj [("sodium", VStr "4.9mg")]) st0)
     = Ok (verdictRecord "sodium free" true)
  /\ fst (Server.validateSingleClaim (VStr "sodium free") (VObj [("sodium", VStr "5.1mg")]) st0)
     = Ok (verdictRecord "sodium free" false)
  /\ fst (Server.validateSingleClaim (VStr "low fat") (VObj [("totalFat", VStr "2g")]) st0)
     = Ok (verdictRecord "low fat" true)
  /\ fst (Server.validateSingleClaim (VStr "low fat") (VObj [("totalFat", VStr "3g")]) st0)
     = Ok (verdictRecord "low fat" true)
  /\ fst (Server.validateSingleClaim (VStr "low fat") (VObj [("totalFat", VStr "5g")]) st0)
     = Ok (VObj [ ("claim", VStr "low fat"); ("isValid", VBool false);
                  ("reason", VStr ("Claim does not meet FDA requirements for "
                                   ++ Str.quoted "low fat"));
                  ("fdaSource", VStr "FDA Nutrition Labeling Guidelines") ]).
Proof. repeat split; vm_compute; reflexivity. Qed.

Lemma firstMatch_none normalizedClaim nutritionalData table st :
  (forall t, In t (List.map fst table) -> Str.includes normalizedClaim t = false) ->
  Server.firstMatch normalizedClaim nutritionalData table st
  = (Ok (false, Server.unrecognized), st).
Proof.
  induction table as [ | [claimType thresholds] table IH]; intros H; simpl.
  - reflexivity.
  - rewrite (H claimType (or_introl eq_refl)).
    apply IH. intros t Ht. apply H. right. exact Ht.
Qed.

(** X7. A claim whose lower-cased text contains none of the six claim types
    is judged invalid, with the reason "Claim not recognized or cannot be
    validated", whatever the nutritional data. *)
Lemma unrecognized_claim_is_invalid s nutritionalData st :
  (forall t, In t recognizedClaims -> Str.includes (Str.toLowerCase s) t = false) ->
  Server.validateSingleClaim (VStr s) nutritionalData st
  = (Ok (VObj [ ("claim", VStr s); ("isValid", VBool false);
                ("reason", VStr "Claim not recognized or cannot be validated");
                ("fdaSource", VStr "FDA Nutrition Labeling Guidelines") ]), st).
Proof.
  intros H. unfold Server.validateSingleClaim, Server.toLowerCase.
  unfold bind at 1, ret at 1. unfold bind.
  rewrite (firstMatch_none _ _ _ _ H). reflexivity.
Qed.

Lemma lookup_set_same k v fs : Obj.lookup k (Obj.set k v fs) = Some v.
Proof.
  induction fs as [ | [k' v'] fs IH]; simpl.
  - now rewrite String.eqb_refl.
  - destruct (String.eqb k k') eqn:E; simpl.
    + now rewrite String.eqb_refl.
    + now rewrite E.
Qed.

Lemma lookup_set_other k k' v fs :
  String.eqb k k' = false -> Obj.lookup k (Obj.set k' v fs) = Obj.lookup k fs.
Proof.
  intros H. induction fs as [ | [k0 v0] fs IH]; simpl.
  - now rewrite H.
  - destruct (String.eqb k' k0) eqn:E; simpl.
    + apply String.eqb_eq in E. subst k0. now rewrite H.
    + destruct (String.eqb k k0); [ reflexivity | exact IH ].
Qed.

(** X11. Once the activity has a validation in hand that is not valid, it
    files it as a COMPLIANCE finding for that claim. *)
Lemma invalid_validation_is_a_compliance_issue env validation st xs :
  JS.nullish validation = false ->
  JS.truthy (JS.get validation "isValid") = false ->
  Obj.lookup "issues" (store st) = Some (VArr xs) ->
  exists f st',
    FDA.perClaimValidation env validation st = (Ok tt, st')
    /\ Obj.lookup "issues" (store st') = Some (VArr (xs ++ [f]))
    /\ JS.get f "type" = VStr "FDA_INVALID_CLAIM"
    /\ JS.get f "severity" = VStr "COMPLIANCE"
    /\ JS.get f "claim" = JS.get validation "claim"
    /\ JS.get f "message" = JS.get validation "reason".
Proof.
  intros Hn Hv Hs. unfold FDA.perClaimValidation.
  rewrite (bind_ok _ _ _ _ _ (getProp_ok _ "isValid" st Hn)).
  rewrite Hv.
  unfold bind, FDA.stamped, Date_toISOString, ret, push, getVar, setVar, bind.
  cbv beta iota delta [negb]. cbn [store]. rewrite Hs. cbv beta iota.
  do 2 eexists. split; [ reflexivity | ].
  cbn [store]. rewrite lookup_set_same.
  repeat split; reflexivity.
Qed.

(** C10, at the claim "heart healthy" (it contains none of the six claim
    types), with the tool server as the spawned process.  The server
    judges the claim invalid with the reason "Claim not recognized or
    cannot be validated", and puts that verdict in its response; the
    claims activity reads [content] at the top of the response, where
    the response carries it under [result], finds nothing and emits no
    finding at all: no COMPLIANCE finding for the claim. *)
Theorem unrecognized_claim_emits_no_compliance_finding :
  fst (Server.validateSingleClaim (VStr "heart healthy")
         (VObj [("totalFat", VStr "2g")]) st0)
  = Ok (VObj [ ("claim", VStr "heart healthy"); ("isValid", VBool false);
               ("reason", VStr "Claim not recognized or cannot be validated");
               ("fdaSource", VStr "FDA Nutrition Labeling Guidelines") ])
  /\ exists r st',
       FDA.validateNutritionalClaimsWithFDA served heartHealthy st0 = (Ok r, st')
       /\ JS.get r "success" = VBool true
       /\ JS.get (JS.get r "fdaClaimsValidation") "claimsValidated" = VNum (Num 1)
       /\ JS.get (JS.get r "fdaClaimsValidation") "issues" = VArr []
       /\ JS.get (JS.get r "fdaClaimsValidation") "recommendations" = VArr [].
Proof.
  split; [ vm_compute; reflexivity | ].
  do 2 eexists. split; [ vm_compute; reflexivity | ].
  repeat split; reflexivity.
Qed.

Example unwrapped_response_emits_the_compliance_finding :
  exists r st' f,
    FDA.validateNutritionalClaimsWithFDA servedUnwrapped heartHealthy st0 = (Ok r, st')
    /\ JS.get (JS.get r "fdaClaimsValidation") "issues" = VArr [f]
    /\ JS.get f "severity" = VStr "COMPLIANCE"
    /\ JS.get f "claim" = VStr "heart healthy"
    /\ JS.get f "message" = VStr "Claim not recognized or cannot be validated".
Proof.
  do 3 eexists. split; [ vm_compute; reflexivity | ].
  repeat split; reflexivity.
Qed.

(** The ingredient activity reads the same kind of response where it is,
    under [result]: three known ingredients, three approved. *)
Example ingredients_are_read_under_result :
  exists r st' summary,
    FDA.validateIngredientsWithFDA served waterSugarSalt st0 = (Ok r, st')
    /\ JS.get (JS.get r "fdaValidation") "issues" = VArr []
    /\ JS.get (JS.get r "fdaValidation") "recommendations" = VArr [summary]
    /\ JS.get summary "message"
       = VStr "FDA validation completed: 3/3 ingredients approved, 0 warnings found".
Proof.
  do 3 eexists. split; [ vm_compute; reflexivity | ].
  repeat split; reflexivity.
Qed.

(** ** The regulatory cross-check on an empty ingredient list *)

Section Keeps.
Variable T : list action.

Lemma keeps_ret {A} (a : A) : keeps T (ret a).
Proof. intros st H. split; [ exact H | discriminate ]. Qed.

Lemma keeps_throw {A} e : keeps T (@throw A e).
Proof. intros st H. split; [ exact H | discriminate ]. Qed.

Lemma keeps_bind {A B} (m : M A) (k : A -> M B) :
  keeps T m -> (forall a, keeps T (k a)) -> keeps T (bind m k).
Proof.
  intros Hm Hk st H. unfold bind. specialize (Hm st H).
  destruct (m st) as [[a | e | ] st1]; simpl in *.
  - apply Hk. apply Hm.
  - split; [ apply Hm | discriminate ].
  - exfalso. now apply (proj2 Hm).
Qed.

Lemma keeps_try_catch {A} (m : M A) (h : error -> M A) :
  keeps T m -> (forall e, keeps T (h e)) -> keeps T (try_catch m h).
Proof.
  intros Hm Hh st H. unfold try_catch. specialize (Hm st H).
  destruct (m st) as [[a | e | ] st1]; simpl in *.
  - exact Hm.
  - apply Hh. apply Hm.
  - exact Hm.
Qed.

Lemma keeps_if {A} (b : bool) (m1 m2 : M A) :
  keeps T m1 -> keeps T m2 -> keeps T (if b then m1 else m2).
Proof. now destruct b. Qed.

Lemma keeps_forEach {A} (f : A -> M unit) xs :
  (forall x, keeps T (f x)) -> keeps T (forEach f xs).
Proof.
  intros Hf. induction xs as [ | x xs IH]; simpl.
  - apply keeps_ret.
  - apply keeps_bind; [ apply Hf | intros _; exact IH ].
Qed.

Lemma keeps_getProp v k : keeps T (getProp v k).
Proof. destruct v; simpl; auto using keeps_ret, keeps_throw. Qed.

Lemma keeps_not_a_function {A} expr : keeps T (@not_a_function A expr).
Proof. apply keeps_throw. Qed.

Lemma keeps_parse v : keeps T (JSON.parse v).
Proof.
  intros st H. unfold JSON.parse, lift. simpl. split; [ exact H | ].
  unfold JSON.parse_string.
  destruct (JSON.parse_value _ _) as [[x rest] | ]; [ | discriminate ].
  destruct (JSON.skip_ws rest); discriminate.
Qed.

Lemma keeps_stamped env fields : keeps T (FDA.stamped env fields).
Proof.
  intros st H. unfold FDA.stamped, bind, Date_toISOString, ret. simpl.
  split; [ exact H | discriminate ].
Qed.

Lemma keeps_setVar_issues xs : keeps T (setVar "issues" (VArr xs)).
Proof.
  intros st (Ht & Hi & Hr). unfold setVar. simpl.
  split; [ | discriminate ]. split; [ exact Ht | ]. split.
  - exists xs. simpl. apply lookup_set_same.
  - destruct Hr as [ys Hr]. exists ys. simpl.
    rewrite lookup_set_other; [ exact Hr | reflexivity ].
Qed.

Lemma keeps_setVar_recommendations xs : keeps T (setVar "recommendations" (VArr xs)).
Proof.
  intros st (Ht & Hi & Hr). unfold setVar. simpl.
  split; [ | discriminate ]. split; [ exact Ht | ]. split.
  - destruct Hi as [ys Hi]. exists ys. simpl.
    rewrite lookup_set_other; [ exact Hi | reflexivity ].
  - exists xs. simpl. apply lookup_set_same.
Qed.

Lemma keeps_setVar_result v : keeps T (setVar "fdaValidationResult" v).
Proof.
  intros st (Ht & [xs Hi] & [ys Hr]). unfold setVar. simpl.
  split; [ | discriminate ]. split; [ exact Ht | ]. split.
  - exists xs. simpl. rewrite lookup_set_other; [ exact Hi | reflexivity ].
  - exists ys. simpl. rewrite lookup_set_other; [ exact Hr | reflexivity ].
Qed.

Lemma keeps_push_issues v : keeps T (push "issues" v).
Proof.
  intros st H. pose proof H as (Ht & [xs Hi] & Hr).
  unfold push, bind, getVar. rewrite Hi.
  apply keeps_setVar_issues. exact H.
Qed.

Lemma keeps_push_recommendations v : keeps T (push "recommendations" v).
Proof.
  intros st H. pose proof H as (Ht & Hi & [ys Hr]).
  unfold push, bind, getVar. rewrite Hr.
  apply keeps_setVar_recommendations. exact H.
Qed.

Lemma keeps_valueForEach expr xs f :
  (forall x, keeps T (f x)) -> keeps T (FDA.valueForEach expr xs f).
Proof.
  intros Hf. unfold FDA.valueForEach.
  destruct xs; try apply keeps_not_a_function;
    try (apply keeps_bind; [ apply keeps_getProp | intros; apply keeps_ret ]).
  now apply keeps_forEach.
Qed.

Create HintDb keeps.
#[local] Hint Resolve keeps_ret keeps_throw keeps_getProp keeps_not_a_function keeps_parse
  keeps_stamped keeps_setVar_issues keeps_setVar_result keeps_push_issues
  keeps_push_recommendations : keeps.

Ltac keeps_step :=
  first [ solve [ auto with keeps ]
        | apply keeps_valueForEach; intros
        | apply keeps_try_catch; [ | intros ]
        | apply keeps_if
        | apply keeps_bind; [ | intros ] ].

Lemma keeps_perValidationResult env validationResult :
  keeps T (FDA.perValidationResult env validationResult).
Proof. unfold FDA.perValidationResult. repeat keeps_step. Qed.

Lemma keeps_processFDAResult env parsedResult :
  keeps T (FDA.processFDAResult env parsedResult).
Proof.
  unfold FDA.processFDAResult.
  repeat first [ apply keeps_perValidationResult | keeps_step ].
Qed.

Lemma keeps_readResponse env response : keeps T (FDA.readResponse env response).
Proof.
  unfold FDA.readResponse.
  repeat first [ apply keeps_processFDAResult | keeps_step ].
Qed.

End Keeps.

Lemma settled_kept events p :
  FDA.settled p <> None -> FDA.settled (fold_left FDA.step events p) <> None.
Proof.
  revert p. induction events as [ | ev events IH]; intros p H; simpl.
  - exact H.
  - apply IH. unfold FDA.step.
    destruct (FDA.crashed p); [ exact H | ].
    destruct (FDA.settled p) eqn:E; [ | now elim H ].
    destruct ev; simpl; rewrite ?E; discriminate.
Qed.

Lemma step_with_close events p :
  FDA.crashed p = None ->
  closesCleanly events = true ->
  FDA.settled (fold_left FDA.step events p) <> None.
Proof.
  revert p. induction events as [ | ev events IH]; intros p Hc H; simpl in *.
  - discriminate.
  - destruct ev; try discriminate H;
      try (apply IH; [ unfold FDA.step; rewrite Hc; simpl;
                       first [ reflexivity | assumption ] | exact H ]).
    apply settled_kept. unfold FDA.step. rewrite Hc.
    destruct (FDA.settled p) eqn:E; simpl; [ rewrite E | ]; discriminate.
Qed.

(** The inner try/catch, once the process has closed: it returns, the
    trace is the three actions of the call, and the findings are still
    arrays. *)
Lemma queryFDA_settles env ingredientsToValidate st :
  isArr "issues" st -> isArr "recommendations" st ->
  let args := Obj.literal [("ingredients", ingredientsToValidate)] in
  closesCleanly (child env (FDA.requestLine "validate_ingredients" args)) = true ->
  exists st',
    FDA.queryFDA env ingredientsToValidate st = (Ok tt, st')
    /\ Inv (trace st ++ callActions "validate_ingredients" args) st'.
Proof.
  intros Hi Hr args Hclose.
  set (T := (trace st ++ callActions "validate_ingredients" args)%list).
  assert (Hhandler : forall s, Inv T s ->
            exists s', (f <- FDA.stamped env FDA.serviceError ;;
                        setVar "issues" (VArr [f])) s = (Ok tt, s') /\ Inv T s').
  { intros s Hs.
    pose proof (keeps_bind T _ _ (keeps_stamped T env FDA.serviceError)
                  (fun f => keeps_setVar_issues T [f]) s Hs) as [Hk _].
    unfold bind, FDA.stamped, Date_toISOString, ret, setVar in *.
    eexists. split; [ reflexivity | exact Hk ]. }
  unfold FDA.queryFDA, try_catch. unfold bind at 1.
  pose proof (step_with_close _ FDA.pipe0 eq_refl Hclose) as Hsome.
  pose proof (settled_not_pending
                (child env (FDA.requestLine "validate_ingredients" args)) FDA.pipe0) as Hnp.
  fold args.
  destruct (FDA.settled _) as [[response | e | ] | ] eqn:Es;
    [ rewrite (callFDAMCPTool_settled _ _ _ _ _ Es)
    | rewrite (callFDAMCPTool_settled _ _ _ _ _ Es)
    | exfalso; apply Hnp; [ discriminate | reflexivity ]
    | now exfalso ].
  - assert (H1 : Inv T (mkState (ticks st) T (store st))).
    { split; [ reflexivity | split; [ exact Hi | exact Hr ] ]. }
    destruct (keeps_readResponse T env response _ H1) as [Hk Hp].
    fold T. destruct (FDA.readResponse env response _) as [[[] | e | ] s1]; simpl in *.
    + eexists. split; [ reflexivity | exact Hk ].
    + apply (Hhandler s1 Hk).
    + now exfalso.
  - apply Hhandler. split; [ reflexivity | split; [ exact Hi | exact Hr ] ].
Qed.

(** C3 fails as stated: with no ingredient at all, the tool server is
    still spawned and asked to validate the empty list, and the finding
    that reports the missing ingredients has severity WARNING, not
    INFO. *)
Lemma empty_list_is_sent_and_reported_as_warning :
  exists r st' f summary,
    FDA.validateIngredientsWithFDA served noIngredientsData st0 = (Ok r, st')
    /\ trace st' = callActions "validate_ingredients" emptyArgs
    /\ trace st' <> []
    /\ JS.get (JS.get r "fdaValidation") "issues" = VArr [f]
    /\ JS.get f "type" = VStr "FDA_NO_INGREDIENTS"
    /\ JS.get f "severity" = VStr "WARNING"
    /\ JS.get f "severity" <> VStr "INFO"
    /\ JS.get (JS.get r "fdaValidation") "recommendations" = VArr [summary]
    /\ JS.get summary "type" = VStr "FDA_VALIDATION_SUMMARY".
Proof.
  do 4 eexists. split; [ vm_compute; reflexivity | ].
  repeat split; try reflexivity; intros H; discriminate H.
Qed.

(** C3, amended: for every input whose ingredient list is empty, both as
    the direct argument and in extractedInformation, the regulatory tool
    is called with the empty list, and once its process has closed (no
    ['error'] event, for which there is no listener, having ended the
    run before) the stage returns success with, as its last issue, a
    WARNING-severity Finding of type FDA_NO_INGREDIENTS ("No ingredients
    detected - manual ingredient list review recommended"). *)
Theorem empty_ingredients_warning_finding env data st :
  JS.nullish data = false ->
  emptyList (JS.get data "ingredients") ->
  (JS.get data "extractedInformation" = VUndefined
   \/ exists fs, JS.get data "extractedInformation" = VObj fs
                 /\ emptyList (JS.get (VObj fs) "ingredients")) ->
  closesCleanly (child env (FDA.requestLine "validate_ingredients" emptyArgs)) = true ->
  exists r st' before f,
    FDA.validateIngredientsWithFDA env data st = (Ok r, st')
    /\ trace st' = (trace st ++ callActions "validate_ingredients" emptyArgs)%list
    /\ JS.get r "success" = VBool true
    /\ JS.get (JS.get r "fdaValidation") "issues" = VArr (before ++ [f])
    /\ JS.get f "type" = VStr "FDA_NO_INGREDIENTS"
    /\ JS.get f "severity" = VStr "WARNING"
    /\ JS.get f "message"
       = VStr "No ingredients detected - manual ingredient list review recommended".
Proof.
  intros Hd Hing Hinfo Hclose.
  assert (F1 : forall s, destructure data "ingredients" (VArr []) s = (Ok (VArr []), s)).
  { intros s. unfold destructure, destructure_from.
    destruct data; try discriminate; destruct Hing as [-> | ->]; reflexivity. }
  assert (F2 : exists ei,
             (forall s, destructure data "extractedInformation" (VObj []) s = (Ok ei, s))
             /\ JS.nullish ei = false
             /\ (if JS.truthy (JS.get ei "ingredients")
                 then JS.get ei "ingredients" else VArr []) = VArr []).
  { destruct Hinfo as [Hu | (fs & Hfs & He)].
    - exists (VObj []). split; [ | split; reflexivity ].
      intros s. unfold destructure, destructure_from.
      destruct data; try discriminate; rewrite Hu; reflexivity.
    - exists (VObj fs). split; [ | split; [ reflexivity | ] ].
      + intros s. unfold destructure, destructure_from.
        destruct data; try discriminate; rewrite Hfs; reflexivity.
      + destruct He as [-> | ->]; reflexivity. }
  destruct F2 as (ei & F2 & Hei & Hpick).
  unfold FDA.validateIngredientsWithFDA.
  match goal with
  | |- exists r st' before f, try_catch ?body ?h st = _ /\ _ =>
      assert (Hbody : exists r st' before f,
                 body st = (Ok r, st')
                 /\ trace st' = (trace st ++ callActions "validate_ingredients" emptyArgs)%list
                 /\ JS.get r "success" = VBool true
                 /\ JS.get (JS.get r "fdaValidation") "issues" = VArr (before ++ [f])
                 /\ JS.get f "type" = VStr "FDA_NO_INGREDIENTS"
                 /\ JS.get f "severity" = VStr "WARNING"
                 /\ JS.get f "message"
                    = VStr "No ingredients detected - manual ingredient list review recommended")
  end.
  2: { destruct Hbody as (r & st' & before & f & Hrun & Hrest).
       exists r, st', before, f. split; [ | exact Hrest ].
       apply try_catch_ok. exact Hrun. }
  unfold bind at 1, Date_now at 1.
  rewrite (bind_ok _ _ _ _ _ (F1 _)).
  rewrite (bind_ok _ _ _ _ _ (F2 _)).
  unfold bind at 1, getProp at 1, ret at 1.
  change (JS.truthy (JS.get (VArr []) "length")) with false. cbv beta iota delta [negb].
  unfold bind at 1. unfold bind at 1.
  rewrite (getProp_ok _ "ingredients" _ Hei). unfold ret at 1. rewrite Hpick.
  unfold bind at 1, setVar at 1. unfold bind at 1, setVar at 1.
  unfold bind at 1, setVar at 1. cbn [ticks trace store].
  set (s5 := mkState _ _ _).
  assert (Hi : isArr "issues" s5).
  { exists []. unfold s5. cbn [store].
    rewrite lookup_set_other by reflexivity. apply lookup_set_same. }
  assert (Hr : isArr "recommendations" s5).
  { exists []. unfold s5. cbn [store]. apply lookup_set_same. }
  destruct (queryFDA_settles env (VArr []) s5 Hi Hr Hclose) as (s6 & Hq & HT & [xs Hxs] & [ys Hys]).
  unfold bind at 1. rewrite Hq.
  change (JS.is_zero (JS.get (VArr []) "length")) with true. cbv beta iota.
  unfold FDA.stamped, push.
  unfold bind, Date_toISOString, Date_now, ret, getVar, setVar.
  cbn [ticks trace store]. rewrite Hxs. cbv beta iota. cbn [ticks trace store].
  rewrite lookup_set_same.
  rewrite lookup_set_other by reflexivity. rewrite Hys.
  do 4 eexists. split; [ reflexivity | ].
  split; [ exact HT | ].
  repeat split; reflexivity.
Qed.

Lemma empty_ingredients_warning_finding_witness :
  JS.nullish noIngredientsData = false
  /\ emptyList (JS.get noIngredientsData "ingredients")
  /\ (JS.get noIngredientsData "extractedInformation" = VUndefined
      \/ exists fs, JS.get noIngredientsData "extractedInformation" = VObj fs
                    /\ emptyList (JS.get (VObj fs) "ingredients"))
  /\ closesCleanly (child served (FDA.requestLine "validate_ingredients" emptyArgs)) = true
  /\ exists r st' before f,
       FDA.validateIngredientsWithFDA served noIngredientsData st0 = (Ok r, st')
       /\ trace st' = (trace st0 ++ callActions "validate_ingredients" emptyArgs)%list
       /\ JS.get r "success" = VBool true
       /\ JS.get (JS.get r "fdaValidation") "issues" = VArr (before ++ [f])
       /\ JS.get f "type" = VStr "FDA_NO_INGREDIENTS"
       /\ JS.get f "severity" = VStr "WARNING"
       /\ JS.get f "message"
          = VStr "No ingredients detected - manual ingredient list review recommended".
Proof.
  assert (H1 : JS.nullish noIngredientsData = false) by reflexivity.
  assert (H2 : emptyList (JS.get noIngredientsData "ingredients")) by (right; reflexivity).
  assert (H3 : JS.get noIngredientsData "extractedInformation" = VUndefined
               \/ exists fs, JS.get noIngredientsData "extractedInformation" = VObj fs
                             /\ emptyList (JS.get (VObj fs) "ingredients")).
  { right. exists [("ingredients", VArr [])]. split; [ reflexivity | right; reflexivity ]. }
  assert (H4 : closesCleanly
                 (child served (FDA.requestLine "validate_ingredients" emptyArgs)) = true)
    by (vm_compute; reflexivity).
  split; [ exact H1 | ]. split; [ exact H2 | ]. split; [ exact H3 | ].
  split; [ exact H4 | ].
  exact (empty_ingredients_warning_finding served noIngredientsData st0 H1 H2 H3 H4).
Defined.

(** ** Which stages raise *)

Lemma post_ret {A} (Q : A -> Prop) a : Q a -> post Q (ret a).
Proof. intros H st b st' E. unfold ret in E. now injection E as <- _. Qed.

Lemma post_throw {A} (Q : A -> Prop) e : post Q (throw e).
Proof. intros st b st' E. discriminate E. Qed.

Lemma post_bind {A B} (Q : B -> Prop) (m : M A) (k : A -> M B) :
  (forall a, post Q (k a)) -> post Q (bind m k).
Proof.
  intros Hk st b st' E. unfold bind in E.
  destruct (m st) as [[a | e | ] s1]; try discriminate.
  exact (Hk a s1 b st' E).
Qed.

Lemma post_try_catch {A} (Q : A -> Prop) (m : M A) h :
  post Q m -> (forall e, post Q (h e)) -> post Q (try_catch m h).
Proof.
  intros Hm Hh st b st' E. unfold try_catch in E.
  destruct (m st) as [[a | e | ] s1] eqn:Em; try discriminate.
  - injection E as <- <-. exact (Hm st a s1 Em).
  - exact (Hh e s1 b st' E).
Qed.

Ltac post_step :=
  first [ apply post_ret; reflexivity
        | apply post_throw
        | apply post_try_catch; [ | intros ]
        | apply post_bind; intros
        | match goal with
          | |- post _ (if ?b then _ else _) => destruct b
          | |- post _ (match ?o with Some _ => _ | None => _ end) => destruct o
          | |- post _ (let '(_, _) := ?p in _) => destruct p
          end ].

(** Each activity that returns, returns an object. *)
Lemma performOCR_returns_object env labelData :
  post isObject (OCR.performOCR env labelData).
Proof. unfold OCR.performOCR, isObject. repeat post_step. Qed.

Lemma assessOCRQuality_returns_object env ocrResult :
  post isObject (OCR.assessOCRQuality env ocrResult).
Proof.
  unfold OCR.assessOCRQuality, isObject.
  apply post_try_catch; [ | intros; apply post_throw ].
  apply post_bind; intros confidence.
  destruct (JS.lt confidence _); [ | destruct (JS.lt confidence _) ];
    destruct (JS.gt _ _); apply post_bind; intros length;
    destruct (JS.lt length _); repeat post_step.
Qed.

Lemma performAIValidation_returns_object env data :
  post isObject (AI.performAIValidation env data).
Proof. unfold AI.performAIValidation, isObject. repeat post_step. Qed.

(** performAIValidation never raises on data that is an object, whatever
    the providers do. *)
Lemma performAIValidation_safe env data :
  JS.nullish data = false -> safe (AI.performAIValidation env data).
Proof.
  intros H. unfold AI.performAIValidation.
  apply try_catch_safe. intros e. apply total_safe. auto 10 with js.
Qed.

(** validateIngredientsWithFDA never raises, whatever its input and
    whatever the process does. *)
Lemma validateIngredientsWithFDA_safe env data :
  safe (FDA.validateIngredientsWithFDA env data).
Proof.
  unfold FDA.validateIngredientsWithFDA.
  apply try_catch_safe. intros e. apply total_safe.
  unfold FDA.stamped. auto 10 with js.
Qed.

(** assessOCRQuality returns an assessment exactly when the OCR result
    and its text are neither undefined nor null; otherwise it rethrows
    the TypeError of the failed read. *)
Lemma assessOCRQuality_returns env ocrResult st :
  JS.nullish ocrResult = false ->
  JS.nullish (JS.get ocrResult "text") = false ->
  returns (OCR.assessOCRQuality env ocrResult st).
Proof.
  intros Hn Ht. unfold returns, OCR.assessOCRQuality, try_catch.
  rewrite (bind_ok _ _ _ _ _ (getProp_ok _ "confidence" st Hn)).
  destruct (JS.lt _ _); [ | destruct (JS.lt _ _) ]; destruct (JS.gt _ _);
    rewrite (bind_ok _ _ _ _ _ (getProp_ok _ "length" st Ht));
    destruct (JS.lt _ _); unfold bind, Date_toISOString, ret; simpl; eauto.
Qed.

Lemma assessOCRQuality_raises env ocrResult st :
  JS.nullish ocrResult = true \/ JS.nullish (JS.get ocrResult "text") = true ->
  raises (OCR.assessOCRQuality env ocrResult st).
Proof.
  intros H. unfold raises, OCR.assessOCRQuality, try_catch.
  destruct (JS.nullish ocrResult) eqn:Hn.
  - destruct (getProp_nullish ocrResult "confidence" st Hn) as [e He].
    rewrite (bind_throw _ _ _ _ _ He). simpl. eauto.
  - destruct H as [H | Ht]; [ discriminate | ].
    rewrite (bind_ok _ _ _ _ _ (getProp_ok _ "confidence" st Hn)).
    destruct (getProp_nullish _ "length" st Ht) as [e He].
    destruct (JS.lt _ _); [ | destruct (JS.lt _ _) ]; destruct (JS.gt _ _);
      rewrite (bind_throw _ _ _ _ _ He); simpl; eauto.
Qed.

Lemma bind_throw_inv {A B} (m : M A) (k : A -> M B) st e st' :
  bind m k st = (Throw e, st') ->
  m st = (Throw e, st')
  \/ exists a s1, m st = (Ok a, s1) /\ k a s1 = (Throw e, st').
Proof.
  unfold bind. destruct (m st) as [[a | e1 | ] s1]; intros H.
  - right. eauto.
  - left. injection H as -> ->. reflexivity.
  - discriminate H.
Qed.

Lemma not_raises_throw {A} (m : M A) st e st' :
  safe m -> m st = (Throw e, st') -> False.
Proof. intros Hs H. apply (Hs st). exists e. now rewrite H. Qed.

(** The workflow raises only what assessOCRQuality raises: every other
    activity returns (or pends), and the workflow itself only reads
    objects. *)
Lemma workflow_raises_only_from_quality_gate env labelData st e :
  JS.nullish labelData = false ->
  fst (Workflow.labelValidationWorkflow env labelData st) = Throw e ->
  exists ocrResult st1, fst (OCR.assessOCRQuality env ocrResult st1) = Throw e.
Proof.
  intros Hn H. unfold Workflow.labelValidationWorkflow in H.
  rewrite (bind_ok _ _ _ _ _ (getProp_ok _ "filename" st Hn)) in H.
  unfold try_catch in H.
  match type of H with
  | fst (match ?body with _ => _ end) = _ =>
      destruct body as [[a | e' | ] s'] eqn:Hb; simpl in H; try discriminate
  end.
  injection H as ->.
  (* preprocessing returns an object *)
  apply bind_throw_inv in Hb as [Hb | (preprocessed & s1 & Hpre & Hb)].
  { exfalso. revert Hb. unfold OCR.preprocessImageForOCR.
    rewrite (bind_ok _ _ _ _ _ (getProp_ok _ "filename" st Hn)).
    unfold try_catch, bind, Date_toISOString, ret. discriminate. }
  assert (Hobj : JS.nullish preprocessed = false).
  { revert Hpre. unfold OCR.preprocessImageForOCR.
    rewrite (bind_ok _ _ _ _ _ (getProp_ok _ "filename" st Hn)).
    unfold try_catch, bind, Date_toISOString, ret.
    intros E. injection E as <- _. reflexivity. }
  (* text extraction returns an object *)
  apply bind_throw_inv in Hb as [Hb | (ocrResult & s2 & Hocr & Hb)].
  { exfalso. exact (not_raises_throw _ _ _ _ (performOCR_safe env _ Hobj) Hb). }
  pose proof (performOCR_returns_object env _ _ _ _ Hocr) as Hocr_obj.
  (* the quality gate may raise *)
  apply bind_throw_inv in Hb as [Hb | (quality & s3 & Hq & Hb)].
  { exists ocrResult, s2. now rewrite Hb. }
  pose proof (assessOCRQuality_returns_object env _ _ _ _ Hq) as Hq_obj.
  rewrite (bind_ok _ _ _ _ _ (getProp_ok _ "text" s3 Hocr_obj)) in Hb.
  (* the AI stage returns an object *)
  apply bind_throw_inv in Hb as [Hb | (validation & s4 & Hai & Hb)].
  { exfalso.
    exact (not_raises_throw _ _ _ _
             (performAIValidation_safe env _ (literal_not_nullish _)) Hb). }
  pose proof (performAIValidation_returns_object env _ _ _ _ Hai) as Hai_obj.
  (* the rest reads objects *)
  exfalso. revert Hb.
  unfold Workflow.performComplianceCheck.
  unfold bind at 1. unfold bind at 1, Date_toISOString at 1, ret at 1.
  rewrite (bind_ok _ _ _ _ _ (getProp_ok _ "compliant" _ (literal_not_nullish _))).
  rewrite (bind_ok _ _ _ _ _ (getProp_ok _ "preprocessed" _ Hobj)).
  rewrite (bind_ok _ _ _ _ _ (getProp_ok _ "overall" _ Hq_obj)).
  rewrite (bind_ok _ _ _ _ _ (getProp_ok _ "isValid" _ Hai_obj)).
  unfold bind, Date_toISOString, ret. discriminate.
Qed.


(** ** The properties above at concrete inputs *)

Lemma assessOCRQuality_three_tiers_witness :
  OCR.assessOCRQuality allFail highQualityOCR st0
  = (Ok (VObj [ ("overall", VStr "good");
                ("confidence", VNum (Num (92 # 100)));
                ("issues", VArr []);
                ("recommendations", VArr []);
                ("assessedAt", VStr "T0") ]),
     mkState 1 [] [])
  /\ (JS.get (VObj [ ("overall", VStr "good");
                     ("confidence", VNum (Num (92 # 100)));
                     ("issues", VArr []);
                     ("recommendations", VArr []);
                     ("assessedAt", VStr "T0") ]) "overall" = VStr "poor"
      \/ JS.get (VObj [ ("overall", VStr "good");
                        ("confidence", VNum (Num (92 # 100)));
                        ("issues", VArr []);
                        ("recommendations", VArr []);
                        ("assessedAt", VStr "T0") ]) "overall" = VStr "fair"
      \/ JS.get (VObj [ ("overall", VStr "good");
                        ("confidence", VNum (Num (92 # 100)));
                        ("issues", VArr []);
                        ("recommendations", VArr []);
                        ("assessedAt", VStr "T0") ]) "overall" = VStr "good").
Proof.
  assert (H : OCR.assessOCRQuality allFail highQualityOCR st0
              = (Ok (VObj [ ("overall", VStr "good");
                            ("confidence", VNum (Num (92 # 100)));
                            ("issues", VArr []);
                            ("recommendations", VArr []);
                            ("assessedAt", VStr "T0") ]),
                 mkState 1 [] [])) by (vm_compute; reflexivity).
  split; [ exact H | ].
  exact (assessOCRQuality_three_tiers allFail highQualityOCR st0 _ _ H).
Defined.

Lemma assessOCRQuality_good_band_witness :
  JS.get highQualityOCR "confidence" = VNum (Num (92 # 100))
  /\ (85 # 100 <= 92 # 100)%Q
  /\ (exists s, JS.get highQualityOCR "text" = VStr s)
  /\ exists r st',
       OCR.assessOCRQuality allFail highQualityOCR st0 = (Ok r, st')
       /\ JS.get r "overall" = VStr "good".
Proof.
  assert (H2 : (85 # 100 <= 92 # 100)%Q) by (unfold Qle; simpl; lia).
  split; [ reflexivity | ]. split; [ exact H2 | ].
  split; [ eexists; reflexivity | ].
  exact (assessOCRQuality_good_band allFail highQualityOCR st0 (92 # 100) _
           eq_refl H2 eq_refl).
Defined.

Lemma performAIValidation_degraded_witness :
  JS.nullish aiInput = false
  /\ JS.nullish (JS.get aiInput "ocrQuality") = false
  /\ anthropic allFail (AI.claudeRequest (AI.promptFor (JS.get aiInput "ocrText")))
     = Throw (Error "Anthropic failed")
  /\ openai allFail = None
  /\ exists r st',
       AI.performAIValidation allFail aiInput st0 = (Ok r, st')
       /\ JS.get r "aiProvider" = VUndefined
       /\ JS.get r "isValid" = VBool false
       /\ JS.get r "correctedText" = JS.get aiInput "ocrText"
       /\ JS.get (JS.get r "errors") "claude" = VStr "Anthropic failed".
Proof.
  split; [ reflexivity | ]. split; [ reflexivity | ]. split; [ reflexivity | ].
  split; [ reflexivity | ].
  destruct (performAIValidation_degraded allFail aiInput st0 (Error "Anthropic failed")
              eq_refl eq_refl eq_refl (or_introl eq_refl))
    as (r & st' & H1 & H2 & H3 & H4 & H5 & _).
  exists r, st'. repeat split; assumption.
Defined.

Lemma callFDAMCPTool_pending_without_close_witness :
  existsb closes (child silent (FDA.requestLine "validate_ingredients" emptyArgs)) = false
  /\ fst (FDA.callFDAMCPTool silent "validate_ingredients" emptyArgs st0) = Pending
  /\ exists added,
       trace (snd (FDA.callFDAMCPTool silent "validate_ingredients" emptyArgs st0))
       = (trace st0 ++ added)%list
       /\ ~ In Kill added.
Proof.
  split; [ reflexivity | ].
  exact (callFDAMCPTool_pending_without_close silent "validate_ingredients" emptyArgs st0
           eq_refl).
Defined.

Lemma low_fat_verdict_witness :
  Obj.lookup "totalFat" [("totalFat", VStr "3g")] = Some (VStr "3g")
  /\ Server.validateSingleClaim (VStr "low fat") (VObj [("totalFat", VStr "3g")]) st0
     = (Ok (verdictRecord "low fat" (negb (Number.gtb (amount "3g") (Num 3)))), st0).
Proof.
  split; [ reflexivity | ].
  exact (low_fat_verdict [("totalFat", VStr "3g")] "3g" st0 eq_refl).
Defined.

Lemma sodium_free_verdict_witness :
  Obj.lookup "sodium" [("sodium", VStr "5mg")] = Some (VStr "5mg")
  /\ Server.validateSingleClaim (VStr "sodium free") (VObj [("sodium", VStr "5mg")]) st0
     = (Ok (verdictRecord "sodium free" (negb (Number.gtb (amount "5mg") (Num 5)))), st0).
Proof.
  split; [ reflexivity | ].
  exact (sodium_free_verdict [("sodium", VStr "5mg")] "5mg" st0 eq_refl).
Defined.

Lemma heart_healthy_is_unrecognized t :
  In t recognizedClaims -> Str.includes (Str.toLowerCase "Heart Healthy") t = false.
Proof.
  intros H. repeat (destruct H as [<- | H]; [ reflexivity | ]). destruct H.
Defined.

Lemma unrecognized_claim_is_invalid_witness :
  (forall t, In t recognizedClaims ->
             Str.includes (Str.toLowerCase "Heart Healthy") t = false)
  /\ Server.validateSingleClaim (VStr "Heart Healthy") (VObj []) st0
     = (Ok (VObj [ ("claim", VStr "Heart Healthy"); ("isValid", VBool false);
                   ("reason", VStr "Claim not recognized or cannot be validated");
                   ("fdaSource", VStr "FDA Nutrition Labeling Guidelines") ]), st0).
Proof.
  split; [ exact heart_healthy_is_unrecognized | ].
  exact (unrecognized_claim_is_invalid "Heart Healthy" (VObj []) st0
           heart_healthy_is_unrecognized).
Defined.

Lemma parseAIResponse_returns_what_parses_witness :
  match AI.fenced sparseResponse with
  | Some inside => JSON.parse_string inside
  | None => match AI.braced sparseResponse with
            | Some object => JSON.parse_string object
            | None => JSON.parse_string sparseResponse
            end
  end = Ok (VObj [("someOtherField", VStr "value")])
  /\ AI.parseAIResponse (VStr sparseResponse) (VStr "ocr text") st0
     = (Ok (VObj [("someOtherField", VStr "value")]), st0).
Proof.
  assert (H : match AI.fenced sparseResponse with
              | Some inside => JSON.parse_string inside
              | None => match AI.braced sparseResponse with
                        | Some object => JSON.parse_string object
                        | None => JSON.parse_string sparseResponse
                        end
              end = Ok (VObj [("someOtherField", VStr "value")]))
    by (vm_compute; reflexivity).
  split; [ exact H | ].
  exact (parseAIResponse_returns_what_parses sparseResponse (VStr "ocr text") _ st0 H).
Defined.

Lemma performOCR_engine_failure_witness :
  JS.truthy (JS.get mockImageData "imageUrl") = true
  /\ recognize allFail (JS.get mockImageData "imageUrl") = Throw (Error "OCR processing failed")
  /\ exists processingTime extractedAt st',
       OCR.performOCR allFail mockImageData st0
       = (Ok (VObj [ ("success", VBool false);
                     ("error", VStr "OCR processing failed");
                     ("filename", JS.get mockImageData "filename");
                     ("processingTime", processingTime);
                     ("extractedAt", extractedAt) ]), st').
Proof.
  split; [ reflexivity | ]. split; [ reflexivity | ].
  exact (performOCR_engine_failure allFail mockImageData (Error "OCR processing failed") st0
           eq_refl eq_refl).
Defined.

(** ** A call that fails is a WARNING *)

Lemma settled_stays events p o :
  FDA.settled p = Some o -> FDA.settled (fold_left FDA.step events p) = Some o.
Proof.
  revert p. induction events as [ | ev events IH]; intros p H; simpl.
  - exact H.
  - apply IH. unfold FDA.step. destruct (FDA.crashed p); [ exact H | ].
    destruct ev; simpl; rewrite ?H; try exact H; reflexivity.
Qed.

(** A process that closes with a non-zero exit code (or is ended by a
    signal, which reports the code null) rejects the call. *)
Lemma nonzero_exit_rejects before code after :
  existsb closes before = false ->
  existsb unhandled before = false ->
  FDA.not_zero code = true ->
  exists e,
    FDA.settled (fold_left FDA.step (before ++ Close code :: after) FDA.pipe0)
    = Some (Throw e).
Proof.
  intros Hb Hu Hc. rewrite fold_left_app. cbn [fold_left].
  pose proof (step_without_close before FDA.pipe0 Hb) as Hs. simpl in Hs.
  pose proof (step_without_error before FDA.pipe0 Hu eq_refl) as Hn.
  set (q := fold_left FDA.step before FDA.pipe0) in *.
  assert (Hq : FDA.step q (Close code)
               = FDA.mkPipe (FDA.stdout q) (FDA.stderr q)
                   (Some (FDA.on_close q code)) None).
  { unfold FDA.step. now rewrite Hn, Hs. }
  rewrite Hq. eexists. apply settled_stays. simpl.
  unfold FDA.on_close. rewrite Hc. reflexivity.
Qed.

(** X10. Whenever the call of the tool is rejected (the process closes with
    a non-zero exit code, or with a last line of output that does not
    parse, no ['error'] event having ended it before), the issues become
    the single WARNING finding "service temporarily unavailable"; nothing
    is raised. *)
Lemma rejected_call_is_a_service_warning env ingredientsToValidate st e :
  FDA.settled
    (fold_left FDA.step
       (child env (FDA.requestLine "validate_ingredients"
                     (Obj.literal [("ingredients", ingredientsToValidate)])))
       FDA.pipe0) = Some (Throw e) ->
  exists f st',
    FDA.queryFDA env ingredientsToValidate st = (Ok tt, st')
    /\ Obj.lookup "issues" (store st') = Some (VArr [f])
    /\ JS.get f "type" = VStr "FDA_SERVICE_ERROR"
    /\ JS.get f "severity" = VStr "WARNING"
    /\ JS.get f "message"
       = VStr "FDA validation service temporarily unavailable - manual review recommended".
Proof.
  intros H. unfold FDA.queryFDA, try_catch. unfold bind at 1.
  rewrite (callFDAMCPTool_settled _ _ _ _ _ H).
  unfold FDA.stamped. unfold bind, Date_toISOString, ret, setVar. cbn [ticks trace store].
  do 2 eexists. split; [ reflexivity | ].
  cbn [store]. rewrite lookup_set_same.
  repeat split; reflexivity.
Qed.

Lemma rejected_call_is_a_service_warning_witness :
  FDA.settled
    (fold_left FDA.step
       (child allFail (FDA.requestLine "validate_ingredients"
                         (Obj.literal [("ingredients", VArr [VStr "water"])])))
       FDA.pipe0) = Some (Throw (Error "MCP server exited with code 1: boom"))
  /\ exists f st',
       FDA.queryFDA allFail (VArr [VStr "water"]) st0 = (Ok tt, st')
       /\ Obj.lookup "issues" (store st') = Some (VArr [f])
       /\ JS.get f "type" = VStr "FDA_SERVICE_ERROR"
       /\ JS.get f "severity" = VStr "WARNING"
       /\ JS.get f "message"
          = VStr "FDA validation service temporarily unavailable - manual review recommended".
Proof.
  split; [ reflexivity | ].
  exact (rejected_call_is_a_service_warning allFail (VArr [VStr "water"]) st0
           (Error "MCP server exited with code 1: boom") eq_refl).
Defined.

Lemma invalid_validation_is_a_compliance_issue_witness :
  let validation :=
    VObj [ ("claim", VStr "heart healthy"); ("isValid", VBool false);
           ("reason", VStr "Claim not recognized or cannot be validated");
           ("fdaSource", VStr "FDA Nutrition Labeling Guidelines") ] in
  let st := mkState 0 [] [("issues", VArr []); ("recommendations", VArr [])] in
  JS.nullish validation = false
  /\ JS.truthy (JS.get validation "isValid") = false
  /\ Obj.lookup "issues" (store st) = Some (VArr [])
  /\ exists f st',
       FDA.perClaimValidation served validation st = (Ok tt, st')
       /\ Obj.lookup "issues" (store st') = Some (VArr ([] ++ [f]))
       /\ JS.get f "type" = VStr "FDA_INVALID_CLAIM"
       /\ JS.get f "severity" = VStr "COMPLIANCE"
       /\ JS.get f "claim" = JS.get validation "claim"
       /\ JS.get f "message" = JS.get validation "reason".
Proof.
  intros validation st.
  split; [ reflexivity | ]. split; [ reflexivity | ]. split; [ reflexivity | ].
  exact (invalid_validation_is_a_compliance_issue served validation st []
           eq_refl eq_refl eq_refl).
Defined.

Example parseRegulatoryStructure_ex :
  OCR.parseRegulatoryStructure
    ("INGREDIENTS: Water, Sugar, Salt" ++ Str.nl ++ "Caution - keep cool  "
       ++ Str.nl ++ "Dosage:")
  = VObj [ ("ingredients", VStr "water, sugar, salt");
           ("caution", VStr "keep cool") ].
Proof. vm_compute. reflexivity. Qed.

(** * Further properties of the code *)

(** ** The workflow only ever approves *)

Lemma post_bind_with {A B} (P : A -> Prop) (Q : B -> Prop) (m : M A) (k : A -> M B) :
  post P m -> (forall a, P a -> post Q (k a)) -> post Q (bind m k).
Proof.
  intros Hm Hk st b st' E. unfold bind in E.
  destruct (m st) as [[a | e | ] s1] eqn:Em; try discriminate.
  exact (Hk a (Hm st a s1 Em) s1 b st' E).
Qed.

Lemma post_getProp v k : post (fun x => x = JS.get v k) (getProp v k).
Proof.
  intros st a st' E. destruct v; simpl in E; try discriminate;
    unfold ret in E; now injection E as <- _.
Qed.

Lemma post_performComplianceCheck env data :
  post (fun c => JS.get c "compliant" = VBool true)
       (Workflow.performComplianceCheck env data).
Proof.
  unfold Workflow.performComplianceCheck. apply post_bind; intros checkedAt.
  apply post_ret. reflexivity.
Qed.

(** X12. Whenever labelValidationWorkflow returns, its status is APPROVED
    and its complianceChecked step is true: performComplianceCheck answers
    compliant for every input, so REQUIRES_REVIEW is never reported. *)
Theorem workflow_only_approves env labelData st r st' :
  Workflow.labelValidationWorkflow env labelData st = (Ok r, st') ->
  JS.get r "status" = VStr "APPROVED"
  /\ JS.get (JS.get r "processingSteps") "complianceChecked" = VBool true.
Proof.
  revert st r st'.
  change (post (fun r => JS.get r "status" = VStr "APPROVED"
                         /\ JS.get (JS.get r "processingSteps") "complianceChecked"
                            = VBool true)
               (Workflow.labelValidationWorkflow env labelData)).
  unfold Workflow.labelValidationWorkflow.
  apply post_bind; intros _.
  apply post_try_catch; [ | intros; apply post_throw ].
  do 5 (apply post_bind; intros).
  eapply post_bind_with; [ apply post_performComplianceCheck | ].
  intros c Hc. cbv beta.
  eapply post_bind_with; [ apply post_getProp | ].
  intros compliant ->. rewrite Hc.
  do 4 (apply post_bind; intros).
  apply post_ret. split; reflexivity.
Qed.

(** ** A label without claims *)

Lemma destructure_ok data k dflt st :
  JS.nullish data = false ->
  destructure data k dflt st
  = (Ok (match JS.get data k with VUndefined => dflt | v => v end), st).
Proof. destruct data; simpl; intros H; try discriminate; reflexivity. Qed.

(** X13. For a data object without claims (absent, or the empty array),
    validateNutritionalClaimsWithFDA returns success with zero claims
    validated, no issue and the single INFO recommendation FDA_NO_CLAIMS,
    and starts no process: the trace of external actions is unchanged. *)
Theorem no_claims_no_call env data st :
  JS.nullish data = false ->
  emptyList (JS.get data "claims") ->
  exists r st' f,
    FDA.validateNutritionalClaimsWithFDA env data st = (Ok r, st')
    /\ trace st' = trace st
    /\ JS.get r "success" = VBool true
    /\ JS.get (JS.get r "fdaClaimsValidation") "claimsValidated" = VNum (Num 0)
    /\ JS.get (JS.get r "fdaClaimsValidation") "issues" = VArr []
    /\ JS.get (JS.get r "fdaClaimsValidation") "recommendations" = VArr [f]
    /\ JS.get f "type" = VStr "FDA_NO_CLAIMS"
    /\ JS.get f "severity" = VStr "INFO".
Proof.
  intros Hd Hc.
  assert (F1 : forall s, destructure data "claims" (VArr []) s = (Ok (VArr []), s)).
  { intros s. rewrite (destructure_ok _ _ _ _ Hd).
    destruct Hc as [-> | ->]; reflexivity. }
  unfold FDA.validateNutritionalClaimsWithFDA, try_catch.
  unfold bind at 1, Date_now at 1.
  rewrite (bind_ok _ _ _ _ _ (F1 _)).
  rewrite (bind_ok _ _ _ _ _ (destructure_ok _ "nutritionalInfo" _ _ Hd)).
  unfold bind at 1, getProp at 1, ret at 1.
  change (JS.truthy (JS.get (VArr []) "length")) with false. cbv beta iota delta [negb].
  unfold FDA.stamped, bind, Date_toISOString, ret. cbn [ticks trace store].
  do 3 eexists. split; [ reflexivity | ].
  repeat split; reflexivity.
Qed.

(** ** A blank ingredient *)

Lemma lower_char_ws c : Str.is_ws c = true -> Str.lower_char c = c.
Proof.
  destruct c as [[] [] [] [] [] [] [] []]; intros H; try discriminate H; reflexivity.
Qed.

Lemma toLowerCase_blank s : blank s = true -> Str.toLowerCase s = s.
Proof.
  induction s as [ | c t IH]; simpl; intros H; [ reflexivity | ].
  apply andb_true_iff in H as [Hc Ht].
  rewrite (lower_char_ws _ Hc), (IH Ht). reflexivity.
Qed.

Lemma trimStart_blank s : blank s = true -> Str.trimStart s = "".
Proof.
  induction s as [ | c t IH]; simpl; intros H; [ reflexivity | ].
  apply andb_true_iff in H as [Hc Ht]. rewrite Hc. exact (IH Ht).
Qed.

(** X14. An ingredient that is empty or made of white space only is reported
    GRAS, with confidence 0.9, by checkGRASStatus: every known name includes
    the empty string. *)
Theorem blank_ingredient_is_GRAS s st :
  blank s = true ->
  Server.checkGRASStatus (VStr s) st
  = (Ok (VObj [ ("status", VStr "GRAS");
                ("confidence", VNum (Num (9 # 10)));
                ("notes", VStr "Generally Recognized as Safe") ]), st).
Proof.
  intros H. unfold Server.checkGRASStatus, Server.toLowerCase.
  unfold bind, ret. rewrite (toLowerCase_blank _ H).
  unfold Str.trim. rewrite (trimStart_blank _ H). reflexivity.
Qed.

(** ** A recognized claim without nutritional data *)

Lemma threshold_absent fields nutrient maxValue st :
  Obj.lookup nutrient fields = None ->
  Number.gtb (Num 0) maxValue = false ->
  Server.checkNutritionalThreshold (VObj fields) [(nutrient, maxValue)] st = (Ok true, st).
Proof.
  intros Hl Hm. unfold Server.checkNutritionalThreshold, Server.cleaned.
  unfold bind, getProp, ret. unfold JS.get. rewrite Hl.
  change (Number.parseFloat (JS.toString (JS.or VUndefined (VStr "0")))) with (Num 0).
  rewrite Hm. reflexivity.
Qed.

Lemma claim_branch_absent fields claimType nutrient maxValue st :
  Obj.lookup nutrient fields = None ->
  Number.gtb (Num 0) maxValue = false ->
  (isValid <- Server.checkNutritionalThreshold (VObj fields) [(nutrient, maxValue)] ;;
   ret (isValid, if isValid then Server.meets claimType else Server.fails claimType)) st
  = (Ok (true, Server.meets claimType), st).
Proof.
  intros Hl Hm. unfold bind at 1. rewrite (threshold_absent _ _ _ st Hl Hm). reflexivity.
Qed.

(** X15. A claim that contains one of the six recognized claim types is
    returned valid when the nutritional data has none of the fields
    totalFat, sodium and dietaryFiber: a missing amount is read as 0.  The
    reason names the first claim type, in the order of the table, that the
    lower-cased claim contains. *)
Theorem recognized_claim_without_data_is_valid s fields claimType st :
  Obj.lookup "totalFat" fields = None ->
  Obj.lookup "sodium" fields = None ->
  Obj.lookup "dietaryFiber" fields = None ->
  List.find (Str.includes (Str.toLowerCase s)) recognizedClaims = Some claimType ->
  Server.validateSingleClaim (VStr s) (VObj fields) st
  = (Ok (VObj [ ("claim", VStr s);
                ("isValid", VBool true);
                ("reason", VStr (Server.meets claimType));
                ("fdaSource", VStr "FDA Nutrition Labeling Guidelines") ]), st).
Proof.
  intros Hf Hs Hd Hrec.
  unfold Server.validateSingleClaim, Server.toLowerCase.
  unfold bind at 1, ret at 1.
  unfold Server.fdaThresholds, Server.firstMatch.
  unfold recognizedClaims, Server.fdaThresholds in Hrec. cbn [map fst find] in Hrec.
  repeat match goal with
  | |- context [if Str.includes (Str.toLowerCase s) ?t then _ else _] =>
      destruct (Str.includes (Str.toLowerCase s) t);
      [ injection Hrec as <-;
        match goal with
        | |- context [Server.checkNutritionalThreshold _ [(?n, ?m)]] =>
            first [ rewrite (bind_ok _ _ _ _ _ (claim_branch_absent fields t n m st Hf eq_refl))
                  | rewrite (bind_ok _ _ _ _ _ (claim_branch_absent fields t n m st Hs eq_refl))
                  | rewrite (bind_ok _ _ _ _ _ (claim_branch_absent fields t n m st Hd eq_refl)) ]
        end;
        reflexivity
      | ]
  end.
  discriminate Hrec.
Qed.

Section AllChars.
Variable p : ascii -> bool.

Lemma allChars_drop n s : allChars p s = true -> allChars p (Str.drop n s) = true.
Proof.
  revert s. induction n as [ | n IH]; intros [ | c t] H; simpl; auto.
  simpl in H. apply andb_true_iff in H as [_ H]. auto.
Qed.

Lemma allChars_split_first sub s a rest :
  Str.split_first sub s = Some (a, rest) ->
  allChars p s = true -> allChars p rest = true.
Proof.
  revert a rest. induction s as [ | c t IH]; intros a rest; cbn [Str.split_first].
  - destruct (String.prefix sub ""); intros E H; [ | discriminate ].
    injection E as _ <-. now apply allChars_drop.
  - destruct (String.prefix sub (String c t)).
    + intros E H. injection E as _ <-. now apply allChars_drop.
    + destruct (Str.split_first sub t) as [[a' b'] | ]; intros E H; [ | discriminate ].
      injection E as _ <-. simpl in H. apply andb_true_iff in H as [_ H].
      eapply IH; eauto.
Qed.

Lemma allChars_skip_separators s :
  allChars p s = true -> allChars p (OCR.skip_separators s) = true.
Proof.
  induction s as [ | c t IH]; simpl; intros H; [ reflexivity | ].
  destruct (OCR.separator c); [ | exact H ].
  apply andb_true_iff in H as [_ H]. auto.
Qed.

Lemma allChars_lazy_until stops s :
  allChars p s = true -> allChars p (OCR.lazy_until stops s) = true.
Proof.
  induction s as [ | c t IH]; simpl; intros H; [ reflexivity | ].
  apply andb_true_iff in H as [Hc H].
  destruct (_ || _)%bool; simpl; [ reflexivity | ].
  rewrite Hc. simpl. auto.
Qed.

Lemma allChars_trimStart s : allChars p s = true -> allChars p (Str.trimStart s) = true.
Proof.
  induction s as [ | c t IH]; simpl; intros H; [ reflexivity | ].
  destruct (Str.is_ws c); [ | exact H ].
  apply andb_true_iff in H as [_ H]. auto.
Qed.

Lemma allChars_rev_onto s acc :
  allChars p (Str.rev_onto s acc) = (allChars p s && allChars p acc)%bool.
Proof.
  revert acc. induction s as [ | c t IH]; intros acc; simpl; [ reflexivity | ].
  rewrite IH. simpl. destruct (p c), (allChars p t), (allChars p acc); reflexivity.
Qed.

Lemma allChars_rev s : allChars p (Str.rev s) = allChars p s.
Proof. unfold Str.rev. rewrite allChars_rev_onto. simpl. apply andb_true_r. Qed.

Lemma allChars_trim s : allChars p s = true -> allChars p (Str.trim s) = true.
Proof.
  intros H. unfold Str.trim. rewrite allChars_rev. apply allChars_trimStart.
  rewrite allChars_rev. now apply allChars_trimStart.
Qed.

End AllChars.

(** ** The detected sections *)

Lemma lazy_until_one_line stops s : allChars not_nl (OCR.lazy_until stops s) = true.
Proof.
  induction s as [ | c t IH]; simpl; [ reflexivity | ].
  destruct (Nat.eqb (nat_of_ascii c) 10) eqn:E; simpl; [ reflexivity | ].
  destruct (existsb _ stops); simpl; [ reflexivity | ].
  unfold not_nl at 1. rewrite E. simpl. exact IH.
Qed.

Lemma lower_char_idem c : Str.lower_char (Str.lower_char c) = Str.lower_char c.
Proof. destruct c as [[] [] [] [] [] [] [] []]; reflexivity. Qed.

Lemma toLowerCase_lowered s : allChars lowered (Str.toLowerCase s) = true.
Proof.
  induction s as [ | c t IH]; simpl; [ reflexivity | ].
  rewrite IH. unfold lowered. rewrite lower_char_idem, Ascii.eqb_refl. reflexivity.
Qed.

Lemma lowered_fixed s : allChars lowered s = true -> Str.toLowerCase s = s.
Proof.
  induction s as [ | c t IH]; simpl; intros H; [ reflexivity | ].
  apply andb_true_iff in H as [Hc H]. apply Ascii.eqb_eq in Hc.
  rewrite Hc, (IH H). reflexivity.
Qed.

Lemma trimStart_empty s : Str.trimStart s = "" -> blank s = true.
Proof.
  induction s as [ | c t IH]; simpl; intros H; [ reflexivity | ].
  unfold blank. simpl. destruct (Str.is_ws c); [ exact (IH H) | discriminate H ].
Qed.

Lemma rev_onto_empty s acc : Str.rev_onto s acc = "" -> s = "" /\ acc = "".
Proof.
  revert acc. induction s as [ | c t IH]; intros acc; simpl; [ auto | ].
  intros H. apply IH in H as [_ H]. discriminate H.
Qed.

Lemma trim_not_empty c t : Str.is_ws c = false -> Str.trim (String c t) <> "".
Proof.
  intros Hc H. unfold Str.trim, Str.rev in H.
  apply rev_onto_empty in H as [H _].
  apply trimStart_empty in H. unfold blank in H.
  simpl in H. rewrite Hc in H. simpl in H.
  rewrite allChars_rev_onto in H. simpl in H. rewrite Hc in H.
  rewrite andb_false_r in H. discriminate H.
Qed.

Lemma skip_separators_head s c t :
  OCR.skip_separators s = String c t -> OCR.separator c = false.
Proof.
  induction s as [ | d u IH]; simpl; [ discriminate | ].
  destruct (OCR.separator d) eqn:E; [ exact IH | ].
  intros H. injection H as <- _. exact E.
Qed.

Lemma lazy_until_head stops s c t :
  OCR.lazy_until stops s = String c t -> exists u, s = String c u.
Proof.
  destruct s as [ | d u]; simpl; [ discriminate | ].
  destruct (_ || _)%bool; [ discriminate | ].
  intros H. injection H as <- _. eauto.
Qed.

Lemma separator_ws c : OCR.separator c = false -> Str.is_ws c = false.
Proof.
  unfold OCR.separator. destruct (Str.is_ws c); [ | reflexivity ].
  rewrite orb_true_r. discriminate.
Qed.

Lemma capture_sectionText keyword plural stops text c t :
  OCR.capture keyword plural stops (Str.toLowerCase text) = Some (String c t) ->
  sectionText (VStr (Str.trim (String c t))).
Proof.
  unfold OCR.capture.
  destruct (Str.split_first keyword (Str.toLowerCase text)) as [[a rest] | ] eqn:E;
    [ | discriminate ].
  intros H. injection H as H.
  pose proof (allChars_split_first lowered _ _ _ _ E (toLowerCase_lowered text)) as Hrest.
  set (rest' := match plural, rest with
                | true, String "s" u => u
                | _, _ => rest
                end) in *.
  assert (Hrest' : allChars lowered rest' = true).
  { unfold rest'. destruct plural; [ | exact Hrest ].
    destruct rest as [ | d u]; [ exact Hrest | ].
    destruct (Ascii.eqb d "s") eqn:Ed.
    - apply Ascii.eqb_eq in Ed. subst d. simpl in Hrest. exact Hrest.
    - destruct d as [[] [] [] [] [] [] [] []]; try exact Hrest; discriminate Ed. }
  exists (Str.trim (String c t)). split; [ reflexivity | ].
  destruct (lazy_until_head _ _ _ _ H) as [u Hu].
  pose proof (skip_separators_head _ _ _ Hu) as Hsep.
  split; [ apply trim_not_empty, separator_ws, Hsep | ].
  split.
  - apply allChars_trim. rewrite <- H. apply lazy_until_one_line.
  - apply lowered_fixed, allChars_trim. rewrite <- H.
    apply allChars_lazy_until, allChars_skip_separators, Hrest'.
Qed.

Lemma set_good k v fs :
  Forall goodSection fs -> goodSection (k, v) -> Forall goodSection (Obj.set k v fs).
Proof.
  intros Hfs Hkv. induction Hfs as [ | [k' v'] fs Hx Hfs IH]; simpl.
  - constructor; [ exact Hkv | constructor ].
  - destruct (String.eqb k k'); constructor; auto.
Qed.

Lemma lookup_good k v fs :
  Forall goodSection fs -> Obj.lookup k fs = Some v -> goodSection (k, v).
Proof.
  intros Hfs. induction Hfs as [ | [k' v'] fs Hx Hfs IH]; simpl; [ discriminate | ].
  destruct (String.eqb k k') eqn:E; [ | exact IH ].
  intros H. injection H as <-. apply String.eqb_eq in E. subst k'. exact Hx.
Qed.

Lemma sections_good text ps acc :
  incl (List.map fst ps) sectionNames ->
  Forall goodSection acc ->
  Forall goodSection
    (fold_left
       (fun sections p =>
          let '(section, (keyword, plural, stops)) := p in
          match OCR.capture keyword plural stops (Str.toLowerCase text) with
          | Some (String c t) => Obj.set section (VStr (Str.trim (String c t))) sections
          | _ => sections
          end) ps acc).
Proof.
  revert acc. induction ps as [ | [section [[keyword plural] stops]] ps IH];
    intros acc Hin Hacc; simpl; [ exact Hacc | ].
  apply IH.
  - intros x Hx. apply Hin. now right.
  - destruct (OCR.capture keyword plural stops (Str.toLowerCase text)) as [[ | c t] | ] eqn:E;
      try exact Hacc.
    apply set_good; [ exact Hacc | ]. split.
    + apply Hin. now left.
    + eapply capture_sectionText. exact E.
Qed.

(** X16. Every section that parseRegulatoryStructure records is one of the
    seven section names, and its text is a non-empty lower-case string
    without a line break. *)
Theorem detected_sections_are_lowered_lines text section :
  JS.get (OCR.parseRegulatoryStructure text) section <> VUndefined ->
  In section sectionNames
  /\ exists s, JS.get (OCR.parseRegulatoryStructure text) section = VStr s
               /\ s <> ""
               /\ allChars not_nl s = true
               /\ Str.toLowerCase s = s.
Proof.
  unfold OCR.parseRegulatoryStructure, JS.get.
  destruct (Obj.lookup section _) as [v | ] eqn:E; [ intros _ | intros H; now elim H ].
  eapply lookup_good in E; [ | apply sections_good; [ apply incl_refl | constructor ] ].
  destruct E as [Hin (s & Hv & Hs)]. simpl in Hin, Hv. subst v.
  split; [ exact Hin | ]. exists s. now split.
Qed.

(** ** The counts of a successful extraction *)

Lemma post_weaken {A} (P Q : A -> Prop) (m : M A) :
  post P m -> (forall a, P a -> Q a) -> post Q m.
Proof. intros Hm H st a st' E. apply H. exact (Hm st a st' E). Qed.

Lemma post_mapM {A B} (P : B -> Prop) (f : A -> M B) xs :
  (forall x, post P (f x)) ->
  post (fun l => List.length l = List.length xs /\ Forall P l) (mapM f xs).
Proof.
  intros Hf. induction xs as [ | x xs IH]; simpl.
  - apply post_ret. split; [ reflexivity | constructor ].
  - eapply post_bind_with; [ apply Hf | ]. intros y Hy.
    eapply post_bind_with; [ exact IH | ]. intros ys [Hl Hys].
    apply post_ret. split; [ simpl; now rewrite Hl | now constructor ].
Qed.

Lemma post_filterM {A} (p : A -> M bool) xs :
  post (fun l => List.length l <= List.length xs) (OCR.filterM p xs).
Proof.
  induction xs as [ | x xs IH]; simpl.
  - apply post_ret. simpl. lia.
  - apply post_bind; intros b.
    eapply post_bind_with; [ exact IH | ]. intros r Hr.
    cbv beta in Hr. apply post_ret. destruct b; simpl; lia.
Qed.

Lemma post_lineText line : post (fun v => exists s, v = VStr s) (OCR.lineText line).
Proof.
  unfold OCR.lineText. apply post_bind; intros text.
  destruct text; unfold OCR.trim, getProp, not_a_function; try apply post_throw.
  apply post_ret. eauto.
Qed.

Lemma kept_line_not_empty v :
  (exists s, v = VStr s) ->
  JS.gt (JS.get v "length") (VNum (Num 0)) = true ->
  nonEmptyText v.
Proof.
  intros [s ->] H. exists s. split; [ reflexivity | ].
  intros ->. discriminate H.
Qed.

Lemma performOCR_counts_post env labelData :
  post (fun r => JS.get r "success" = VUndefined -> countsAgree r)
       (OCR.performOCR env labelData).
Proof.
  unfold OCR.performOCR.
  apply post_bind; intros _.
  apply post_try_catch.
  2: { intros e. do 3 (apply post_bind; intros). apply post_ret. discriminate. }
  do 8 (apply post_bind; intros).
  apply post_bind; intros ws.
  eapply post_bind_with;
    [ apply (post_mapM (fun _ => True)); intros x st b st' _; exact I | ].
  intros wordList [Hlen _].
  apply post_bind; intros ls.
  eapply post_bind_with; [ apply post_mapM, post_lineText | ].
  intros trimmed [_ Htrim].
  eapply post_bind_with; [ apply post_filterM | ].
  intros low Hlow. cbv beta in Hlow.
  do 2 (apply post_bind; intros).
  apply post_ret. intros _.
  exists wordList, (List.filter (fun line => JS.gt (JS.get line "length") (VNum (Num 0))) trimmed),
         (List.length low).
  split; [ reflexivity | ]. split; [ cbn; now rewrite Hlen | ].
  split; [ reflexivity | ]. split; [ lia | ]. split; [ reflexivity | ].
  apply Forall_forall. intros l Hl. apply filter_In in Hl as [Hin Hgt].
  apply kept_line_not_empty; [ | exact Hgt ].
  rewrite Forall_forall in Htrim. now apply Htrim.
Qed.

(** X17. On a successful performOCR, totalWords is the number of word
    entries returned, lowConfidenceWords is at most that number, and every
    line returned is a non-empty string. *)
Theorem performOCR_counts env labelData st r st' :
  OCR.performOCR env labelData st = (Ok r, st') ->
  JS.get r "success" = VUndefined ->
  exists words lines low,
    JS.get r "words" = VArr words
    /\ JS.get r "totalWords" = VNum (Number.of_nat (List.length words))
    /\ JS.get r "lowConfidenceWords" = VNum (Number.of_nat low)
    /\ low <= List.length words
    /\ JS.get r "lines" = VArr lines
    /\ Forall nonEmptyText lines.
Proof.
  intros Hrun Hok. exact (performOCR_counts_post env labelData st r st' Hrun Hok).
Qed.

(** ** The severities of the ingredient cross-check *)

Lemma bind_ok_inv {A B} (m : M A) (k : A -> M B) st b st' :
  bind m k st = (Ok b, st') ->
  exists a s1, m st = (Ok a, s1) /\ k a s1 = (Ok b, st').
Proof.
  unfold bind. destruct (m st) as [[a | e | ] s1]; intros H; try discriminate H.
  eauto.
Qed.

Section Warns.

Lemma warns_ret {A} (a : A) : warns (ret a).
Proof. intros st H. exact H. Qed.

Lemma warns_throw {A} e : warns (@throw A e).
Proof. intros st H. exact H. Qed.

Lemma warns_bind {A B} (m : M A) (k : A -> M B) :
  warns m -> (forall a, warns (k a)) -> warns (bind m k).
Proof.
  intros Hm Hk st H. unfold bind. specialize (Hm st H).
  destruct (m st) as [[a | e | ] s1]; simpl in *; auto. now apply Hk.
Qed.

Lemma warns_try_catch {A} (m : M A) (h : error -> M A) :
  warns m -> (forall e, warns (h e)) -> warns (try_catch m h).
Proof.
  intros Hm Hh st H. unfold try_catch. specialize (Hm st H).
  destruct (m st) as [[a | e | ] s1]; simpl in *; auto. now apply Hh.
Qed.

Lemma warns_if {A} (b : bool) (m1 m2 : M A) :
  warns m1 -> warns m2 -> warns (if b then m1 else m2).
Proof. now destruct b. Qed.

Lemma warns_forEach {A} (f : A -> M unit) xs :
  (forall x, warns (f x)) -> warns (forEach f xs).
Proof.
  intros Hf. induction xs as [ | x xs IH]; simpl.
  - apply warns_ret.
  - apply warns_bind; [ apply Hf | intros _; exact IH ].
Qed.

Lemma warns_getProp v k : warns (getProp v k).
Proof. destruct v; simpl; auto using warns_ret, warns_throw. Qed.

Lemma warns_not_a_function {A} expr : warns (@not_a_function A expr).
Proof. apply warns_throw. Qed.

Lemma warns_lift {A} (o : outcome A) : warns (lift o).
Proof. intros st H. exact H. Qed.

Lemma warns_parse v : warns (JSON.parse v).
Proof. apply warns_lift. Qed.

Lemma warns_emit a : warns (emit a).
Proof. intros st H. exact H. Qed.

Lemma warns_Date_now c : warns (Date_now c).
Proof. intros st H. exact H. Qed.

Lemma warns_Date_toISOString c : warns (Date_toISOString c).
Proof. intros st H. exact H. Qed.

Lemma warns_getVar x : warns (getVar x).
Proof. intros st H. exact H. Qed.

Lemma warns_valueForEach expr xs f :
  (forall x, warns (f x)) -> warns (FDA.valueForEach expr xs f).
Proof.
  intros Hf. unfold FDA.valueForEach.
  destruct xs; try apply warns_not_a_function;
    try (apply warns_bind; [ apply warns_getProp | intros; apply warns_ret ]).
  now apply warns_forEach.
Qed.

Lemma warns_setVar_other x v :
  String.eqb "issues" x = false -> warns (setVar x v).
Proof.
  intros Hx st (xs & Hl & Hf). exists xs. split; [ | exact Hf ].
  unfold setVar. simpl. rewrite lookup_set_other; [ exact Hl | exact Hx ].
Qed.

Lemma warns_setVar_issues xs : Forall isWarning xs -> warns (setVar "issues" (VArr xs)).
Proof.
  intros Hf st _. exists xs. split; [ | exact Hf ].
  unfold setVar. simpl. apply lookup_set_same.
Qed.

Lemma warns_push_issues f : isWarning f -> warns (push "issues" f).
Proof.
  intros Hw st H. pose proof H as (xs & Hl & Hf).
  unfold push, bind, getVar. rewrite Hl.
  apply warns_setVar_issues; [ | exact H ].
  apply Forall_app. split; [ exact Hf | constructor; [ exact Hw | constructor ] ].
Qed.

Lemma warns_push_recommendations f : warns (push "recommendations" f).
Proof.
  unfold push. apply warns_bind; [ apply warns_getVar | ].
  intros a. destruct a; try apply warns_throw.
  apply warns_setVar_other. reflexivity.
Qed.

Lemma warns_stamped env fields : warns (FDA.stamped env fields).
Proof.
  unfold FDA.stamped. apply warns_bind; [ apply warns_Date_toISOString | ].
  intros; apply warns_ret.
Qed.

(** A finding stamped and pushed onto the issues, when its fields say
    WARNING. *)
Lemma warns_stamp_push env fields :
  (forall timestamp,
     isWarning (Obj.literal (fields ++ [("timestamp", timestamp)])%list)) ->
  warns (f <- FDA.stamped env fields ;; push "issues" f).
Proof.
  intros Hw st H. unfold FDA.stamped.
  unfold bind at 1. unfold bind at 1, Date_toISOString at 1, ret at 1.
  apply warns_push_issues; [ apply Hw | exact H ].
Qed.

Lemma warns_stamp_set env fields :
  (forall timestamp,
     isWarning (Obj.literal (fields ++ [("timestamp", timestamp)])%list)) ->
  warns (f <- FDA.stamped env fields ;; setVar "issues" (VArr [f])).
Proof.
  intros Hw st H. unfold FDA.stamped.
  unfold bind at 1. unfold bind at 1, Date_toISOString at 1, ret at 1.
  apply warns_setVar_issues; [ | exact H ].
  constructor; [ apply Hw | constructor ].
Qed.

Lemma warns_stamp_recommend env fields :
  warns (f <- FDA.stamped env fields ;; push "recommendations" f).
Proof.
  apply warns_bind; [ apply warns_stamped | ]. intros. apply warns_push_recommendations.
Qed.

Lemma warns_perValidationResult env validationResult :
  warns (FDA.perValidationResult env validationResult).
Proof.
  unfold FDA.perValidationResult.
  apply warns_bind; [ apply warns_getProp | intros fdaApproved ].
  apply warns_bind.
  { apply warns_if; [ | apply warns_ret ].
    apply warns_stamp_push. intros t. reflexivity. }
  intros _. apply warns_bind.
  { apply warns_if; [ | apply warns_ret ].
    apply warns_valueForEach. intros warning.
    apply warns_stamp_push. intros t. reflexivity. }
  intros _. apply warns_if; [ | apply warns_ret ].
  apply warns_stamp_recommend.
Qed.

Lemma warns_processFDAResult env parsedResult :
  warns (FDA.processFDAResult env parsedResult).
Proof.
  unfold FDA.processFDAResult.
  apply warns_bind; [ apply warns_getProp | intros validationResults ].
  apply warns_bind.
  { apply warns_if; [ | apply warns_ret ].
    apply warns_valueForEach. intros. apply warns_perValidationResult. }
  intros _. apply warns_if; [ | apply warns_ret ].
  apply warns_stamp_recommend.
Qed.

Lemma warns_readResponse env response : warns (FDA.readResponse env response).
Proof.
  unfold FDA.readResponse.
  apply warns_bind; [ apply warns_setVar_other; reflexivity | intros _ ].
  apply warns_bind; [ apply warns_getProp | intros res ].
  apply warns_if; [ | apply warns_ret ].
  apply warns_try_catch; [ | intros; apply warns_ret ].
  apply warns_bind; [ apply warns_parse | intros ]. apply warns_processFDAResult.
Qed.

Lemma warns_callFDAMCPTool env toolName args :
  warns (FDA.callFDAMCPTool env toolName args).
Proof.
  unfold FDA.callFDAMCPTool.
  repeat (apply warns_bind; [ apply warns_emit | intros _ ]).
  unfold FDA.await. destruct (FDA.settled _); [ apply warns_lift | ].
  destruct (FDA.crashed _); [ | apply warns_lift ].
  apply warns_bind; [ apply warns_emit | intros _; apply warns_lift ].
Qed.

Lemma warns_queryFDA env ingredientsToValidate :
  warns (FDA.queryFDA env ingredientsToValidate).
Proof.
  unfold FDA.queryFDA. apply warns_try_catch.
  - apply warns_bind; [ apply warns_callFDAMCPTool | intros ]. apply warns_readResponse.
  - intros e. apply warns_stamp_set. intros t. reflexivity.
Qed.

End Warns.

Lemma filter_warnings xs :
  Forall isWarning xs ->
  List.filter (fun i => JS.is_str (JS.get i "severity") "COMPLIANCE") xs = []
  /\ List.filter (fun i => JS.is_str (JS.get i "severity") "WARNING") xs = xs.
Proof.
  intros H. induction H as [ | x xs Hx Hxs [IH1 IH2]]; [ split; reflexivity | ].
  unfold isWarning in Hx. cbn [List.filter]. rewrite Hx, IH1, IH2. split; reflexivity.
Qed.

Lemma countSeverity_warnings xs :
  Forall isWarning xs ->
  FDA.countSeverity "COMPLIANCE" (VArr xs) = VNum (Num 0)
  /\ FDA.countSeverity "WARNING" (VArr xs) = VNum (Number.of_nat (List.length xs)).
Proof.
  intros H. unfold FDA.countSeverity.
  destruct (filter_warnings xs H) as [-> ->]. split; reflexivity.
Qed.

Lemma warns_step {A} (m : M A) st a st' :
  warns m -> Warn st -> m st = (Ok a, st') -> Warn st'.
Proof. intros Hm H E. specialize (Hm st H). now rewrite E in Hm. Qed.

Lemma issues_start st u st' :
  setVar "issues" (VArr []) st = (Ok u, st') -> Warn st'.
Proof.
  unfold setVar. intros E. injection E as _ <-.
  exists []. split; [ apply lookup_set_same | constructor ].
Qed.

(** X18. Whenever validateIngredientsWithFDA returns success, every issue it
    reports has severity WARNING: the summary counts zero compliance issues
    and as many warnings as issues in total. *)
Theorem ingredient_issues_are_warnings env data st r st' :
  FDA.validateIngredientsWithFDA env data st = (Ok r, st') ->
  JS.get r "success" = VBool true ->
  exists issues,
    JS.get (JS.get r "fdaValidation") "issues" = VArr issues
    /\ Forall isWarning issues
    /\ JS.get (JS.get (JS.get r "fdaValidation") "summary") "complianceIssues" = VNum (Num 0)
    /\ JS.get (JS.get (JS.get r "fdaValidation") "summary") "warnings"
       = VNum (Number.of_nat (List.length issues))
    /\ JS.get (JS.get (JS.get r "fdaValidation") "summary") "totalIssues"
       = VNum (Number.of_nat (List.length issues)).
Proof.
  intros Hrun Hok. unfold FDA.validateIngredientsWithFDA, try_catch in Hrun.
  match type of Hrun with
  | (match ?body with _ => _ end) = _ =>
      destruct body as [[a | e | ] s1] eqn:Hb; try discriminate Hrun
  end.
  2: { exfalso. revert Hrun. unfold FDA.stamped, bind, Date_toISOString, ret.
       intros E. injection E as <- _. discriminate Hok. }
  injection Hrun as -> ->. clear Hok.
  repeat (apply bind_ok_inv in Hb as (? & ? & ? & Hb)).
  match goal with H : setVar "issues" _ _ = _ |- _ => apply issues_start in H as HW end.
  match goal with H : setVar "recommendations" _ _ = _ |- _ =>
    pose proof (warns_step _ _ _ _ (warns_setVar_other "recommendations" _ eq_refl) HW H)
      as HW1 end.
  match goal with H : FDA.queryFDA _ _ _ = _ |- _ =>
    pose proof (warns_step _ _ _ _ (warns_queryFDA _ _) HW1 H) as HW2 end.
  match goal with H : (if JS.is_zero _ then _ else _) _ = _ |- _ =>
    pose proof (warns_step _ _ _ _
                  (warns_if _ _ _ (warns_stamp_push env FDA.noIngredients (fun t => eq_refl))
                     (warns_ret tt)) HW2 H) as HW3 end.
  match goal with H : Date_now _ _ = (Ok _, ?s) , G : getVar "issues" ?s = _ |- _ =>
    pose proof (warns_step _ _ _ _ (warns_Date_now _) HW3 H) as (issues & Hl & Hf);
    unfold getVar in G; rewrite Hl in G; injection G as <- <-
  end.
  unfold ret in Hb. injection Hb as <- _.
  destruct (countSeverity_warnings issues Hf) as [Hc Hw].
  exists issues. split; [ reflexivity | ]. split; [ exact Hf | ].
  split; [ exact Hc | ]. split; [ exact Hw | reflexivity ].
Qed.

(** ** The handler of tools/call *)

Lemma settles_ret {A} (a : A) : settles (ret a).
Proof. intros st. discriminate. Qed.

Lemma settles_throw {A} e : settles (@throw A e).
Proof. intros st. discriminate. Qed.

Lemma settles_bind {A B} (m : M A) (k : A -> M B) :
  settles m -> (forall a, settles (k a)) -> settles (bind m k).
Proof.
  intros Hm Hk st. unfold bind. specialize (Hm st).
  destruct (m st) as [[a | e | ] s1]; simpl in *.
  - apply Hk.
  - discriminate.
  - now elim Hm.
Qed.

Lemma settles_try_catch {A} (m : M A) (h : error -> M A) :
  settles m -> (forall e, settles (h e)) -> settles (try_catch m h).
Proof.
  intros Hm Hh st. unfold try_catch. specialize (Hm st).
  destruct (m st) as [[a | e | ] s1]; simpl in *.
  - discriminate.
  - apply Hh.
  - exact Hm.
Qed.

Lemma settles_if {A} (b : bool) (m1 m2 : M A) :
  settles m1 -> settles m2 -> settles (if b then m1 else m2).
Proof. now destruct b. Qed.

Lemma settles_getProp v k : settles (getProp v k).
Proof. destruct v; simpl; auto using settles_ret, settles_throw. Qed.

Lemma settles_not_a_function {A} expr : settles (@not_a_function A expr).
Proof. apply settles_throw. Qed.

Lemma settles_Date_toISOString c : settles (Date_toISOString c).
Proof. intros st. discriminate. Qed.

Lemma settles_Date_now c : settles (Date_now c).
Proof. intros st. discriminate. Qed.

Lemma settles_mapM {A B} (f : A -> M B) xs :
  (forall x, settles (f x)) -> settles (mapM f xs).
Proof.
  intros Hf. induction xs as [ | x xs IH]; simpl.
  - apply settles_ret.
  - apply settles_bind; [ apply Hf | intros y ].
    apply settles_bind; [ exact IH | intros; apply settles_ret ].
Qed.

Create HintDb settles.
#[local] Hint Resolve settles_ret settles_throw settles_getProp settles_not_a_function
  settles_Date_toISOString settles_Date_now : settles.

Ltac settles_step :=
  first [ solve [ auto with settles ]
        | apply settles_mapM; intros
        | apply settles_try_catch; [ | intros ]
        | apply settles_if
        | apply settles_bind; [ | intros ] ].

Lemma settles_toLowerCase expr v : settles (Server.toLowerCase expr v).
Proof. destruct v; unfold Server.toLowerCase; repeat settles_step. Qed.

Lemma settles_iterate expr v : settles (Server.iterate expr v).
Proof. destruct v; unfold Server.iterate; repeat settles_step. Qed.

#[local] Hint Resolve settles_toLowerCase settles_iterate : settles.

Lemma settles_cleaned nutritionalData nutrient :
  settles (Server.cleaned nutritionalData nutrient).
Proof.
  unfold Server.cleaned. settles_step; [ settles_step | ].
  settles_step; [ | settles_step ].
  destruct a; auto with settles.
Qed.

Lemma settles_checkNutritionalThreshold nutritionalData thresholds :
  settles (Server.checkNutritionalThreshold nutritionalData thresholds).
Proof.
  induction thresholds as [ | [nutrient maxValue] rest IH]; simpl.
  - apply settles_ret.
  - apply settles_bind; [ apply settles_cleaned | intros text ].
    apply settles_if; [ apply settles_ret | exact IH ].
Qed.

Lemma settles_firstMatch normalizedClaim nutritionalData table :
  settles (Server.firstMatch normalizedClaim nutritionalData table).
Proof.
  induction table as [ | [claimType thresholds] rest IH]; simpl.
  - apply settles_ret.
  - apply settles_if; [ | exact IH ].
    apply settles_bind; [ apply settles_checkNutritionalThreshold | intros ].
    apply settles_ret.
Qed.

Lemma settles_validateSingleClaim claim nutritionalData :
  settles (Server.validateSingleClaim claim nutritionalData).
Proof.
  unfold Server.validateSingleClaim.
  repeat first [ apply settles_firstMatch | settles_step ].
Qed.

Lemma settles_checkGRASStatus ingredient : settles (Server.checkGRASStatus ingredient).
Proof. unfold Server.checkGRASStatus. repeat settles_step. Qed.

Lemma settles_performSafetyCheck ingredient : settles (Server.performSafetyCheck ingredient).
Proof. unfold Server.performSafetyCheck. repeat settles_step. Qed.

Lemma settles_allergenFindingsOf ingredient : settles (Server.allergenFindingsOf ingredient).
Proof. unfold Server.allergenFindingsOf. repeat settles_step. Qed.

Section ToolsSettle.
Variable world : Server.World.
Hypothesis search_settles : forall v, settles (Server.searchFoodDataCentral world v).

Lemma settles_validateOne ingredient : settles (Server.validateOne world ingredient).
Proof.
  unfold Server.validateOne.
  repeat first [ apply search_settles | apply settles_checkGRASStatus
               | apply settles_performSafetyCheck | settles_step ].
Qed.

Lemma settles_validateIngredients ingredients :
  settles (Server.validateIngredients world ingredients).
Proof.
  unfold Server.validateIngredients.
  repeat first [ apply settles_validateOne | settles_step ].
Qed.

Lemma settles_validateNutritionalClaims claims nutritionalData :
  settles (Server.validateNutritionalClaims world claims nutritionalData).
Proof.
  unfold Server.validateNutritionalClaims.
  repeat first [ apply settles_validateSingleClaim | settles_step ].
Qed.

Lemma settles_checkAdditiveStatus additive :
  settles (Server.checkAdditiveStatus world additive).
Proof. unfold Server.checkAdditiveStatus. repeat settles_step. Qed.

Lemma settles_checkAllergenRequirements ingredients :
  settles (Server.checkAllergenRequirements world ingredients).
Proof.
  unfold Server.checkAllergenRequirements.
  settles_step.
  { destruct ingredients; repeat settles_step. }
  repeat first [ apply settles_allergenFindingsOf | settles_step ].
Qed.

End ToolsSettle.

Lemma oneText_textContent text : oneText (Server.textContent text).
Proof. exists text. reflexivity. Qed.


(** ** checkFoodAdditiveStatus *)

(** X20. checkFoodAdditiveStatus reads status and cfr at the top level of
    the response: for every response object without a top-level status
    field, as is every response that nests the payload, it reports the
    status UNKNOWN with success true. *)
Theorem additive_status_is_read_at_top_level env additive st response fs :
  resolvesWith env "check_additive_status" (Obj.literal [("additive", additive)]) response ->
  response = VObj fs ->
  Obj.lookup "status" fs = None ->
  exists r st',
    FDA.checkFoodAdditiveStatus env additive st = (Ok r, st')
    /\ JS.get r "success" = VBool true
    /\ JS.get (JS.get r "additiveValidation") "additive" = additive
    /\ JS.get (JS.get r "additiveValidation") "status" = VStr "UNKNOWN"
    /\ JS.get (JS.get r "additiveValidation") "cfr" = JS.get response "cfr".
Proof.
  intros Hres -> Hst. unfold FDA.checkFoodAdditiveStatus, try_catch.
  unfold bind at 1, Date_now at 1. unfold bind at 1.
  rewrite callFDAMCPTool_run. unfold resolvesWith in Hres. rewrite Hres.
  unfold bind at 1, Date_now at 1. cbn [ticks trace store].
  unfold bind at 1, getProp at 1, ret at 1.
  unfold bind, Date_toISOString, ret. cbn [ticks trace store].
  assert (Hs : JS.get (VObj fs) "status" = VUndefined).
  { unfold JS.get. now rewrite Hst. }
  rewrite Hs.
  do 2 eexists. split; [ reflexivity | ].
  repeat split; reflexivity.
Qed.

(** ** correctOCRText *)

Lemma settles_lift {A} (o : outcome A) : o <> Pending -> settles (lift o).
Proof. intros H st. exact H. Qed.

Lemma settles_emit a : settles (emit a).
Proof. intros st. discriminate. Qed.

Lemma settles_getIndex v i : settles (getIndex v i).
Proof. destruct v; simpl; auto using settles_ret, settles_throw. Qed.

Lemma settles_trim expr v : settles (OCR.trim expr v).
Proof.
  destruct v; unfold OCR.trim;
    auto using settles_ret, settles_getProp, settles_not_a_function.
Qed.

Lemma settles_asString expr method v : settles (AI.asString expr method v).
Proof.
  destruct v; unfold AI.asString;
    auto using settles_ret, settles_not_a_function;
    (apply settles_bind; [ apply settles_getProp | intros; apply settles_ret ]).
Qed.

Lemma settles_parse v : settles (JSON.parse v).
Proof.
  intros st. unfold JSON.parse, lift, JSON.parse_string. simpl.
  destruct (JSON.parse_value _ _) as [[x rest] | ]; [ | discriminate ].
  destruct (JSON.skip_ws rest); discriminate.
Qed.

Lemma total_try_catch {A} (m : M A) (h : error -> M A) :
  settles m -> (forall e, total (h e)) -> total (try_catch m h).
Proof.
  intros Hm Hh st. unfold try_catch. specialize (Hm st).
  destruct (m st) as [[a | e | ] s1]; simpl in *.
  - eauto.
  - apply Hh.
  - now elim Hm.
Qed.

Lemma total_post {A} (Q : A -> Prop) (m : M A) st :
  total m -> post Q m -> exists a st', m st = (Ok a, st') /\ Q a.
Proof.
  intros Ht Hp. destruct (Ht st) as (a & st' & E). exists a, st'.
  split; [ exact E | exact (Hp st a st' E) ].
Qed.

Lemma post_trim expr v :
  post (fun t => exists s, t = VStr (Str.trim s)) (OCR.trim expr v).
Proof.
  destruct v; unfold OCR.trim, getProp, not_a_function; try apply post_throw.
  apply post_ret. eauto.
Qed.

Lemma settles_ask env request :
  anthropic env request <> Pending -> settles (AI.ask env request).
Proof.
  intros H. unfold AI.ask.
  apply settles_bind; [ apply settles_emit | intros _ ].
  apply settles_bind; [ now apply settles_lift | intros response ].
  apply settles_bind; [ apply settles_getProp | intros content ].
  apply settles_bind; [ apply settles_getIndex | intros first ].
  apply settles_getProp.
Qed.

Lemma ask_says env request text st :
  anthropic env request = saysText text ->
  AI.ask env request st
  = (Ok (VStr text), mkState (ticks st) (trace st ++ [AnthropicCreate request])%list (store st)).
Proof.
  intros H. unfold AI.ask, bind, emit, lift. rewrite H. reflexivity.
Qed.

Lemma post_ask env request :
  post (fun t => exists response,
                   anthropic env request = Ok response
                   /\ t = JS.get (JS.at_ (JS.get response "content") 0) "text")
       (AI.ask env request).
Proof.
  intros st t st' E. unfold AI.ask, bind, emit, lift in E.
  destruct (anthropic env request) as [response | e | ]; try discriminate E.
  exists response. split; [ reflexivity | ].
  destruct (getProp response "content" _) as [[content | e | ] s1] eqn:E1; try discriminate E.
  destruct (getIndex content 0 s1) as [[first | e | ] s2] eqn:E2; try discriminate E.
  assert (Hc : content = JS.get response "content")
    by (destruct response; unfold getProp, throw, ret in E1; congruence).
  assert (Hf : first = JS.at_ content 0)
    by (destruct content; unfold getIndex, throw, ret in E2; congruence).
  subst content first.
  destruct (JS.at_ _ 0); unfold getProp, throw, ret in E; congruence.
Qed.

Lemma post_trim_of expr v :
  post (fun t => exists s, v = VStr s /\ t = VStr (Str.trim s)) (OCR.trim expr v).
Proof.
  destruct v; unfold OCR.trim, getProp, not_a_function; try apply post_throw.
  apply post_ret. eauto.
Qed.


(** ** extractStructuredInfo *)

Lemma extractStructuredInfo_shape env validatedText :
  post (fun r => exists structuredInfo extractedAt,
                   r = VObj [ ("structuredInfo", structuredInfo);
                              ("extractedAt", extractedAt) ])
       (AI.extractStructuredInfo env validatedText).
Proof.
  unfold AI.extractStructuredInfo. apply post_try_catch.
  - do 3 (apply post_bind; intros). apply post_ret. do 2 eexists. reflexivity.
  - intros e. apply post_bind; intros. apply post_ret. do 2 eexists. reflexivity.
Qed.

Lemma extractStructuredInfo_total env validatedText :
  anthropic env (AI.shortRequest (AI.extractionPrompt validatedText)) <> Pending ->
  total (AI.extractStructuredInfo env validatedText).
Proof.
  intros H. unfold AI.extractStructuredInfo. apply total_try_catch.
  - apply settles_bind; [ now apply settles_ask | intros aiResponse ].
    apply settles_bind.
    + apply settles_try_catch; [ | intros; apply settles_ret ].
      apply settles_bind; [ apply settles_asString | intros text ].
      destruct (AI.fenced text); apply settles_parse.
    + intros. apply settles_bind; [ apply settles_Date_toISOString | intros ].
      apply settles_ret.
  - intros e. auto with js.
Qed.


(** ** runSimpleOCR *)

Lemma post_safe_try_catch {A} (Q : A -> Prop) (m : M A) h :
  safe m -> post Q m -> post Q (try_catch m h).
Proof.
  intros Hs Hp st a st' E. unfold try_catch in E.
  destruct (m st) as [[b | e | ] s1] eqn:Em; try discriminate.
  - injection E as <- <-. exact (Hp st b s1 Em).
  - exfalso. apply (Hs st). exists e. now rewrite Em.
Qed.

Lemma safe_ret {A} (a : A) : safe (ret a).
Proof. apply total_safe, total_ret. Qed.

Lemma post_lift_throw {A} (Q : A -> Prop) e : post Q (lift (Throw e)).
Proof. intros st a st' E. discriminate E. Qed.

(** When the engine rejects whatever it is given, performOCR returns its
    failure record. *)
Lemma performOCR_rejected env labelData :
  (forall src, exists e, recognize env src = Throw e) ->
  post (fun r => JS.get r "success" = VBool false) (OCR.performOCR env labelData).
Proof.
  intros Hrej. unfold OCR.performOCR.
  apply post_bind; intros _. apply post_try_catch.
  - apply post_bind; intros startTime.
    apply post_bind; intros imageSource.
    apply post_bind; intros _.
    destruct (Hrej imageSource) as [e ->].
    eapply post_bind_with; [ apply (post_lift_throw (fun _ => False)) | ].
    intros a [].
  - intros e. do 3 (apply post_bind; intros). apply post_ret. reflexivity.
Qed.

Lemma runSimpleOCR_body_safe env imageData :
  JS.nullish imageData = false ->
  safe (filename <- getProp imageData "filename" ;;
        ocrResult <- OCR.performOCR env
                       (Obj.literal [ ("filename", JS.or filename (VStr "test-image"));
                                      ("imageBuffer", JS.get imageData "buffer");
                                      ("imageUrl", JS.get imageData "url") ]) ;;
        ret (Obj.literal [ ("success", VBool true);
                           ("ocrResult", ocrResult) ])).
Proof.
  intros H. apply safe_bind; [ apply total_safe; auto with js | intros filename ].
  apply safe_bind; [ apply performOCR_safe; reflexivity | intros ]. apply safe_ret.
Qed.

Lemma lift_loaded {A} (m : M A) : (lift (Ok tt) ;;; m) = m.
Proof. reflexivity. Qed.

Lemma runSimpleOCR_success dynamicImport env imageData :
  JS.nullish imageData = false ->
  dynamicImport "../activities/ocr.js" = Ok tt ->
  post (fun r => JS.get r "success" = VBool true)
       (Client.runSimpleOCR dynamicImport env imageData).
Proof.
  intros Hn Hl. unfold Client.runSimpleOCR. rewrite Hl, lift_loaded.
  apply post_safe_try_catch.
  - now apply runSimpleOCR_body_safe.
  - do 2 (apply post_bind; intros). apply post_ret. reflexivity.
Qed.

Lemma runSimpleOCR_engine_failure dynamicImport env imageData :
  JS.nullish imageData = false ->
  dynamicImport "../activities/ocr.js" = Ok tt ->
  (forall src, exists e, recognize env src = Throw e) ->
  post (fun r => JS.get (JS.get r "ocrResult") "success" = VBool false)
       (Client.runSimpleOCR dynamicImport env imageData).
Proof.
  intros Hn Hl Hrej. unfold Client.runSimpleOCR. rewrite Hl, lift_loaded.
  apply post_safe_try_catch.
  - now apply runSimpleOCR_body_safe.
  - apply post_bind; intros filename.
    eapply post_bind_with; [ apply (performOCR_rejected _ _ Hrej) | ].
    intros o Ho. apply post_ret. exact Ho.
Qed.

Lemma runSimpleOCR_import_failure dynamicImport env imageData e st :
  dynamicImport "../activities/ocr.js" = Throw e ->
  Client.runSimpleOCR dynamicImport env imageData st
  = (Ok (Obj.literal [ ("success", VBool false);
                       ("error", message e);
                       ("ocrResult", VNull) ]), st).
Proof.
  intros Hl. unfold Client.runSimpleOCR, try_catch, bind, lift. rewrite Hl. reflexivity.
Qed.

Lemma runSimpleOCR_import_pending dynamicImport env imageData st :
  dynamicImport "../activities/ocr.js" = Pending ->
  fst (Client.runSimpleOCR dynamicImport env imageData st) = Pending.
Proof.
  intros Hl. unfold Client.runSimpleOCR, try_catch, bind, lift. rewrite Hl. reflexivity.
Qed.

(** What runSimpleOCR returns: success, or the record of a failed import. *)
Lemma runSimpleOCR_cases dynamicImport env imageData :
  JS.nullish imageData = false ->
  post (fun r => JS.get r "success" = VBool true
                 \/ exists e, dynamicImport "../activities/ocr.js" = Throw e
                              /\ r = Obj.literal [ ("success", VBool false);
                                                   ("error", message e);
                                                   ("ocrResult", VNull) ])
       (Client.runSimpleOCR dynamicImport env imageData).
Proof.
  intros Hn st r st' Hrun.
  destruct (dynamicImport "../activities/ocr.js") as [[] | e | ] eqn:Hl.
  - left. exact (runSimpleOCR_success _ _ _ Hn Hl st r st' Hrun).
  - right. exists e. split; [ reflexivity | ].
    rewrite (runSimpleOCR_import_failure _ _ _ _ _ Hl) in Hrun. now injection Hrun as <- _.
  - pose proof (runSimpleOCR_import_pending _ env imageData st Hl) as Hp.
    rewrite Hrun in Hp. discriminate Hp.
Qed.

(** X23. runSimpleOCR, for an image-data object, first imports the OCR
    activities.  When the import resolves, the success field of what it
    returns is true, also when the engine rejected: that failure is only
    visible as ocrResult.success false.  When the import rejects, it returns
    success false with the message of the rejection and ocrResult null.  So
    success is false only for a rejected import. *)
Theorem runSimpleOCR_reports_success dynamicImport env imageData st r st' :
  JS.nullish imageData = false ->
  Client.runSimpleOCR dynamicImport env imageData st = (Ok r, st') ->
  (dynamicImport "../activities/ocr.js" = Ok tt ->
   JS.get r "success" = VBool true
   /\ ((forall src, exists e, recognize env src = Throw e) ->
       JS.get (JS.get r "ocrResult") "success" = VBool false))
  /\ (forall e, dynamicImport "../activities/ocr.js" = Throw e ->
        r = Obj.literal [ ("success", VBool false);
                          ("error", message e);
                          ("ocrResult", VNull) ])
  /\ (JS.get r "success" = VBool false ->
      exists e, dynamicImport "../activities/ocr.js" = Throw e).
Proof.
  intros Hn Hrun. split; [ | split ].
  - intros Hl. split.
    + exact (runSimpleOCR_success _ _ _ Hn Hl st r st' Hrun).
    + intros Hrej. exact (runSimpleOCR_engine_failure _ _ _ Hn Hl Hrej st r st' Hrun).
  - intros e Hl. rewrite (runSimpleOCR_import_failure _ _ _ _ _ Hl) in Hrun.
    now injection Hrun as <- _.
  - intros Hs.
    destruct (runSimpleOCR_cases _ _ _ Hn st r st' Hrun) as [Ht | (e & Hl & _)].
    + rewrite Ht in Hs. discriminate Hs.
    + exists e. exact Hl.
Qed.

(** ** The two quality tiers *)

Lemma askProviders_safe env prompt ocrText startTime :
  safe (AI.askProviders env prompt ocrText startTime).
Proof.
  unfold AI.askProviders. apply try_catch_safe. intros claudeError.
  destruct (openai env) as [create | ].
  - apply try_catch_safe. intros openaiError. apply total_safe.
    unfold AI.elapsedSince. auto 10 with js.
  - apply total_safe. unfold AI.elapsedSince. auto 10 with js.
Qed.

Lemma performAIValidation_inputQuality env text confidence sections :
  post (fun v => JS.get v "inputQuality" = VStr (Client.quickTier confidence))
       (AI.performAIValidation env (quickData text confidence sections)).
Proof.
  unfold AI.performAIValidation. apply post_safe_try_catch.
  - apply safe_bind; [ apply total_safe; auto with js | intros startTime ].
    apply safe_bind; [ apply total_safe; intros s; rewrite destructure_ok by reflexivity; eauto
                     | intros ocrText ].
    apply safe_bind; [ apply askProviders_safe | intros [[vr pt] model] ].
    apply total_safe. auto 10 with js.
  - apply post_bind; intros startTime.
    apply post_bind; intros ocrText.
    apply post_bind; intros [[vr pt] model].
    apply post_bind; intros validatedAt.
    eapply post_bind_with; [ apply post_getProp | ].
    intros inputQuality ->. apply post_ret.
    cbn [Obj.assign fold_left fst snd]. unfold JS.get at 1.
    rewrite lookup_set_other by reflexivity. rewrite lookup_set_same. reflexivity.
Qed.

Lemma runSimpleAIValidation_inputQuality dynamicImport env ocrResult :
  JS.nullish ocrResult = false ->
  dynamicImport "../activities/aiValidation.js" = Ok tt ->
  post (fun r => JS.get r "success" = VBool true
                 /\ JS.get (JS.get r "validationResult") "inputQuality"
                    = VStr (Client.quickTier (JS.get ocrResult "confidence")))
       (Client.runSimpleAIValidation dynamicImport env ocrResult).
Proof.
  intros Hn Hl. unfold Client.runSimpleAIValidation. rewrite Hl, lift_loaded.
  apply post_safe_try_catch.
  - apply safe_bind; [ apply total_safe; auto with js | intros text ].
    apply safe_bind; [ apply performAIValidation_safe; reflexivity | intros ].
    apply safe_ret.
  - apply post_bind; intros text.
    eapply post_bind_with;
      [ apply (performAIValidation_inputQuality env text (JS.get ocrResult "confidence")
                 (JS.or (JS.get ocrResult "detectedSections") (VObj []))) | ].
    intros v Hv. apply post_ret. split; [ reflexivity | exact Hv ].
Qed.

Lemma assessOCRQuality_overall env ocrResult :
  post (fun a => JS.get a "overall" = VStr (assessedTier (JS.get ocrResult "confidence")))
       (OCR.assessOCRQuality env ocrResult).
Proof.
  unfold OCR.assessOCRQuality, assessedTier.
  apply post_try_catch; [ | intros; apply post_throw ].
  eapply post_bind_with; [ apply post_getProp | ]. intros confidence ->.
  destruct (JS.lt (JS.get ocrResult "confidence") _);
    [ | destruct (JS.lt (JS.get ocrResult "confidence") _) ];
    destruct (JS.gt _ _); apply post_bind; intros length;
    destruct (JS.lt length _); apply post_bind; intros; apply post_ret; reflexivity.
Qed.

(** X24. For a confidence strictly between 0.8 and 0.85
    runSimpleAIValidation, once its import of the AI activities has
    resolved, passes the tier good where assessOCRQuality says fair;
    strictly between 0.6 and 0.7 it passes fair where assessOCRQuality says
    poor. *)
Theorem quick_tier_is_more_lenient dynamicImport env ocrResult q st r st' :
  JS.get ocrResult "confidence" = VNum (Num q) ->
  ((8 # 10 < q /\ q < 85 # 100) \/ (6 # 10 < q /\ q < 7 # 10))%Q ->
  dynamicImport "../activities/aiValidation.js" = Ok tt ->
  Client.runSimpleAIValidation dynamicImport env ocrResult st = (Ok r, st') ->
  exists quick assessed,
    JS.get (JS.get r "validationResult") "inputQuality" = VStr quick
    /\ (forall s a s', OCR.assessOCRQuality env ocrResult s = (Ok a, s') ->
                       JS.get a "overall" = VStr assessed)
    /\ ((quick = "good" /\ assessed = "fair") \/ (quick = "fair" /\ assessed = "poor")).
Proof.
  intros Hc Hq Hl Hrun.
  assert (Hn : JS.nullish ocrResult = false).
  { destruct ocrResult; try reflexivity; discriminate Hc. }
  destruct (runSimpleAIValidation_inputQuality dynamicImport env ocrResult Hn Hl st r st' Hrun)
    as [_ Hi].
  exists (Client.quickTier (VNum (Num q))), (assessedTier (VNum (Num q))).
  rewrite Hc in Hi. split; [ exact Hi | ]. split.
  - intros s a s' Ha. rewrite <- Hc. exact (assessOCRQuality_overall env ocrResult s a s' Ha).
  - unfold Client.quickTier, assessedTier, JS.gt, JS.lt, Number.gtb.
    cbn [JS.toNumber].
    destruct Hq as [[H1 H2] | [H1 H2]]; [ left | right ].
    + rewrite (proj2 (ltb_Qlt _ _) H1).
      rewrite (proj2 (ltb_Qlt _ _) H2).
      assert (H3 : (7 # 10 <= q)%Q) by lra.
      rewrite (proj2 (ltb_Qle _ _) H3). split; reflexivity.
    + assert (H3 : (q <= 8 # 10)%Q) by lra.
      rewrite (proj2 (ltb_Qle _ _) H3).
      rewrite (proj2 (ltb_Qlt _ _) H1).
      rewrite (proj2 (ltb_Qlt _ _) H2). split; reflexivity.
Qed.

(** ** POST /ocr-validate: the branch of a failed OCR *)

(** X25. The handler of POST /ocr-validate answers with the error OCR
    processing failed only when the import of the OCR activities inside
    runSimpleOCR rejected, and its details are then the message of that
    rejection: a failure of the engine never produces it.  With a file, a
    client module that loads and an activities module that does not, the
    handler answers 500 with that error. *)
Theorem ocrValidate_OCR_failure_is_an_import_failure dynamicImport env req st :
  (forall rep st',
     Backend.ocrValidate dynamicImport env req st = (Ok rep, st') ->
     JS.get (Backend.body rep) "error" = VStr "OCR processing failed" ->
     exists e,
       dynamicImport "../activities/ocr.js" = Throw e
       /\ rep = Backend.mkReply 500
                  (Obj.literal [ ("error", VStr "OCR processing failed");
                                 ("details", message e) ]))
  /\ (forall e,
        JS.truthy (JS.get req "file") = true ->
        dynamicImport "../../temporal/clients/ocrClient.js" = Ok tt ->
        dynamicImport "../activities/ocr.js" = Throw e ->
        Backend.ocrValidate dynamicImport env req st
        = (Ok (Backend.mkReply 500
                 (Obj.literal [ ("error", VStr "OCR processing failed");
                                ("details", message e) ])), st)).
Proof.
  split.
  - revert st.
    change (post (fun rep =>
                    JS.get (Backend.body rep) "error" = VStr "OCR processing failed" ->
                    exists e,
                      dynamicImport "../activities/ocr.js" = Throw e
                      /\ rep = Backend.mkReply 500
                                 (Obj.literal [ ("error", VStr "OCR processing failed");
                                                ("details", message e) ]))
                 (Backend.ocrValidate dynamicImport env req)).
    unfold Backend.ocrValidate. apply post_try_catch.
    2: { intros e. apply post_ret. intros H; discriminate H. }
    apply post_bind; intros file.
    destruct (negb (JS.truthy file)).
    { apply post_ret. intros H; discriminate H. }
    apply post_bind; intros _.
    eapply post_bind_with; [ apply runSimpleOCR_cases; reflexivity | ].
    intros ocrResponse Hcases.
    eapply post_bind_with; [ apply post_getProp | ]. intros success ->.
    destruct Hcases as [Hs | (e & Hl & ->)].
    + rewrite Hs. cbn [JS.truthy negb].
      do 2 (apply post_bind; intros).
      apply post_ret. intros H; discriminate H.
    + apply post_ret. intros _. exists e. split; [ exact Hl | reflexivity ].
  - intros e Hfile Hc Hl.
    assert (Hn : JS.nullish req = false).
    { destruct req; try reflexivity; discriminate Hfile. }
    unfold Backend.ocrValidate. apply try_catch_ok.
    rewrite (bind_ok _ _ _ _ _ (getProp_ok _ _ _ Hn)).
    rewrite Hfile. cbn [negb]. rewrite Hc, lift_loaded.
    rewrite (bind_ok _ _ _ _ _ (runSimpleOCR_import_failure _ _ _ _ _ Hl)).
    reflexivity.
Qed.

(** ** POST /ocr-validate when the engine rejects *)

Lemma yields_ret {A} (Q : A -> Prop) a : Q a -> yields Q (ret a).
Proof. intros H st. exists a, st. now split. Qed.

Lemma yields_bind {A B} (P : A -> Prop) (Q : B -> Prop) (m : M A) (k : A -> M B) :
  yields P m -> (forall a, P a -> yields Q (k a)) -> yields Q (bind m k).
Proof.
  intros Hm Hk st. destruct (Hm st) as (a & s1 & E & Ha).
  rewrite (bind_ok _ _ _ _ _ E). now apply Hk.
Qed.

Lemma yields_total {A} (m : M A) : total m -> yields (fun _ => True) m.
Proof. intros H st. destruct (H st) as (a & s1 & E). eauto. Qed.

Lemma yields_try_catch {A} (Q : A -> Prop) (m : M A) h :
  yields Q m -> yields Q (try_catch m h).
Proof.
  intros Hm st. destruct (Hm st) as (a & s1 & E & Ha).
  rewrite (try_catch_ok _ _ _ _ _ E). eauto.
Qed.

Lemma yields_caught {A} (Q : A -> Prop) (m : M A) h :
  throws m -> (forall e, yields Q (h e)) -> yields Q (try_catch m h).
Proof.
  intros Hm Hh st. destruct (Hm st) as (e & s1 & E).
  rewrite (try_catch_caught _ _ _ _ _ E). apply Hh.
Qed.

Lemma yields_getProp v k : JS.nullish v = false -> yields (fun x => x = JS.get v k) (getProp v k).
Proof. intros H st. rewrite (getProp_ok _ _ _ H). eauto. Qed.

Lemma throws_throw {A} e : throws (@throw A e).
Proof. intros st. exists e, st. reflexivity. Qed.

Lemma throws_bind_l {A B} (m : M A) (k : A -> M B) : throws m -> throws (bind m k).
Proof.
  intros Hm st. destruct (Hm st) as (e & s1 & E).
  rewrite (bind_throw _ _ _ _ _ E). eauto.
Qed.

Lemma throws_bind_r {A B} (m : M A) (k : A -> M B) :
  total m -> (forall a, throws (k a)) -> throws (bind m k).
Proof.
  intros Hm Hk st. destruct (Hm st) as (a & s1 & E).
  rewrite (bind_ok _ _ _ _ _ E). apply Hk.
Qed.

Lemma performOCR_rejected_yields env labelData :
  JS.nullish labelData = false ->
  (forall src, exists e, recognize env src = Throw e) ->
  yields failureRecord (OCR.performOCR env labelData).
Proof.
  intros Hn Hrej. unfold OCR.performOCR.
  eapply yields_bind; [ apply (yields_getProp _ _ Hn) | ]. intros _ _.
  apply yields_caught.
  - apply throws_bind_r; [ auto with js | intros startTime ].
    set (pick := if JS.truthy (JS.get labelData "imageUrl") then _ else _).
    assert (Hpick : throws pick \/ exists src, pick = ret src).
    { unfold pick.
      destruct (JS.truthy (JS.get labelData "imageUrl")); [ right; eauto | ].
      destruct (JS.truthy (JS.get labelData "imagePath")); [ right; eauto | ].
      destruct (JS.truthy (JS.get labelData "imageBuffer")); [ right; eauto | ].
      left. apply throws_throw. }
    destruct Hpick as [Ht | [src ->]]; [ now apply throws_bind_l | ].
    apply throws_bind_r; [ auto with js | intros imageSource ].
    apply throws_bind_r; [ auto with js | intros _ ].
    apply throws_bind_l. destruct (Hrej imageSource) as [e ->]. apply throws_throw.
  - intros e.
    eapply yields_bind; [ apply yields_total; auto with js | intros failedAt _ ].
    eapply yields_bind; [ apply yields_total; auto with js | intros since _ ].
    eapply yields_bind; [ apply yields_total; auto with js | intros extractedAt _ ].
    apply yields_ret. repeat split; reflexivity.
Qed.

Lemma runSimpleOCR_rejected_yields dynamicImport env imageData :
  JS.nullish imageData = false ->
  dynamicImport "../activities/ocr.js" = Ok tt ->
  (forall src, exists e, recognize env src = Throw e) ->
  yields (fun r => JS.nullish r = false
                   /\ JS.get r "success" = VBool true
                   /\ failureRecord (JS.get r "ocrResult"))
         (Client.runSimpleOCR dynamicImport env imageData).
Proof.
  intros Hn Hl Hrej. unfold Client.runSimpleOCR. rewrite Hl, lift_loaded.
  apply yields_try_catch.
  eapply yields_bind; [ apply (yields_getProp _ _ Hn) | ]. intros filename _.
  eapply yields_bind; [ apply performOCR_rejected_yields; [ reflexivity | exact Hrej ] | ].
  intros ocrResult Hf. apply yields_ret. repeat split; try reflexivity; apply Hf.
Qed.

Lemma validated_failure dynamicImport env ocrResult :
  failureRecord ocrResult ->
  yields (fun v => v = VNull) (Backend.validated dynamicImport env ocrResult).
Proof.
  intros (Hn & _ & Ht & _). unfold Backend.validated.
  eapply yields_bind; [ apply (yields_getProp _ _ Hn) | ]. intros text ->.
  rewrite Ht. apply yields_ret. reflexivity.
Qed.

(** X26. When the recognition engine rejects, POST /ocr-validate with a
    file, once its imports of the client and of the OCR activities have
    resolved, answers 200 with success true, no text, the quality tier poor
    and the aiValidation placeholder of a validation not performed. *)
Theorem ocrValidate_engine_failure_is_a_success dynamicImport env req st :
  JS.truthy (JS.get req "file") = true ->
  dynamicImport "../../temporal/clients/ocrClient.js" = Ok tt ->
  dynamicImport "../activities/ocr.js" = Ok tt ->
  (forall src, exists e, recognize env src = Throw e) ->
  exists rep st',
    Backend.ocrValidate dynamicImport env req st = (Ok rep, st')
    /\ Backend.code rep = 200
    /\ JS.get (Backend.body rep) "success" = VBool true
    /\ JS.get (JS.get (Backend.body rep) "ocr") "text" = VUndefined
    /\ JS.get (JS.get (JS.get (Backend.body rep) "ocr") "qualityAssessment") "overall"
       = VStr "poor"
    /\ JS.get (Backend.body rep) "aiValidation" = Backend.notPerformed.
Proof.
  intros Hfile Hclient Hl Hrej. revert st.
  change (yields (fun rep =>
                    Backend.code rep = 200
                    /\ JS.get (Backend.body rep) "success" = VBool true
                    /\ JS.get (JS.get (Backend.body rep) "ocr") "text" = VUndefined
                    /\ JS.get (JS.get (JS.get (Backend.body rep) "ocr") "qualityAssessment")
                         "overall" = VStr "poor"
                    /\ JS.get (Backend.body rep) "aiValidation" = Backend.notPerformed)
                 (Backend.ocrValidate dynamicImport env req)).
  assert (Hn : JS.nullish req = false).
  { destruct req; try reflexivity; discriminate Hfile. }
  unfold Backend.ocrValidate. apply yields_try_catch.
  eapply yields_bind; [ apply (yields_getProp _ _ Hn) | ]. intros file ->.
  rewrite Hfile. cbn [negb]. rewrite Hclient, lift_loaded.
  eapply yields_bind;
    [ apply runSimpleOCR_rejected_yields; [ reflexivity | exact Hl | exact Hrej ] | ].
  intros ocrResponse (Hobj & Hs & Hf).
  eapply yields_bind; [ apply (yields_getProp _ _ Hobj) | ]. intros success ->.
  rewrite Hs. cbn [JS.truthy negb].
  eapply yields_bind; [ apply (validated_failure _ _ _ Hf) | ]. intros aiValidation ->.
  eapply yields_bind; [ apply yields_total; auto with js | intros processedAt _ ].
  apply yields_ret. destruct Hf as (_ & _ & Ht & Hc).
  cbn [Backend.code Backend.body JS.truthy].
  split; [ reflexivity | ]. split; [ reflexivity | ].
  split; [ cbn; exact Ht | ]. split; [ | reflexivity ].
  cbn. rewrite Hc. reflexivity.
Qed.

(** ** JSON.parse reads back what JSON.stringify writes *)

Section JsonRoundTrip.

Import DecimalPos DecimalN DecimalZ DecimalFacts.

Lemma value_ind' (P : value -> Prop) :
  P VUndefined -> P VNull -> (forall b, P (VBool b)) -> (forall n, P (VNum n)) ->
  (forall s, P (VStr s)) ->
  (forall xs, Forall P xs -> P (VArr xs)) ->
  (forall fs, Forall (fun kv => P (snd kv)) fs -> P (VObj fs)) ->
  forall v, P v.
Proof.
  intros Hu Hn Hb Hnum Hs Ha Ho.
  fix IH 1. intros v.
  destruct v as [ | | b | n | s | xs | fs];
    [ exact Hu | exact Hn | apply Hb | apply Hnum | apply Hs | | ].
  - apply Ha. induction xs as [ | x xs IHxs]; constructor; [ apply IH | exact IHxs ].
  - apply Ho. induction fs as [ | [k x] fs IHfs]; constructor; [ apply IH | exact IHfs ].
Qed.

(** *** Strings *)

Lemma length_app (a b : string) : String.length (a ++ b) = String.length a + String.length b.
Proof. induction a as [ | c a IH]; simpl; [ reflexivity | now rewrite IH ]. Qed.

Lemma app_assoc_s (a b c : string) : (a ++ b) ++ c = a ++ (b ++ c).
Proof. induction a as [ | x a IH]; simpl; [ reflexivity | now rewrite IH ]. Qed.

Lemma skip_ws_blank ws s : jblank ws = true -> JSON.skip_ws (ws ++ s) = JSON.skip_ws s.
Proof.
  induction ws as [ | c ws IH]; simpl; intros H; [ reflexivity | ].
  apply andb_true_iff in H as [Hc H]. rewrite Hc. exact (IH H).
Qed.

Lemma jblank_app a b : jblank a = true -> jblank b = true -> jblank (a ++ b) = true.
Proof.
  unfold jblank. induction a as [ | c a IH]; simpl; intros Ha Hb; [ exact Hb | ].
  apply andb_true_iff in Ha as [Hc Ha]. rewrite Hc. simpl. exact (IH Ha Hb).
Qed.

(** *** String literals *)

Lemma app_nil_r_s (a : string) : a ++ "" = a.
Proof. induction a as [ | c a IH]; simpl; [ reflexivity | now rewrite IH ]. Qed.

Lemma rev_onto_rev_onto s a b :
  Str.rev_onto (Str.rev_onto s a) b = Str.rev_onto a (s ++ b).
Proof.
  revert a b. induction s as [ | c s IH]; intros a b; simpl; [ reflexivity | ].
  rewrite IH. reflexivity.
Qed.

Lemma rev_rev s : Str.rev (Str.rev s) = s.
Proof. unfold Str.rev. rewrite rev_onto_rev_onto. simpl. apply app_nil_r_s. Qed.

Lemma string_body_escape s : forall acc rest,
  JSON.string_body (JSON.escape s ++ String dqc rest) acc
  = Some (Str.rev (Str.rev_onto s acc), rest).
Proof.
  induction s as [ | c s IH]; intros acc rest.
  - reflexivity.
  - destruct c as [[] [] [] [] [] [] [] []];
      cbn -[JSON.string_body JSON.escape Str.rev Str.rev_onto append];
      cbn [JSON.escape append]; cbn -[JSON.escape Str.rev]; apply IH.
Qed.

(** *** Numbers *)

Lemma scan_digits_delimited rest acc n :
  delimited rest = true -> Number.scan_digits rest acc n = (acc, n, rest).
Proof.
  destruct rest as [ | c t]; simpl; intros H; [ reflexivity | ].
  destruct (Str.is_digit c); [ discriminate H | reflexivity ].
Qed.

Lemma scan_digits_uint d : forall rest acc n,
  delimited rest = true ->
  Number.scan_digits (NilEmpty.string_of_uint d ++ rest) acc n
  = (uval d acc, n + Decimal.nb_digits d, rest).
Proof.
  induction d; intros rest acc n H; simpl NilEmpty.string_of_uint;
    [ simpl; rewrite Nat.add_0_r; now apply scan_digits_delimited | .. ];
    cbn [append Number.scan_digits]; cbn [Str.is_digit nat_of_ascii];
    change (Str.is_digit _) with true; cbv iota;
    rewrite IHd by exact H; cbn [uval Decimal.nb_digits];
    rewrite Nat.add_succ_r; reflexivity.
Qed.

Lemma uval_acc d : forall acc : positive,
  uval d (Z.pos acc) = Z.pos (Pos.of_uint_acc d acc).
Proof.
  induction d; intros acc; cbn [uval Pos.of_uint_acc]; try reflexivity;
    match goal with
    | |- uval _ ?z = _ =>
        match goal with
        | |- _ = Z.pos (Pos.of_uint_acc _ ?p) =>
            replace z with (Z.pos p) by lia; apply IHd
        end
    end.
Qed.

Lemma uval_of_uint d : uval d 0 = Z.of_N (Pos.of_uint d).
Proof.
  induction d; cbn [uval Pos.of_uint]; try reflexivity; try exact IHd;
    match goal with
    | |- uval _ ?z = Z.of_N (N.pos (Pos.of_uint_acc _ ?p)) =>
        change z with (Z.pos p); apply uval_acc
    end.
Qed.

Lemma to_uint_normal p : Decimal.unorm (Pos.to_uint p) = Pos.to_uint p.
Proof.
  rewrite <- DecimalPos.Unsigned.to_of, DecimalPos.Unsigned.of_to. reflexivity.
Qed.

Lemma to_uint_head p : forall d, Pos.to_uint p <> Decimal.D0 d.
Proof.
  intros d H. pose proof (to_uint_normal p) as Hn. rewrite H in Hn.
  rewrite unorm_D0 in Hn.
  pose proof (nb_digits_unorm d) as Hl. rewrite Hn in Hl. simpl in Hl.
  assert (Hd : d <> Decimal.Nil).
  { intros ->. exact (Unsigned.to_uint_nonzero p H). }
  specialize (Hl Hd). lia.
Qed.

Lemma Qred_nat z : Qred (z # 1) = (z # 1)%Q.
Proof.
  unfold Qred.
  pose proof (Z.ggcd_gcd z 1) as Hg.
  pose proof (Z.ggcd_correct_divisors z 1) as Hd.
  destruct (Z.ggcd z 1) as [g [aa bb]]. simpl in Hg, Hd.
  rewrite Z.gcd_1_r in Hg. subst g. destruct Hd as [Ha Hb].
  rewrite Z.mul_1_l in Ha, Hb. subst aa bb. reflexivity.
Qed.

Lemma toString_nat z : (0 <= z)%Z -> Number.toString (Num (z # 1)) = Str.of_Z z.
Proof.
  intros Hz. unfold Number.toString. rewrite Qred_nat.
  cbn [Qnum Qden]. rewrite Z.mod_1_r. cbn [Z.eqb].
  rewrite Z.div_1_r. rewrite (Z.abs_eq _ Hz).
  destruct (Z.ltb_spec z 0); [ lia | reflexivity ].
Qed.

(** The decimal string of a natural number: its digits give the number
    back, and it has no leading zero. *)
Lemma of_Z_digits z :
  (0 <= z)%Z ->
  exists d, Str.of_Z z = NilEmpty.string_of_uint d
            /\ uval d 0 = z
            /\ d <> Decimal.Nil
            /\ (forall l, d = Decimal.D0 l -> l = Decimal.Nil).
Proof.
  intros Hz. destruct z as [ | p | p]; [ | | lia ].
  - exists (Decimal.D0 Decimal.Nil). repeat split; try reflexivity; try discriminate.
    intros l E. now injection E as <-.
  - exists (Pos.to_uint p). unfold Str.of_Z. cbn [Z.to_int NilZero.string_of_int].
    split.
    + unfold NilZero.string_of_uint.
      destruct (Pos.to_uint p) eqn:E; try reflexivity.
      now elim (Unsigned.to_uint_nonnil p).
    + split; [ now rewrite uval_of_uint, DecimalPos.Unsigned.of_to | ].
      split; [ apply Unsigned.to_uint_nonnil | ].
      intros l E. now elim (to_uint_head p l).
Qed.

Lemma Qred_plain z :
  Qred ((inject_Z z + (0 # Z.to_pos (Number.pow10 0))) * 1) = (z # 1)%Q.
Proof.
  rewrite (Qred_complete _ (z # 1)); [ apply Qred_nat | ].
  change (Z.to_pos (Number.pow10 0)) with 1%positive.
  unfold inject_Z. ring.
Qed.

Lemma json_number_nat z rest :
  (0 <= z)%Z -> delimited rest = true ->
  JSON.json_number (Str.of_Z z ++ rest) = Some (Num (z # 1), rest).
Proof.
  intros Hz Hrest.
  destruct (of_Z_digits z Hz) as (d & -> & Hv & Hnil & Hzero).
  unfold JSON.json_number.
  assert (Hneg : match (NilEmpty.string_of_uint d ++ rest)%string with
                 | String "-" t => (true, t)
                 | _ => (false, (NilEmpty.string_of_uint d ++ rest)%string)
                 end = (false, (NilEmpty.string_of_uint d ++ rest)%string)).
  { destruct d; [ now elim Hnil | reflexivity .. ]. }
  rewrite Hneg. rewrite (scan_digits_uint d rest 0 0 Hrest). rewrite Hv.
  cbn [Nat.add].
  assert (Hlen : Nat.eqb (Decimal.nb_digits d) 0 = false).
  { destruct d; [ now elim Hnil | reflexivity .. ]. }
  rewrite Hlen.
  assert (Hlead : match (NilEmpty.string_of_uint d ++ rest)%string with
                  | String "0" _ => Nat.ltb 1 (Decimal.nb_digits d)
                  | _ => false
                  end = false).
  { destruct d as [ | l | | | | | | | | | ]; [ now elim Hnil | | reflexivity .. ].
    rewrite (Hzero l eq_refl). reflexivity. }
  rewrite Hlead. cbn [orb].
  destruct rest as [ | c t].
  - rewrite Qred_plain. reflexivity.
  - destruct c as [[] [] [] [] [] [] [] []]; try discriminate Hrest;
      cbv beta iota delta [Ascii.eqb Bool.eqb orb]; rewrite Qred_plain; reflexivity.
Qed.

(** *** Arrays and objects *)

Lemma ser_arr gap cur xs :
  JSON.ser gap cur (VArr xs)
  = wrapped gap cur "[" "]" (List.map (JSON.ser gap (cur ++ gap)) xs).
Proof.
  cbn [JSON.ser]. unfold wrapped.
  match goal with
  | |- match ?f xs with _ => _ end = _ =>
      assert (E : f xs = List.map (JSON.ser gap (cur ++ gap)) xs)
        by (clear; induction xs as [ | x xs IH]; [ reflexivity | cbn; now rewrite IH ]);
      rewrite E
  end.
  reflexivity.
Qed.

Lemma plain_defined v : plain v = true -> v <> VUndefined.
Proof. intros H ->. discriminate H. Qed.

Lemma ser_obj gap cur fs :
  forallb (fun kv => plain (snd kv)) fs = true ->
  JSON.ser gap cur (VObj fs)
  = wrapped gap cur "{" "}" (List.map (member gap (cur ++ gap)) fs).
Proof.
  intros Hp. cbn [JSON.ser]. unfold wrapped.
  match goal with
  | |- match ?f fs with _ => _ end = _ =>
      assert (E : f fs = List.map (member gap (cur ++ gap)) fs)
  end.
  { clear -Hp. induction fs as [ | [k x] fs IH]; [ reflexivity | ].
    cbn [forallb snd] in Hp. apply andb_true_iff in Hp as [Hx Hp].
    cbn [List.map]. rewrite <- (IH Hp). unfold member. cbn [fst snd].
    destruct x; try reflexivity. discriminate Hx. }
  rewrite E. reflexivity.
Qed.

(** *** The parser, one step at a time *)

Lemma parse_value_S f s : JSON.parse_value (S f) s = value_body f s.
Proof. reflexivity. Qed.

Lemma parse_elements_S f s : JSON.parse_elements (S f) s = elements_body f s.
Proof. reflexivity. Qed.

Lemma parse_members_S f s acc : JSON.parse_members (S f) s acc = members_body f s acc.
Proof. reflexivity. Qed.

Lemma parse_value_blank ws s fuel :
  jblank ws = true -> JSON.parse_value fuel (ws ++ s) = JSON.parse_value fuel s.
Proof.
  intros H. destruct fuel as [ | f]; [ reflexivity | ].
  rewrite !parse_value_S. unfold value_body. now rewrite skip_ws_blank.
Qed.

Lemma parse_elements_blank ws s fuel :
  jblank ws = true -> JSON.parse_elements fuel (ws ++ s) = JSON.parse_elements fuel s.
Proof.
  intros H. destruct fuel as [ | f]; [ reflexivity | ].
  rewrite !parse_elements_S. unfold elements_body. now rewrite parse_value_blank.
Qed.

Lemma parse_members_blank ws s fuel acc :
  jblank ws = true -> JSON.parse_members fuel (ws ++ s) acc = JSON.parse_members fuel s acc.
Proof.
  intros H. destruct fuel as [ | f]; [ reflexivity | ].
  rewrite !parse_members_S. unfold members_body. now rewrite skip_ws_blank.
Qed.

Lemma skip_ws_opens s : opens s = true -> JSON.skip_ws s = s.
Proof.
  destruct s as [ | c t]; simpl; intros H; [ discriminate H | ].
  destruct (JSON.is_json_ws c); [ discriminate H | reflexivity ].
Qed.

Lemma value_body_array f t :
  opens (JSON.skip_ws t) = true ->
  value_body f (String "[" t)
  = match JSON.parse_elements f (JSON.skip_ws t) with
    | Some (xs, rest) => Some (VArr xs, rest)
    | None => None
    end.
Proof.
  intros H. destruct (JSON.skip_ws t) as [ | c u] eqn:ES; [ discriminate H | ].
  unfold value_body. cbv zeta.
  change (JSON.skip_ws (String "[" t)) with (String "[" t).
  cbv -[JSON.skip_ws JSON.parse_elements JSON.parse_members JSON.string_body
        JSON.json_number].
  rewrite ES.
  destruct c as [[] [] [] [] [] [] [] []]; try discriminate H; reflexivity.
Qed.

Lemma value_body_object f t :
  opens (JSON.skip_ws t) = true ->
  value_body f (String "{" t)
  = match JSON.parse_members f (JSON.skip_ws t) [] with
    | Some (fs, rest) => Some (VObj fs, rest)
    | None => None
    end.
Proof.
  intros H. destruct (JSON.skip_ws t) as [ | c u] eqn:ES; [ discriminate H | ].
  unfold value_body. cbv zeta.
  change (JSON.skip_ws (String "{" t)) with (String "{" t).
  cbv -[JSON.skip_ws JSON.parse_elements JSON.parse_members JSON.string_body
        JSON.json_number].
  rewrite ES.
  destruct c as [[] [] [] [] [] [] [] []]; try discriminate H; reflexivity.
Qed.

Lemma value_body_digit f c t :
  Str.is_digit c = true ->
  value_body f (String c t)
  = match JSON.json_number (String c t) with
    | Some (x, rest) => Some (VNum x, rest)
    | None => None
    end.
Proof.
  intros H. destruct c as [[] [] [] [] [] [] [] []]; try discriminate H; reflexivity.
Qed.

Lemma value_body_string f s rest :
  value_body f (JSON.quote s ++ rest) = Some (VStr s, rest).
Proof.
  unfold JSON.quote, Str.quoted, Str.dq. cbn [append].
  rewrite app_assoc_s. cbn [append].
  change (ascii_of_nat 34) with dqc.
  unfold value_body. cbv zeta.
  change (JSON.skip_ws (String dqc (JSON.escape s ++ String dqc rest)))
    with (String dqc (JSON.escape s ++ String dqc rest)).
  remember (JSON.escape s ++ String dqc rest)%string as body eqn:Eb.
  cbn -[JSON.string_body]. subst body.
  rewrite string_body_escape. fold (Str.rev s). rewrite rev_rev. reflexivity.
Qed.

Lemma value_body_nat f z rest :
  (0 <= z)%Z -> delimited rest = true ->
  value_body f (Str.of_Z z ++ rest) = Some (VNum (Num (z # 1)), rest).
Proof.
  intros Hz Hrest.
  assert (Hd : exists c t, (Str.of_Z z ++ rest)%string = String c t /\ Str.is_digit c = true).
  { destruct (of_Z_digits z Hz) as (d & -> & _ & Hnil & _).
    destruct d; [ now elim Hnil | .. ]; cbn [NilEmpty.string_of_uint append]; eauto. }
  destruct Hd as (c & t & E & Hc).
  rewrite E, (value_body_digit f c t Hc), <- E.
  rewrite (json_number_nat z rest Hz Hrest). reflexivity.
Qed.

(** *** The round trip *)

Lemma delimited_blank tail c rest :
  jblank tail = true -> delimited (String c rest) = true ->
  delimited (tail ++ String c rest) = true.
Proof.
  destruct tail as [ | d tail]; intros Ht Hc; [ exact Hc | ].
  unfold jblank in Ht. simpl in Ht. apply andb_true_iff in Ht as [Hd _].
  clear -Hd. destruct d as [[] [] [] [] [] [] [] []]; try discriminate Hd; reflexivity.
Qed.

Lemma skip_ws_tail tail c rest :
  jblank tail = true -> JSON.is_json_ws c = false ->
  JSON.skip_ws (tail ++ String c rest) = String c rest.
Proof.
  intros Ht Hc. rewrite (skip_ws_blank _ _ Ht). simpl. now rewrite Hc.
Qed.

Lemma elements_last f s v tail rest :
  JSON.parse_value f s = Some (v, (tail ++ String "]" rest)%string) ->
  jblank tail = true ->
  elements_body f s = Some ([v], rest).
Proof.
  intros Hv Ht. unfold elements_body. rewrite Hv.
  rewrite (skip_ws_tail tail "]" rest Ht eq_refl). reflexivity.
Qed.

Lemma elements_more f s v rest' vs r :
  JSON.parse_value f s = Some (v, String "," rest') ->
  JSON.parse_elements f rest' = Some (vs, r) ->
  elements_body f s = Some (v :: vs, r).
Proof.
  intros Hv Hvs. unfold elements_body. rewrite Hv.
  change (JSON.skip_ws (String "," rest')) with (String "," rest').
  cbv beta iota. rewrite Hvs. reflexivity.
Qed.

Lemma elements_ok gap inner lead tail xs :
  jblank gap = true -> jblank inner = true -> jblank lead = true -> jblank tail = true ->
  xs <> [] -> Forall (fun x => plain x = true /\ readsBack x) xs ->
  forall fuel rest,
    String.length (JSON.join ("," ++ lead) (List.map (JSON.ser gap inner) xs)
                   ++ tail ++ "]") < fuel ->
    JSON.parse_elements fuel
      (JSON.join ("," ++ lead) (List.map (JSON.ser gap inner) xs)
       ++ tail ++ String "]" rest)
    = Some (xs, rest).
Proof.
  intros Hgap Hinner Hlead Htail Hne Hall.
  induction Hall as [ | x xs [Hpx Hx] Hall IH]; [ now elim Hne | ].
  intros fuel rest Hlen. destruct fuel as [ | f]; [ lia | ].
  rewrite parse_elements_S.
  destruct xs as [ | y ys].
  - cbn [List.map JSON.join] in *.
    rewrite length_app in Hlen.
    assert (Hc : 1 <= String.length (tail ++ "]")).
    { rewrite length_app. simpl. lia. }
    eapply elements_last; [ | exact Htail ].
    apply Hx; try assumption; [ | lia ].
    apply delimited_blank; [ exact Htail | reflexivity ].
  - cbn [List.map JSON.join] in *.
    repeat rewrite app_assoc_s. cbn [append].
    repeat rewrite length_app in Hlen. cbn [String.length] in Hlen.
    eapply elements_more.
    + apply Hx; try assumption; [ reflexivity | lia ].
    + rewrite (parse_elements_blank lead _ f Hlead).
      apply IH; [ discriminate | ].
      repeat rewrite length_app. cbn [String.length]. lia.
Qed.

Lemma members_step f k sp body acc :
  jblank sp = true ->
  members_body f (JSON.quote k ++ String ":" (sp ++ body)) acc
  = match JSON.parse_value f body with
    | None => None
    | Some (v, rest2) =>
        match JSON.skip_ws rest2 with
        | String "}" rest3 => Some (Obj.set k v acc, rest3)
        | String "," rest3 => JSON.parse_members f rest3 (Obj.set k v acc)
        | _ => None
        end
    end.
Proof.
  intros Hsp. unfold JSON.quote, Str.quoted, Str.dq. cbn [append].
  rewrite app_assoc_s. cbn [append].
  change (ascii_of_nat 34) with dqc.
  unfold members_body.
  change (JSON.skip_ws (String dqc (JSON.escape k ++ String dqc (String ":" (sp ++ body)))))
    with (String dqc (JSON.escape k ++ String dqc (String ":" (sp ++ body)))).
  change (Nat.eqb (nat_of_ascii dqc) 34) with true. cbv iota.
  rewrite string_body_escape. fold (Str.rev k). rewrite rev_rev.
  change (JSON.skip_ws (String ":" (sp ++ body))) with (String ":" (sp ++ body)).
  cbv iota. rewrite (parse_value_blank sp body f Hsp). reflexivity.
Qed.

Lemma members_ok gap inner lead tail fs :
  jblank gap = true -> jblank inner = true -> jblank lead = true -> jblank tail = true ->
  fs <> [] -> Forall (fun kv => plain (snd kv) = true /\ readsBack (snd kv)) fs ->
  forall fuel rest acc,
    String.length (JSON.join ("," ++ lead) (List.map (member gap inner) fs)
                   ++ tail ++ "}") < fuel ->
    JSON.parse_members fuel
      (JSON.join ("," ++ lead) (List.map (member gap inner) fs)
       ++ tail ++ String "}" rest) acc
    = Some (Obj.assign acc fs, rest).
Proof.
  intros Hgap Hinner Hlead Htail Hne Hall.
  assert (Hmember : forall kv,
            exists sp, jblank sp = true
                       /\ member gap inner kv
                          = (JSON.quote (fst kv) ++ ":" ++ sp
                             ++ JSON.ser gap inner (snd kv))%string).
  { intros kv. unfold member. destruct (String.eqb gap "").
    - exists "". split; reflexivity.
    - exists " ". split; reflexivity. }
  induction Hall as [ | [k x] fs [Hpx Hx] Hall IH]; [ now elim Hne | ].
  intros fuel rest acc Hlen. destruct fuel as [ | f]; [ lia | ].
  rewrite parse_members_S.
  destruct (Hmember (k, x)) as (sp & Hsp & Em). cbn [fst snd] in *.
  assert (Hq : 1 <= String.length (JSON.quote k)).
  { unfold JSON.quote, Str.quoted, Str.dq. simpl. lia. }
  destruct fs as [ | kv fs].
  - cbn [List.map JSON.join] in *. rewrite Em in *.
    repeat rewrite app_assoc_s. cbn [append].
    rewrite (members_step f k sp _ acc Hsp).
    repeat rewrite length_app in Hlen. cbn [String.length] in Hlen.
    rewrite Hx; try assumption.
    + rewrite (skip_ws_tail tail "}" rest Htail eq_refl). reflexivity.
    + apply delimited_blank; [ exact Htail | reflexivity ].
    + lia.
  - cbn [List.map JSON.join] in *. rewrite Em in *.
    repeat rewrite app_assoc_s. cbn [append].
    rewrite (members_step f k sp _ acc Hsp).
    repeat rewrite length_app in Hlen. cbn [String.length] in Hlen.
    rewrite Hx; try assumption; [ | reflexivity | lia ].
    match goal with
    | |- context [JSON.skip_ws (String "," ?r)] =>
        change (JSON.skip_ws (String "," r)) with (String "," r)
    end.
    cbv iota.
    rewrite (parse_members_blank lead _ f _ Hlead).
    rewrite IH; [ reflexivity | discriminate | ].
    repeat rewrite length_app. cbn [String.length]. lia.
Qed.

Lemma isNat_inv n : isNat n = true -> exists z, n = Num (z # 1) /\ (0 <= z)%Z.
Proof.
  destruct n as [ | [z [p | p | ]]]; simpl; try discriminate.
  intros H. exists z. split; [ reflexivity | now apply Z.leb_le ].
Qed.

Lemma wrapped_head gap cur o c items :
  exists t, wrapped gap cur (String o "") c items = String o t.
Proof.
  unfold wrapped. destruct items; [ | destruct (String.eqb gap "") ];
    cbn [append]; eauto.
Qed.

Lemma ser_opens gap cur v rest :
  plain v = true -> opens (JSON.ser gap cur v ++ rest) = true.
Proof.
  destruct v as [ | | [ | ] | n | s | xs | fs]; intros H; try discriminate H;
    try reflexivity.
  - apply isNat_inv in H as (z & -> & Hz).
    cbn [JSON.ser]. rewrite (toString_nat z Hz).
    destruct (of_Z_digits z Hz) as (d & -> & _ & Hnil & _).
    destruct d; [ now elim Hnil | reflexivity .. ].
  - rewrite ser_arr. destruct (wrapped_head gap cur "[" "]" (List.map (JSON.ser gap (cur ++ gap)) xs))
      as [t ->]. reflexivity.
  - cbn [plain] in H. apply andb_true_iff in H as [H _].
    rewrite (ser_obj _ _ _ H).
    destruct (wrapped_head gap cur "{" "}" (List.map (member gap (cur ++ gap)) fs))
      as [t ->]. reflexivity.
Qed.

Lemma opens_app s t : opens s = true -> opens (s ++ t) = true.
Proof. destruct s; [ discriminate | intros H; exact H ]. Qed.

Lemma join_opens sep gap inner x xs rest :
  plain x = true ->
  opens (JSON.join sep (List.map (JSON.ser gap inner) (x :: xs)) ++ rest) = true.
Proof.
  intros H. cbn [List.map JSON.join].
  destruct (List.map (JSON.ser gap inner) xs).
  - now apply ser_opens.
  - rewrite app_assoc_s. now apply ser_opens.
Qed.

Lemma member_opens gap inner kv rest : opens (member gap inner kv ++ rest) = true.
Proof.
  unfold member, JSON.quote, Str.quoted, Str.dq. reflexivity.
Qed.

Lemma join_member_opens sep gap inner kv fs rest :
  opens (JSON.join sep (List.map (member gap inner) (kv :: fs)) ++ rest) = true.
Proof.
  cbn [List.map JSON.join].
  destruct (List.map (member gap inner) fs).
  - apply member_opens.
  - rewrite app_assoc_s. apply member_opens.
Qed.

Lemma set_fresh k v acc :
  ~ In k (List.map fst acc) -> Obj.set k v acc = (acc ++ [(k, v)])%list.
Proof.
  induction acc as [ | [k' v'] acc IH]; simpl; intros H; [ reflexivity | ].
  destruct (String.eqb k k') eqn:E.
  - apply String.eqb_eq in E. subst k'. elim H. now left.
  - rewrite IH; [ reflexivity | ]. intros Hin. apply H. now right.
Qed.

Lemma existsb_eqb_In k ks : existsb (String.eqb k) ks = false -> ~ In k ks.
Proof.
  induction ks as [ | k' ks IH]; simpl; intros H; [ tauto | ].
  apply orb_false_iff in H as [Hk H]. intros [<- | Hin].
  - rewrite String.eqb_refl in Hk. discriminate Hk.
  - now apply IH.
Qed.

Lemma assign_unique fs : forall acc,
  uniqueKeys (List.map fst fs) = true ->
  (forall k, In k (List.map fst fs) -> ~ In k (List.map fst acc)) ->
  Obj.assign acc fs = (acc ++ fs)%list.
Proof.
  unfold Obj.assign.
  induction fs as [ | [k v] fs IH]; intros acc Hu Hd; simpl.
  - now rewrite List.app_nil_r.
  - simpl in Hu. apply andb_true_iff in Hu as [Hk Hu].
    apply negb_true_iff in Hk. apply existsb_eqb_In in Hk.
    rewrite set_fresh by (apply Hd; now left).
    rewrite IH; [ now rewrite <- List.app_assoc | exact Hu | ].
    intros k' Hin. rewrite map_app, in_app_iff. simpl. intros [Hacc | [<- | []]].
    + apply (Hd k'); [ now right | exact Hacc ].
    + exact (Hk Hin).
Qed.

Lemma blank_nl : jblank Str.nl = true.
Proof. reflexivity. Qed.

Ltac lens H :=
  cbn [append] in H; cbn [append];
  repeat rewrite length_app in H; repeat rewrite length_app;
  cbn [String.length] in H; cbn [String.length];
  repeat rewrite length_app in H; repeat rewrite length_app;
  cbn [String.length] in H; cbn [String.length]; lia.

Theorem plain_readsBack v : plain v = true -> readsBack v.
Proof.
  induction v as [ | | b | n | s | xs IH | fs IH] using value_ind';
    intros Hp gap cur rest fuel Hgap Hcur Hrest Hlen;
    (destruct fuel as [ | f]; [ lia | ]); rewrite parse_value_S.
  - discriminate Hp.
  - destruct rest; reflexivity.
  - destruct b, rest; reflexivity.
  - apply isNat_inv in Hp as (z & -> & Hz).
    cbn [JSON.ser]. rewrite (toString_nat z Hz). now apply value_body_nat.
  - apply value_body_string.
  - assert (Hall : Forall (fun x => plain x = true /\ readsBack x) xs).
    { cbn [plain] in Hp. rewrite forallb_forall in Hp.
      rewrite Forall_forall in IH |- *. intros x Hx. split; auto. }
    rewrite ser_arr in *. unfold wrapped in *.
    destruct xs as [ | x xs].
    { reflexivity. }
    assert (Hpx : plain x = true).
    { inversion Hall as [ | ? ? [Hpx _] _]. exact Hpx. }
    cbn [List.map] in Hlen |- *. cbv iota in Hlen |- *.
    change (JSON.ser gap (cur ++ gap) x :: List.map (JSON.ser gap (cur ++ gap)) xs)
      with (List.map (JSON.ser gap (cur ++ gap)) (x :: xs)) in Hlen |- *.
    set (items := List.map (JSON.ser gap (cur ++ gap)) (x :: xs)) in *.
    destruct (String.eqb gap "") eqn:Eg.
    + apply String.eqb_eq in Eg. subst gap.
      repeat rewrite app_assoc_s. cbn [append].
      rewrite value_body_array.
      * rewrite skip_ws_opens by (apply join_opens; exact Hpx).
        assert (Hc' : jblank (cur ++ "") = true) by (rewrite app_nil_r_s; exact Hcur).
        pose proof (elements_ok "" (cur ++ "") "" "" (x :: xs) eq_refl Hc' eq_refl eq_refl
                      ltac:(discriminate) Hall f rest) as He.
        cbn [append] in He. fold items in He. rewrite He; [ reflexivity | ].
        lens Hlen.
      * rewrite skip_ws_opens; apply join_opens; exact Hpx.
    + repeat rewrite app_assoc_s. cbn [append].
      assert (Hinner : jblank (cur ++ gap) = true) by now apply jblank_app.
      assert (Hlead : jblank (Str.nl ++ cur ++ gap) = true) by now apply jblank_app.
      assert (Htail : jblank (Str.nl ++ cur) = true) by now apply jblank_app.
      set (J := JSON.join (String "," (Str.nl ++ cur ++ gap)) items).
      assert (Hskip : JSON.skip_ws
                        (Str.nl ++ cur ++ gap ++ J ++ Str.nl ++ cur ++ String "]" rest)
                      = (J ++ Str.nl ++ cur ++ String "]" rest)%string).
      { replace (Str.nl ++ cur ++ gap ++ J ++ Str.nl ++ cur ++ String "]" rest)%string
          with ((Str.nl ++ cur ++ gap) ++ J ++ Str.nl ++ cur ++ String "]" rest)%string
          by (now repeat rewrite app_assoc_s).
        rewrite (skip_ws_blank _ _ Hlead).
        apply skip_ws_opens. apply join_opens; exact Hpx. }
      rewrite value_body_array; rewrite Hskip; [ | apply join_opens; exact Hpx ].
      pose proof (elements_ok gap (cur ++ gap) (Str.nl ++ cur ++ gap) (Str.nl ++ cur) (x :: xs)
                    Hgap Hinner Hlead Htail ltac:(discriminate) Hall f rest) as He.
      fold items in He. repeat rewrite app_assoc_s in He. cbn [append] in He.
      fold J in He. rewrite He; [ reflexivity | ].
      unfold J. lens Hlen.
  - cbn [plain] in Hp. apply andb_true_iff in Hp as [Hp Hu].
    assert (Hall : Forall (fun kv => plain (snd kv) = true /\ readsBack (snd kv)) fs).
    { rewrite forallb_forall in Hp.
      rewrite Forall_forall in IH |- *. intros x Hx. split; auto. }
    rewrite (ser_obj _ _ _ Hp) in *. unfold wrapped in *.
    destruct fs as [ | kv fs].
    { reflexivity. }
    cbn [List.map] in Hlen |- *. cbv iota in Hlen |- *.
    change (member gap (cur ++ gap) kv :: List.map (member gap (cur ++ gap)) fs)
      with (List.map (member gap (cur ++ gap)) (kv :: fs)) in Hlen |- *.
    set (items := List.map (member gap (cur ++ gap)) (kv :: fs)) in *.
    assert (Hassign : Obj.assign [] (kv :: fs) = kv :: fs).
    { apply (assign_unique (kv :: fs) [] Hu). intros k _ []. }
    destruct (String.eqb gap "") eqn:Eg.
    + apply String.eqb_eq in Eg. subst gap.
      repeat rewrite app_assoc_s. cbn [append].
      rewrite value_body_object.
      * rewrite skip_ws_opens by apply join_member_opens.
        assert (Hc' : jblank (cur ++ "") = true) by (rewrite app_nil_r_s; exact Hcur).
        pose proof (members_ok "" (cur ++ "") "" "" (kv :: fs) eq_refl Hc' eq_refl eq_refl
                      ltac:(discriminate) Hall f rest []) as He.
        cbn [append] in He. fold items in He. rewrite He; [ now rewrite Hassign | ].
        lens Hlen.
      * rewrite skip_ws_opens; apply join_member_opens.
    + repeat rewrite app_assoc_s. cbn [append].
      assert (Hinner : jblank (cur ++ gap) = true) by now apply jblank_app.
      assert (Hlead : jblank (Str.nl ++ cur ++ gap) = true) by now apply jblank_app.
      assert (Htail : jblank (Str.nl ++ cur) = true) by now apply jblank_app.
      set (J := JSON.join (String "," (Str.nl ++ cur ++ gap)) items).
      assert (Hskip : JSON.skip_ws
                        (Str.nl ++ cur ++ gap ++ J ++ Str.nl ++ cur ++ String "}" rest)
                      = (J ++ Str.nl ++ cur ++ String "}" rest)%string).
      { replace (Str.nl ++ cur ++ gap ++ J ++ Str.nl ++ cur ++ String "}" rest)%string
          with ((Str.nl ++ cur ++ gap) ++ J ++ Str.nl ++ cur ++ String "}" rest)%string
          by (now repeat rewrite app_assoc_s).
        rewrite (skip_ws_blank _ _ Hlead).
        apply skip_ws_opens. apply join_member_opens. }
      rewrite value_body_object; rewrite Hskip; [ | apply join_member_opens ].
      pose proof (members_ok gap (cur ++ gap) (Str.nl ++ cur ++ gap) (Str.nl ++ cur) (kv :: fs)
                    Hgap Hinner Hlead Htail ltac:(discriminate) Hall f rest []) as He.
      fold items in He. repeat rewrite app_assoc_s in He. cbn [append] in He.
      fold J in He. rewrite He; [ now rewrite Hassign | ].
      unfold J. lens Hlen.
Qed.

Lemma delimited_jblank tail : jblank tail = true -> delimited tail = true.
Proof.
  destruct tail as [ | d tail]; intros Ht; [ reflexivity | ].
  unfold jblank in Ht. simpl in Ht. apply andb_true_iff in Ht as [Hd _].
  clear -Hd. destruct d as [[] [] [] [] [] [] [] []]; try discriminate Hd; reflexivity.
Qed.

Lemma skip_ws_all tail : jblank tail = true -> JSON.skip_ws tail = "".
Proof.
  intros H. rewrite <- (app_nil_r_s tail). now rewrite skip_ws_blank.
Qed.

(** What JSON.stringify writes, JSON.parse reads back, with or without
    indentation and whatever white space follows. *)
Lemma parse_string_ser gap v tail :
  plain v = true -> jblank gap = true -> jblank tail = true ->
  JSON.parse_string (JSON.ser gap "" v ++ tail) = Ok v.
Proof.
  intros Hp Hgap Htail. unfold JSON.parse_string.
  rewrite (plain_readsBack v Hp gap "" tail); try assumption; try reflexivity.
  - now rewrite skip_ws_all.
  - now apply delimited_jblank.
  - rewrite length_app. lia.
Qed.

Lemma parse_stringify2 v st :
  plain v = true -> JSON.parse (JSON.stringify2 v) st = (Ok v, st).
Proof.
  intros Hp. unfold JSON.parse, lift, JSON.stringify2.
  destruct v; try discriminate Hp; cbn [JS.toString];
    match goal with
    | |- (JSON.parse_string ?s, _) = _ =>
        rewrite <- (app_nil_r_s s); rewrite (parse_string_ser "  " _ "" Hp eq_refl eq_refl)
    end; reflexivity.
Qed.

(** X27. The line callFDAMCPTool writes to the process parses back to the
    request {jsonrpc, id, method, params: {name, arguments}}, for every tool
    name and every arguments value that JSON carries unchanged; the name and
    the arguments the server reads are the ones of the call. *)
Theorem request_line_round_trip toolName args :
  plain args = true ->
  JSON.parse_string (FDA.requestLine toolName args) = Ok (FDA.mcpRequest toolName args)
  /\ JS.get (JS.get (FDA.mcpRequest toolName args) "params") "name" = VStr toolName
  /\ JS.get (JS.get (FDA.mcpRequest toolName args) "params") "arguments" = args.
Proof.
  intros Hp. split; [ | split; reflexivity ].
  assert (Hreq : plain (FDA.mcpRequest toolName args) = true).
  { unfold FDA.mcpRequest. cbn. rewrite Hp. reflexivity. }
  unfold FDA.requestLine.
  change (JSON.stringify (FDA.mcpRequest toolName args))
    with (VStr (JSON.ser "" "" (FDA.mcpRequest toolName args))).
  cbn [JS.add JS.stringy orb JS.toString].
  apply (parse_string_ser "" _ Str.nl Hreq eq_refl eq_refl).
Qed.

End JsonRoundTrip.

(** ** The server and the activity, composed *)

Lemma runs_ret I {A} (Q : A -> Prop) a : Q a -> runs I Q (ret a).
Proof. intros H st HI. exists a, st. auto. Qed.

Lemma runs_bind I {A B} (P : A -> Prop) (Q : B -> Prop) (m : M A) (k : A -> M B) :
  runs I P m -> (forall a, P a -> runs I Q (k a)) -> runs I Q (bind m k).
Proof.
  intros Hm Hk st HI. destruct (Hm st HI) as (a & st1 & E & HI1 & HP).
  destruct (Hk a HP st1 HI1) as (b & st2 & E2 & HI2 & HQ).
  exists b, st2. rewrite (bind_ok _ _ _ _ _ E). auto.
Qed.

Lemma runs_forEach I {A} (P : A -> Prop) (f : A -> M unit) xs :
  (forall x, P x -> runs I (fun _ => True) (f x)) ->
  Forall P xs -> runs I (fun _ => True) (forEach f xs).
Proof.
  intros Hf. induction 1 as [ | x xs Hx _ IH]; simpl.
  - now apply runs_ret.
  - eapply runs_bind; [ apply (Hf x Hx) | intros _ _; exact IH ].
Qed.

Lemma runs_stamped env recs fields :
  runs (Recs recs) (fun _ => True) (FDA.stamped env fields).
Proof.
  intros st HI. unfold FDA.stamped, bind, Date_toISOString, ret. simpl.
  do 2 eexists. split; [ reflexivity | ]. split; [ exact HI | exact I ].
Qed.

Lemma runs_push_issues recs f : runs (Recs recs) (fun _ => True) (push "issues" f).
Proof.
  intros st [[l Hl] Hr]. unfold push, bind, getVar. rewrite Hl. unfold setVar.
  do 2 eexists. split; [ reflexivity | ]. split; [ | exact I ].
  split; simpl.
  - eexists. apply lookup_set_same.
  - rewrite lookup_set_other by reflexivity. exact Hr.
Qed.

Lemma yields_mapM {A B} (P : A -> Prop) (Q : B -> Prop) (f : A -> M B) xs :
  (forall x, P x -> yields Q (f x)) -> Forall P xs ->
  yields (fun ys => Forall Q ys /\ List.length ys = List.length xs) (mapM f xs).
Proof.
  intros Hf. induction 1 as [ | x xs Hx _ IH]; simpl.
  - apply yields_ret. auto.
  - eapply yields_bind; [ apply (Hf x Hx) | ]. intros y Hy.
    eapply yields_bind; [ exact IH | ]. intros ys [Hys Hlen].
    apply yields_ret. simpl. auto.
Qed.

Lemma map_VStr_plain ws : forallb plain (List.map VStr ws) = true.
Proof. induction ws; simpl; auto. Qed.

Lemma validation_plain v : validation v -> plain v = true.
Proof.
  intros (name & b & g & level & ws & notes & at_ & -> & _).
  cbn. now rewrite !map_VStr_plain.
Qed.

Lemma isNat_of_nat n : isNat (Number.of_nat n) = true.
Proof. unfold Number.of_nat, Number.of_Z, inject_Z, isNat. apply Z.leb_le. lia. Qed.

Lemma validateOne_validation world name :
  findsBool world -> yields validation (Server.validateOne world (VStr name)).
Proof.
  intros Hw st. destruct (Hw (VStr name) st) as (r & b & st1 & Es & Hr & Hb).
  unfold Server.validateOne.
  eexists. eexists. split.
  - apply try_catch_ok. rewrite (bind_ok _ _ _ _ _ Es).
    unfold Server.checkGRASStatus, Server.performSafetyCheck, Server.toLowerCase.
    cbn [bind ret]. rewrite (bind_ok _ _ _ _ _ (getProp_ok _ _ _ Hr)). rewrite Hb.
    unfold Date_toISOString, bind, ret. reflexivity.
  - set (g := existsb _ Server.knownGRAS).
    set (al := filter _ Server.majorAllergens).
    set (c1 := (_ || Str.includes _ "yellow dye")%bool).
    set (c2 := (_ || Str.includes _ "bha")%bool).
    clearbody g al c1 c2.
    exists name, b, (if g then "GRAS" else "REQUIRES_REVIEW"),
      (match al, c1 with [], false => "SAFE" | _, _ => "WARNING" end),
      (List.app
         (List.map (fun allergen => "Contains " ++ allergen
                                    ++ " - Major allergen requiring disclosure") al)
         (if c1 then ["Contains artificial additives - verify FDA approval status"]
          else [])),
      (if c2
       then ["Contains preservatives - generally recognized as safe in specified amounts"]
       else []).
    eexists. split; [ | now destruct g ].
    rewrite map_app, map_map.
    destruct al, c1, c2; reflexivity.
Qed.

Lemma Forall_forallb {A} (P : A -> Prop) (p : A -> bool) xs :
  (forall x, P x -> p x = true) -> Forall P xs -> forallb p xs = true.
Proof. intros H. induction 1; simpl; [ reflexivity | ]. rewrite H by assumption. assumption. Qed.

Lemma validateIngredients_payload world names :
  findsBool world ->
  yields (fun r => exists results summary,
            r = Server.textContent (JSON.stringify2 (ingredientsPayload results summary))
            /\ Forall validation results
            /\ plain (ingredientsPayload results summary) = true)
         (Server.validateIngredients world (VArr (List.map VStr names))).
Proof.
  intros Hw. unfold Server.validateIngredients, Server.iterate.
  eapply (yields_bind (fun x => x = List.map VStr names));
    [ apply yields_ret; reflexivity | intros ? -> ].
  eapply yields_bind.
  - apply (yields_mapM (fun v => exists name, v = VStr name) validation).
    + intros x [name ->]. now apply validateOne_validation.
    + clear. induction names; simpl; constructor; eauto.
  - intros results [Hres _]. apply yields_ret.
    do 2 eexists. split; [ reflexivity | ]. split; [ exact Hres | ].
    cbn. rewrite (Forall_forallb _ _ _ validation_plain Hres).
    unfold Server.count.
    repeat match goal with
           | |- context [(0 <=? Z.of_nat ?n)%Z] =>
               replace (0 <=? Z.of_nat n)%Z with true by (symmetry; apply Z.leb_le; lia)
           end.
    reflexivity.
Qed.

Section Activity.
Variable env : Env.

Lemma runs_perValidationResult recs v :
  validation v -> runs (Recs recs) (fun _ => True) (FDA.perValidationResult env v).
Proof.
  intros (name & b & g & level & ws & notes & at_ & -> & Hg).
  unfold FDA.perValidationResult.
  eapply (runs_bind _ (fun x => x = VBool b)); [ apply runs_ret; reflexivity | intros ? -> ].
  eapply (runs_bind _ (fun _ => True)).
  { destruct (negb _); [ | now apply runs_ret ].
    eapply runs_bind; [ apply runs_stamped | intros f _; apply runs_push_issues ]. }
  intros _ _. eapply (runs_bind _ (fun _ => True)).
  { destruct (JS.truthy _); [ | now apply runs_ret ].
    cbn [JS.get Obj.lookup String.eqb Ascii.eqb Bool.eqb FDA.valueForEach].
    apply (runs_forEach _ (fun _ => True)); [ | apply Forall_forall; auto ].
    intros w _. eapply runs_bind; [ apply runs_stamped | intros f _; apply runs_push_issues ]. }
  intros _ _.
  replace (JS.truthy _) with true; [ now apply runs_ret | ].
  cbn. destruct g; [ now elim Hg | reflexivity ].
Qed.

Lemma processFDAResult_summary results summary recs st :
  Forall validation results -> Recs recs st ->
  exists st' f,
    FDA.processFDAResult env (ingredientsPayload results summary) st = (Ok tt, st')
    /\ Recs (recs ++ [f]) st'
    /\ JS.get f "type" = VStr "FDA_VALIDATION_SUMMARY"
    /\ JS.get f "severity" = VStr "INFO".
Proof.
  intros Hres HI. unfold FDA.processFDAResult.
  cbn [getProp ingredientsPayload].
  assert (H1 : runs (Recs recs) (fun _ => True)
                 (FDA.valueForEach "parsedResult.validationResults" (VArr results)
                    (FDA.perValidationResult env))).
  { apply (runs_forEach _ validation); [ | exact Hres ].
    intros x Hx. now apply runs_perValidationResult. }
  destruct (H1 st HI) as ([] & st1 & E1 & [[l Hl] Hr] & _).
  cbn -[FDA.valueForEach FDA.stamped push]. rewrite (bind_ok _ _ _ _ _ E1).
  unfold FDA.stamped, push, getVar, Date_toISOString, bind, ret. cbn [store].
  rewrite Hr. unfold setVar. cbn [store ticks trace].
  do 2 eexists. split; [ reflexivity | ]. split.
  { split; unfold isArr; cbn [store].
    - exists l. rewrite lookup_set_other by reflexivity. exact Hl.
    - apply lookup_set_same. }
  split; reflexivity.
Qed.

End Activity.

Lemma Recs_store recs st st' : store st' = store st -> Recs recs st -> Recs recs st'.
Proof. unfold Recs, isArr. now intros ->. Qed.

Lemma readResponse_summary env response results summary recs st :
  JS.nullish response = false ->
  JS.get response "result"
  = Server.textContent (JSON.stringify2 (ingredientsPayload results summary)) ->
  Forall validation results ->
  plain (ingredientsPayload results summary) = true ->
  Recs recs st ->
  exists st' f,
    FDA.readResponse env response st = (Ok tt, st')
    /\ Recs (recs ++ [f]) st'
    /\ JS.get f "type" = VStr "FDA_VALIDATION_SUMMARY"
    /\ JS.get f "severity" = VStr "INFO".
Proof.
  intros Hn Hres Hval Hp [[l Hl] Hr].
  set (st1 := mkState (ticks st) (trace st) (Obj.set "fdaValidationResult" response (store st))).
  assert (H1 : Recs recs st1).
  { split; unfold isArr; simpl; [ exists l | ]; now rewrite lookup_set_other by reflexivity. }
  destruct (processFDAResult_summary env results summary recs st1 Hval H1)
    as (st' & f & E & HI & Ht & Hs).
  exists st', f. split; [ | auto ].
  unfold FDA.readResponse.
  unfold bind at 1. unfold setVar at 1. fold st1.
  rewrite (bind_ok _ _ _ _ _ (getProp_ok _ _ _ Hn)). rewrite Hres.
  change (JSON.stringify2 (ingredientsPayload results summary))
    with (VStr (JSON.ser "  " "" (ingredientsPayload results summary))).
  cbn -[JSON.ser JSON.parse FDA.processFDAResult].
  change (VStr (JSON.ser "  " "" (ingredientsPayload results summary)))
    with (JSON.stringify2 (ingredientsPayload results summary)).
  apply try_catch_ok. rewrite (bind_ok _ _ _ _ _ (parse_stringify2 _ _ Hp)). exact E.
Qed.

(** X28. For every list of ingredient names the server validated (each
    search answering with a boolean found), with the server's result under
    response.result: the activity's processing returns with exactly one
    recommendation, the INFO FDA_VALIDATION_SUMMARY. The GRAS recommendation
    is never made, whatever the GRAS status of the ingredients. *)
Theorem review_status_is_never_recommended world env names srv result srv' response st :
  findsBool world ->
  Server.validateIngredients world (VArr (List.map VStr names)) srv = (Ok result, srv') ->
  resolvesWith env "validate_ingredients"
    (Obj.literal [("ingredients", VArr (List.map VStr names))]) response ->
  JS.nullish response = false ->
  JS.get response "result" = result ->
  Recs [] st ->
  exists st' f,
    FDA.queryFDA env (VArr (List.map VStr names)) st = (Ok tt, st')
    /\ Obj.lookup "recommendations" (store st') = Some (VArr [f])
    /\ JS.get f "type" = VStr "FDA_VALIDATION_SUMMARY"
    /\ JS.get f "severity" = VStr "INFO".
Proof.
  intros Hw Hsrv Hcall Hn Hres HI.
  destruct (validateIngredients_payload world names Hw srv)
    as (r & s & E & results & summary & -> & Hval & Hp).
  rewrite Hsrv in E. injection E as -> _.
  set (st1 := mkState (ticks st)
                (trace st ++ callActions "validate_ingredients"
                               (Obj.literal [("ingredients", VArr (List.map VStr names))]))%list
                (store st)).
  destruct (readResponse_summary env response results summary [] st1 Hn Hres Hval Hp
              (Recs_store _ st st1 eq_refl HI))
    as (st' & f & E & [_ Hr] & Ht & Hs).
  exists st', f. split; [ | auto ].
  unfold FDA.queryFDA. apply try_catch_ok.
  erewrite bind_ok; [ exact E | ].
  apply callFDAMCPTool_settled. exact Hcall.
Qed.

Lemma mockWorld_findsBool : findsBool mockWorld.
Proof.
  intros v st. eexists. exists true. eexists.
  split; [ reflexivity | ]. split; reflexivity.
Qed.

(** ** The last line of the output *)

Lemma allChars_app p a b : allChars p (a ++ b) = (allChars p a && allChars p b)%bool.
Proof. induction a as [ | c a IH]; simpl; [ reflexivity | ]. rewrite IH. apply andb_assoc. Qed.

Lemma rev_onto_app s acc : Str.rev_onto s acc = Str.rev s ++ acc.
Proof.
  unfold Str.rev. revert acc. induction s as [ | c s IH]; intros acc; simpl; [ reflexivity | ].
  rewrite (IH (String c acc)), (IH (String c "")). now rewrite app_assoc_s.
Qed.

Lemma rev_app a b : Str.rev (a ++ b) = Str.rev b ++ Str.rev a.
Proof.
  induction a as [ | c a IH]; simpl.
  - now rewrite app_nil_r_s.
  - unfold Str.rev. simpl. rewrite !(rev_onto_app _ (String c "")).
    fold (Str.rev (a ++ b)). rewrite IH. fold (Str.rev a). now rewrite app_assoc_s.
Qed.

Lemma trimStart_app a b :
  Str.trimStart (a ++ b) = if blank a then Str.trimStart b else Str.trimStart a ++ b.
Proof.
  induction a as [ | c a IH]; simpl; [ reflexivity | ].
  unfold blank in *. simpl. destruct (Str.is_ws c); simpl; [ exact IH | reflexivity ].
Qed.

Lemma trimStart_solid c t : solid c = true -> Str.trimStart (String c t) = String c t.
Proof. unfold solid. simpl. now destruct (Str.is_ws c). Qed.

(** Trimming strips the white space after a tight text, and nothing of
    it. *)
Lemma trim_tight a s w :
  tight s -> blank w = true ->
  Str.trim (a ++ s ++ w) = (if blank a then "" else Str.trimStart a) ++ s.
Proof.
  intros [(c & t & Hs & Hc) (d & u & Hr & Hd)] Hw. unfold Str.trim.
  assert (E : Str.trimStart (a ++ s ++ w)
              = (if blank a then "" else Str.trimStart a) ++ s ++ w).
  { rewrite trimStart_app. destruct (blank a); [ | reflexivity ].
    rewrite Hs. simpl append. now rewrite trimStart_solid. }
  rewrite E. set (Y := if blank a then "" else Str.trimStart a).
  rewrite <- app_assoc_s, rev_app, trimStart_app.
  replace (blank (Str.rev w)) with true
    by (symmetry; unfold blank; now rewrite allChars_rev).
  rewrite rev_app, Hr. simpl append. rewrite trimStart_solid by exact Hd.
  change (String d (u ++ Str.rev Y)) with (String d u ++ Str.rev Y).
  rewrite <- Hr, <- rev_app. apply rev_rev.
Qed.

Lemma split_lines_line s : allChars not_nl s = true -> Str.split_lines s = [s].
Proof.
  induction s as [ | c t IH]; simpl; intros H; [ reflexivity | ].
  apply andb_true_iff in H as [Hc Ht]. unfold not_nl in Hc.
  destruct (Nat.eqb (nat_of_ascii c) 10); [ discriminate | ].
  now rewrite (IH Ht).
Qed.

Lemma split_lines_last p s :
  allChars not_nl s = true ->
  exists l ls, Str.split_lines (p ++ Str.nl ++ s) = (l :: ls ++ [s])%list.
Proof.
  intros H. induction p as [ | c p (l & ls & IH)].
  - exists "", []. simpl. now rewrite (split_lines_line s H).
  - cbn [append Str.split_lines]. rewrite IH.
    destruct (Nat.eqb (nat_of_ascii c) 10).
    + exists "", (l :: ls). reflexivity.
    + exists (String c l), ls. reflexivity.
Qed.

Lemma last_snoc {A} (l : A) ls x d : List.last (l :: ls ++ [x])%list d = x.
Proof.
  revert l. induction ls as [ | y ls IH]; intros l; [ reflexivity | ].
  change (List.last (y :: ls ++ [x])%list d = x). apply IH.
Qed.

(** The last line of what remains after trimming. *)
Lemma last_line logs line :
  endsLine logs -> tight line -> allChars not_nl line = true ->
  List.last (Str.split_lines (Str.trim (logs ++ line ++ Str.nl))) "" = line.
Proof.
  intros Hlogs Ht Hline. rewrite (trim_tight logs line Str.nl Ht eq_refl).
  destruct (blank logs) eqn:Hb.
  - simpl append. now rewrite (split_lines_line line Hline).
  - destruct Hlogs as [-> | [pre ->]]; [ discriminate Hb | ].
    rewrite trimStart_app. destruct (blank pre) eqn:Hp.
    + unfold blank in Hb. rewrite allChars_app in Hb. unfold blank in Hp.
      rewrite Hp in Hb. discriminate Hb.
    + rewrite app_assoc_s.
      destruct (split_lines_last (Str.trimStart pre) line Hline) as (l & ls & ->).
      apply last_snoc.
Qed.

(** ** What JSON.stringify writes is one tight line *)

Lemma digit_solid c : Str.is_digit c = true -> solid c = true /\ not_nl c = true.
Proof. destruct c as [[] [] [] [] [] [] [] []]; intros H; try discriminate H; split; reflexivity. Qed.

Lemma uint_digits d : allChars Str.is_digit (NilEmpty.string_of_uint d) = true.
Proof. induction d; simpl; auto. Qed.

Lemma allChars_weaken (p q : ascii -> bool) s :
  (forall c, p c = true -> q c = true) -> allChars p s = true -> allChars q s = true.
Proof.
  intros H. induction s as [ | c t IH]; simpl; intros Hs; [ reflexivity | ].
  apply andb_true_iff in Hs as [Hc Ht]. now rewrite (H c Hc), IH.
Qed.

Lemma allChars_tight (p : ascii -> bool) s :
  (forall c, p c = true -> solid c = true) -> allChars p s = true -> s <> "" -> tight s.
Proof.
  intros H Hs Hne. split.
  - destruct s as [ | c t]; [ now elim Hne | ]. simpl in Hs.
    apply andb_true_iff in Hs as [Hc _]. eauto.
  - assert (Hr : allChars p (Str.rev s) = true) by now rewrite allChars_rev.
    destruct (Str.rev s) as [ | d u] eqn:E.
    + apply (f_equal Str.rev) in E. rewrite rev_rev in E. now elim Hne.
    + simpl in Hr. apply andb_true_iff in Hr as [Hd _]. eauto.
Qed.

Lemma bracketed_tight o c m :
  solid o = true -> solid c = true -> tight (String o (m ++ String c "")).
Proof.
  intros Ho Hc. split; [ eauto | ].
  change (String o (m ++ String c "")) with (String o m ++ String c "").
  rewrite rev_app. simpl. eauto.
Qed.

Lemma escape_line s : allChars not_nl (JSON.escape s) = true.
Proof.
  induction s as [ | c t IH]; [ reflexivity | ].
  destruct c as [[] [] [] [] [] [] [] []]; cbn; exact IH.
Qed.

Lemma join_line sep items :
  allChars not_nl sep = true ->
  Forall (fun s => allChars not_nl s = true) items ->
  allChars not_nl (JSON.join sep items) = true.
Proof.
  intros Hsep. induction 1 as [ | x xs Hx Hxs IH]; [ reflexivity | ].
  destruct xs as [ | y ys]; [ exact Hx | ].
  change (JSON.join sep (x :: y :: ys)) with (x ++ sep ++ JSON.join sep (y :: ys)).
  now rewrite !allChars_app, Hx, Hsep, IH.
Qed.

Lemma wrapped_line cur o c items :
  not_nl o = true -> not_nl c = true ->
  Forall (fun s => allChars not_nl s = true) items ->
  allChars not_nl (wrapped "" cur (String o "") (String c "") items) = true.
Proof.
  intros Ho Hc Hitems. unfold wrapped. destruct items as [ | x xs].
  - simpl. now rewrite Ho, Hc.
  - cbn [String.eqb]. rewrite !allChars_app. simpl allChars at 1.
    rewrite Ho, (join_line "," _ eq_refl Hitems). simpl. now rewrite Hc.
Qed.

Lemma wrapped_tight cur o c items :
  solid o = true -> solid c = true ->
  tight (wrapped "" cur (String o "") (String c "") items).
Proof.
  intros Ho Hc. unfold wrapped. destruct items as [ | x xs].
  - apply (bracketed_tight o c "" Ho Hc).
  - cbn [String.eqb]. apply (bracketed_tight o c _ Ho Hc).
Qed.

Lemma nat_line z : (0 <= z)%Z -> allChars not_nl (Str.of_Z z) = true /\ tight (Str.of_Z z).
Proof.
  intros Hz. destruct (of_Z_digits z Hz) as (d & -> & _ & Hnil & _). split.
  - apply (allChars_weaken Str.is_digit); [ intros c Hc; apply (digit_solid c Hc) | ].
    apply uint_digits.
  - apply (allChars_tight Str.is_digit); [ intros c Hc; apply (digit_solid c Hc) | | ].
    + apply uint_digits.
    + destruct d; [ now elim Hnil | discriminate .. ].
Qed.

Lemma quote_line s : allChars not_nl (JSON.quote s) = true.
Proof.
  unfold JSON.quote, Str.quoted. rewrite !allChars_app, escape_line. reflexivity.
Qed.

(** The compact form of a value is written on one line. *)
Lemma ser_compact_line v : plain v = true -> forall cur, allChars not_nl (JSON.ser "" cur v) = true.
Proof.
  induction v as [ | | b | n | s | xs IH | fs IH] using value_ind'; intros Hp cur;
    try discriminate Hp.
  - reflexivity.
  - destruct b; reflexivity.
  - apply isNat_inv in Hp as (z & -> & Hz). cbn [JSON.ser].
    rewrite (toString_nat z Hz). apply (nat_line z Hz).
  - apply quote_line.
  - rewrite ser_arr. apply wrapped_line; try reflexivity.
    cbn [plain] in Hp. clear -IH Hp. induction IH as [ | x xs Hx _ IHxs]; simpl.
    + constructor.
    + cbn [forallb] in Hp. apply andb_true_iff in Hp as [Hpx Hpxs]. constructor; auto.
  - cbn [plain] in Hp. apply andb_true_iff in Hp as [Hp _].
    rewrite (ser_obj _ _ _ Hp). apply wrapped_line; try reflexivity.
    clear -IH Hp. induction IH as [ | [k x] fs Hx _ IHfs]; simpl.
    + constructor.
    + cbn [forallb snd] in Hp. apply andb_true_iff in Hp as [Hpx Hpfs].
      constructor; [ | auto ]. unfold member. cbn [fst snd String.eqb].
      rewrite !allChars_app, quote_line. simpl. apply (Hx Hpx).
Qed.

(** It has neither leading nor trailing white space. *)
Lemma ser_compact_tight v : plain v = true -> forall cur, tight (JSON.ser "" cur v).
Proof.
  destruct v as [ | | [ | ] | n | s | xs | fs]; intros Hp cur; try discriminate Hp.
  - split; do 2 eexists; split; reflexivity.
  - split; do 2 eexists; split; reflexivity.
  - split; do 2 eexists; split; reflexivity.
  - apply isNat_inv in Hp as (z & -> & Hz). cbn [JSON.ser].
    rewrite (toString_nat z Hz). apply (nat_line z Hz).
  - apply (bracketed_tight dqc dqc (JSON.escape s)); reflexivity.
  - rewrite ser_arr. apply wrapped_tight; reflexivity.
  - cbn [plain] in Hp. apply andb_true_iff in Hp as [Hp _].
    rewrite (ser_obj _ _ _ Hp). apply wrapped_tight; reflexivity.
Qed.

(** ** The call resolves with the last line of the output *)

Lemma step_stdout events p :
  existsb closes events = false ->
  existsb unhandled events = false ->
  FDA.crashed p = None ->
  exists err,
    fold_left FDA.step events p
    = FDA.mkPipe (FDA.stdout p ++ stdoutOf events) err (FDA.settled p) None.
Proof.
  revert p. induction events as [ | ev events IH]; intros p H Hu Hc.
  - exists (FDA.stderr p). simpl. rewrite app_nil_r_s. destruct p. simpl in Hc.
    now rewrite Hc.
  - simpl in H, Hu. apply orb_false_iff in H as [Hev H].
    apply orb_false_iff in Hu as [Huv Hu].
    cbn [fold_left]. unfold FDA.step at 2. rewrite Hc.
    destruct ev; try discriminate Hev; try discriminate Huv; cbn [stdoutOf];
      match goal with
      | |- context [fold_left FDA.step events ?q] =>
          destruct (IH q H Hu) as [err ->]; [ first [ reflexivity | exact Hc ] | ]
      end;
      exists err; cbn [FDA.stdout FDA.settled]; try reflexivity.
    now rewrite app_assoc_s.
Qed.

(** X29. When the process closes with code 0, no ['error'] event having
    come, after writing to its stdout ASCII text, in any chunks and
    whatever else happened, that consists of complete lines followed by
    the JSON.stringify text of a value and a line feed, callFDAMCPTool
    resolves with that value: the lines before the last are ignored.
    (The text being ASCII, it does not depend on where the output is
    split.) *)
Theorem last_line_is_the_response env toolName args events logs v st :
  child env (FDA.requestLine toolName args) = (events ++ [Close (VNum (Num 0))])%list ->
  existsb closes events = false ->
  existsb unhandled events = false ->
  allChars ascii7 (stdoutOf events) = true ->
  stdoutOf events = logs ++ JS.toString (JSON.stringify v) ++ Str.nl ->
  endsLine logs ->
  plain v = true ->
  FDA.callFDAMCPTool env toolName args st
  = (Ok v, mkState (ticks st) (trace st ++ callActions toolName args)%list (store st)).
Proof.
  intros Hchild Hev Hun _ Hout Hlogs Hp.
  apply callFDAMCPTool_settled. rewrite Hchild, fold_left_app.
  destruct (step_stdout events FDA.pipe0 Hev Hun eq_refl) as [err ->].
  cbn [fold_left FDA.pipe0 FDA.stdout append]. unfold FDA.step.
  cbn [FDA.crashed FDA.settled FDA.stdout].
  unfold FDA.on_close. cbn [FDA.stdout FDA.not_zero].
  rewrite Hout.
  assert (Hs : JS.toString (JSON.stringify v) = JSON.ser "" "" v)
    by (destruct v; try discriminate Hp; reflexivity).
  rewrite Hs.
  rewrite (last_line logs _ Hlogs (ser_compact_tight v Hp "")
             (ser_compact_line v Hp "")).
  rewrite <- (app_nil_r_s (JSON.ser "" "" v)).
  rewrite (parse_string_ser "" v "" Hp eq_refl eq_refl). reflexivity.
Qed.

(** ** The stages return once the external calls settle *)

Lemma returns_object {A} (Q : A -> Prop) (m : M A) st :
  safe m -> settles m -> post Q m -> exists a st', m st = (Ok a, st') /\ Q a.
Proof.
  intros Hs Hp Hq. specialize (Hs st). specialize (Hp st).
  destruct (m st) as [[a | e | ] s1] eqn:E.
  - exists a, s1. split; [ reflexivity | exact (Hq st a s1 E) ].
  - exfalso. apply Hs. exists e. reflexivity.
  - now elim Hp.
Qed.

Lemma settles_setVar x v : settles (setVar x v).
Proof. intros st. discriminate. Qed.

Lemma settles_getVar x : settles (getVar x).
Proof. intros st. discriminate. Qed.

Lemma settles_push x v : settles (push x v).
Proof.
  unfold push. apply settles_bind; [ apply settles_getVar | intros a ].
  destruct a; auto using settles_throw, settles_setVar.
Qed.

Lemma settles_forEach {A} (f : A -> M unit) xs :
  (forall x, settles (f x)) -> settles (forEach f xs).
Proof.
  intros Hf. induction xs as [ | x xs IH]; simpl.
  - apply settles_ret.
  - apply settles_bind; [ apply Hf | intros _; exact IH ].
Qed.

Lemma settles_filterM {A} (p : A -> M bool) xs :
  (forall x, settles (p x)) -> settles (OCR.filterM p xs).
Proof.
  intros Hp. induction xs as [ | x xs IH]; simpl.
  - apply settles_ret.
  - apply settles_bind; [ apply Hp | intros b ].
    apply settles_bind; [ exact IH | intros; apply settles_ret ].
Qed.

Lemma settles_sumConfidence xs : forall sum, settles (OCR.sumConfidence sum xs).
Proof.
  induction xs as [ | x xs IH]; intros sum; simpl.
  - apply settles_ret.
  - apply settles_bind; [ apply settles_getProp | intros c; apply IH ].
Qed.

Lemma settles_destructure_from name src k dflt :
  settles (destructure_from name src k dflt).
Proof. destruct src; simpl; auto using settles_ret, settles_throw. Qed.

Lemma settles_asArray expr method v : settles (OCR.asArray expr method v).
Proof.
  unfold OCR.asArray. destruct (JS.or v (VArr [])); auto using settles_ret, settles_not_a_function.
Qed.

#[local] Hint Resolve settles_setVar settles_getVar settles_push settles_emit
  settles_destructure_from settles_asArray settles_trim settles_getIndex
  settles_parse settles_sumConfidence settles_asString : settles.

Lemma settles_performOCR env labelData :
  (forall imageSource, recognize env imageSource <> Pending) ->
  settles (OCR.performOCR env labelData).
Proof.
  intros H. unfold OCR.performOCR, OCR.wordEntry, OCR.lineText, OCR.lowConfidence.
  repeat first [ apply settles_lift; apply H
               | apply settles_filterM; intros
               | settles_step ].
Qed.

Lemma settles_parseAIResponse aiResponse fallbackText :
  settles (AI.parseAIResponse aiResponse fallbackText).
Proof.
  unfold AI.parseAIResponse.
  repeat first [ settles_step
               | match goal with
                 | |- settles (match ?o with Some _ => _ | None => _ end) => destruct o
                 end ].
Qed.

Lemma settles_performAIValidation env data :
  (forall request, anthropic env request <> Pending) ->
  (forall create request, openai env = Some create -> create request <> Pending) ->
  settles (AI.performAIValidation env data).
Proof.
  intros H1 H2. unfold AI.performAIValidation, AI.askProviders, AI.elapsedSince, destructure.
  repeat first [ apply settles_lift; apply H1
               | apply settles_parseAIResponse
               | match goal with
                 | |- settles (match openai env with Some _ => _ | None => _ end) =>
                     destruct (openai env) as [create | ] eqn:Eo
                 | |- settles (let '(_, _) := ?p in _) => destruct p as [[? ?] ?]
                 | |- settles (lift (?c _)) => apply settles_lift; now apply H2
                 end
               | settles_step ].
Qed.

Lemma settles_callFDAMCPTool env toolName args :
  (forall stdin, closesCleanly (child env stdin) = true) ->
  settles (FDA.callFDAMCPTool env toolName args).
Proof.
  intros H st. rewrite callFDAMCPTool_run. cbn [fst].
  pose proof (step_with_close _ FDA.pipe0 eq_refl (H (FDA.requestLine toolName args))) as Hs.
  pose proof (settled_not_pending (child env (FDA.requestLine toolName args)) FDA.pipe0) as Hn.
  destruct (FDA.settled _) as [[r | e | ] | ]; try discriminate.
  - exfalso. apply Hn; [ discriminate | reflexivity ].
  - now elim Hs.
Qed.

Lemma settles_stamped env fields : settles (FDA.stamped env fields).
Proof. unfold FDA.stamped. repeat settles_step. Qed.

Lemma settles_valueForEach expr xs f :
  (forall x, settles (f x)) -> settles (FDA.valueForEach expr xs f).
Proof.
  intros Hf. destruct xs; unfold FDA.valueForEach;
    repeat first [ apply settles_forEach; exact Hf | settles_step ].
Qed.

Lemma settles_validateIngredientsWithFDA env data :
  (forall stdin, closesCleanly (child env stdin) = true) ->
  settles (FDA.validateIngredientsWithFDA env data).
Proof.
  intros H.
  unfold FDA.validateIngredientsWithFDA, FDA.queryFDA, FDA.readResponse,
    FDA.processFDAResult, FDA.perValidationResult, destructure.
  repeat first [ apply settles_callFDAMCPTool; exact H
               | apply settles_stamped
               | apply settles_valueForEach; intros
               | settles_step ].
Qed.

Lemma validateIngredientsWithFDA_returns_object env data :
  post isObject (FDA.validateIngredientsWithFDA env data).
Proof. unfold FDA.validateIngredientsWithFDA, isObject. repeat post_step. Qed.

Lemma truthy_length (x : value) xs :
  JS.truthy (JS.get (VArr (x :: xs)) "length") = true.
Proof.
  cbn [JS.get String.eqb Ascii.eqb Bool.eqb JS.truthy Number.of_nat Number.of_Z].
  unfold inject_Z, Qeq_bool. cbn [Qnum Qden]. apply negb_true_iff.
  apply Z.eqb_neq. cbn [List.length]. lia.
Qed.

(** An ['error'] event before the close: the stage neither returns nor
    raises, and the last thing that happened is the uncaught error. *)
Lemma validateIngredientsWithFDA_dies env data x xs e st :
  JS.get data "ingredients" = VArr (x :: xs) ->
  diesWith env e ->
  fst (FDA.validateIngredientsWithFDA env data st) = Pending
  /\ exists before,
       trace (snd (FDA.validateIngredientsWithFDA env data st))
       = (before ++ [Uncaught e])%list.
Proof.
  intros Hing Hdies.
  assert (Hn : JS.nullish data = false) by (destruct data; try discriminate Hing; reflexivity).
  destruct (FDA.validateIngredientsWithFDA env data st) as [o s'] eqn:E.
  revert E. unfold FDA.validateIngredientsWithFDA, try_catch.
  unfold bind at 1. unfold Date_now at 1.
  rewrite (bind_ok _ _ _ _ _ (destructure_ok data "ingredients" (VArr []) _ Hn)), Hing.
  rewrite (bind_ok _ _ _ _ _ (destructure_ok data "extractedInformation" (VObj []) _ Hn)).
  rewrite (bind_ok _ _ _ _ _ (getProp_ok (VArr (x :: xs)) "length" _ eq_refl)).
  rewrite (truthy_length x xs). cbn [negb].
  unfold bind at 1, ret at 1.
  unfold bind at 1, setVar at 1. unfold bind at 1, setVar at 1. unfold bind at 1, setVar at 1.
  unfold bind at 1. unfold FDA.queryFDA, try_catch. unfold bind at 1.
  rewrite callFDAMCPTool_run.
  specialize (Hdies (FDA.requestLine "validate_ingredients"
                       (Obj.literal [("ingredients", VArr (x :: xs))]))).
  rewrite Hdies. unfold uncaught in Hdies.
  destruct (FDA.settled _); [ discriminate Hdies | ].
  intros E. injection E as <- <-. cbn [fst snd trace]. split; [ reflexivity | ].
  exists (trace st ++ callActions "validate_ingredients"
                        (Obj.literal [("ingredients", VArr (x :: xs))]))%list.
  rewrite <- app_assoc. reflexivity.
Qed.



(** ** The properties of this part at concrete inputs *)

Lemma workflow_only_approves_witness :
  exists r st',
    Workflow.labelValidationWorkflow reading mockImageData st0 = (Ok r, st')
    /\ JS.get r "status" = VStr "APPROVED"
    /\ JS.get (JS.get r "processingSteps") "complianceChecked" = VBool true.
Proof.
  assert (E : exists r st',
             Workflow.labelValidationWorkflow reading mockImageData st0 = (Ok r, st')).
  { vm_compute. do 2 eexists. reflexivity. }
  destruct E as (r & st' & E). exists r, st'. split; [ exact E | ].
  exact (workflow_only_approves reading mockImageData st0 r st' E).
Defined.

Lemma no_claims_no_call_witness :
  JS.nullish (VObj [("nutritionalInfo", VObj [])]) = false
  /\ emptyList (JS.get (VObj [("nutritionalInfo", VObj [])]) "claims")
  /\ exists r st' f,
       FDA.validateNutritionalClaimsWithFDA silent (VObj [("nutritionalInfo", VObj [])]) st0
       = (Ok r, st')
       /\ trace st' = trace st0
       /\ JS.get r "success" = VBool true
       /\ JS.get (JS.get r "fdaClaimsValidation") "claimsValidated" = VNum (Num 0)
       /\ JS.get (JS.get r "fdaClaimsValidation") "issues" = VArr []
       /\ JS.get (JS.get r "fdaClaimsValidation") "recommendations" = VArr [f]
       /\ JS.get f "type" = VStr "FDA_NO_CLAIMS"
       /\ JS.get f "severity" = VStr "INFO".
Proof.
  split; [ reflexivity | ]. split; [ left; reflexivity | ].
  exact (no_claims_no_call silent (VObj [("nutritionalInfo", VObj [])]) st0
           eq_refl (or_introl eq_refl)).
Defined.

Lemma blank_ingredient_is_GRAS_witness :
  blank "  " = true
  /\ Server.checkGRASStatus (VStr "  ") st0
     = (Ok (VObj [ ("status", VStr "GRAS");
                   ("confidence", VNum (Num (9 # 10)));
                   ("notes", VStr "Generally Recognized as Safe") ]), st0).
Proof.
  split; [ reflexivity | ].
  exact (blank_ingredient_is_GRAS "  " st0 eq_refl).
Defined.

Lemma recognized_claim_without_data_is_valid_witness :
  Obj.lookup "totalFat" [("calories", VStr "150")] = None
  /\ Obj.lookup "sodium" [("calories", VStr "150")] = None
  /\ Obj.lookup "dietaryFiber" [("calories", VStr "150")] = None
  /\ List.find (Str.includes (Str.toLowerCase "Low Sodium, Low Fat")) recognizedClaims
     = Some "low fat"
  /\ Server.validateSingleClaim (VStr "Low Sodium, Low Fat")
       (VObj [("calories", VStr "150")]) st0
     = (Ok (VObj [ ("claim", VStr "Low Sodium, Low Fat");
                   ("isValid", VBool true);
                   ("reason", VStr (Server.meets "low fat"));
                   ("fdaSource", VStr "FDA Nutrition Labeling Guidelines") ]), st0).
Proof.
  split; [ reflexivity | ]. split; [ reflexivity | ]. split; [ reflexivity | ].
  split; [ reflexivity | ].
  exact (recognized_claim_without_data_is_valid "Low Sodium, Low Fat"
           [("calories", VStr "150")] "low fat" st0 eq_refl eq_refl eq_refl eq_refl).
Defined.

Lemma detected_sections_are_lowered_lines_witness :
  let text := "Ingredients: Water, SUGAR" ++ Str.nl ++ "Contains milk" in
  JS.get (OCR.parseRegulatoryStructure text) "ingredients" <> VUndefined
  /\ In "ingredients" sectionNames
  /\ exists s, JS.get (OCR.parseRegulatoryStructure text) "ingredients" = VStr s
               /\ s <> ""
               /\ allChars not_nl s = true
               /\ Str.toLowerCase s = s.
Proof.
  intros text.
  assert (H : JS.get (OCR.parseRegulatoryStructure text) "ingredients" <> VUndefined)
    by (vm_compute; discriminate).
  split; [ exact H | ].
  exact (detected_sections_are_lowered_lines text "ingredients" H).
Defined.

Lemma performOCR_counts_witness :
  exists r st',
    OCR.performOCR reading mockImageData st0 = (Ok r, st')
    /\ JS.get r "success" = VUndefined
    /\ exists words lines low,
         JS.get r "words" = VArr words
         /\ JS.get r "totalWords" = VNum (Number.of_nat (List.length words))
         /\ JS.get r "lowConfidenceWords" = VNum (Number.of_nat low)
         /\ low <= List.length words
         /\ JS.get r "lines" = VArr lines
         /\ Forall nonEmptyText lines.
Proof.
  assert (E : exists r st',
             OCR.performOCR reading mockImageData st0 = (Ok r, st')
             /\ JS.get r "success" = VUndefined).
  { vm_compute. do 2 eexists. split; reflexivity. }
  destruct E as (r & st' & E & Hs). exists r, st'.
  split; [ exact E | ]. split; [ exact Hs | ].
  exact (performOCR_counts reading mockImageData st0 r st' E Hs).
Defined.

Lemma ingredient_issues_are_warnings_witness :
  exists r st',
    FDA.validateIngredientsWithFDA served
      (VObj [("ingredients", VArr [VStr "milk"; VStr "red dye 3"])]) st0 = (Ok r, st')
    /\ JS.get r "success" = VBool true
    /\ exists issues,
         JS.get (JS.get r "fdaValidation") "issues" = VArr issues
         /\ Forall isWarning issues
         /\ JS.get (JS.get (JS.get r "fdaValidation") "summary") "complianceIssues"
            = VNum (Num 0)
         /\ JS.get (JS.get (JS.get r "fdaValidation") "summary") "warnings"
            = VNum (Number.of_nat (List.length issues))
         /\ JS.get (JS.get (JS.get r "fdaValidation") "summary") "totalIssues"
            = VNum (Number.of_nat (List.length issues)).
Proof.
  assert (E : exists r st',
             FDA.validateIngredientsWithFDA served
               (VObj [("ingredients", VArr [VStr "milk"; VStr "red dye 3"])]) st0 = (Ok r, st')
             /\ JS.get r "success" = VBool true).
  { vm_compute. do 2 eexists. split; reflexivity. }
  destruct E as (r & st' & E & Hs). exists r, st'.
  split; [ exact E | ]. split; [ exact Hs | ].
  exact (ingredient_issues_are_warnings served _ st0 r st' E Hs).
Defined.


Lemma additive_status_is_read_at_top_level_witness :
  exists response fs,
    resolvesWith served "check_additive_status"
      (Obj.literal [("additive", VStr "citric acid")]) response
    /\ response = VObj fs
    /\ Obj.lookup "status" fs = None
    /\ exists r st',
         FDA.checkFoodAdditiveStatus served (VStr "citric acid") st0 = (Ok r, st')
         /\ JS.get r "success" = VBool true
         /\ JS.get (JS.get r "additiveValidation") "additive" = VStr "citric acid"
         /\ JS.get (JS.get r "additiveValidation") "status" = VStr "UNKNOWN"
         /\ JS.get (JS.get r "additiveValidation") "cfr" = JS.get response "cfr".
Proof.
  assert (E : exists response fs,
             resolvesWith served "check_additive_status"
               (Obj.literal [("additive", VStr "citric acid")]) response
             /\ response = VObj fs
             /\ Obj.lookup "status" fs = None).
  { vm_compute. do 2 eexists. split; [ reflexivity | ]. split; reflexivity. }
  destruct E as (response & fs & E & Hfs & Hs). exists response, fs.
  split; [ exact E | ]. split; [ exact Hfs | ]. split; [ exact Hs | ].
  exact (additive_status_is_read_at_top_level served (VStr "citric acid") st0 response fs
           E Hfs Hs).
Defined.



Lemma runSimpleOCR_reports_success_witness :
  let imageData := VObj [("filename", VStr "label.png"); ("buffer", VStr "PNG")] in
  JS.nullish imageData = false
  /\ loaded "../activities/ocr.js" = Ok tt
  /\ (forall src, exists e, recognize allFail src = Throw e)
  /\ (exists r st',
        Client.runSimpleOCR loaded allFail imageData st0 = (Ok r, st')
        /\ JS.get r "success" = VBool true
        /\ JS.get (JS.get r "ocrResult") "success" = VBool false)
  /\ engineMissing "../activities/ocr.js" = Throw (Error "Cannot find package 'tesseract.js'")
  /\ (exists st',
        Client.runSimpleOCR engineMissing allFail imageData st0
        = (Ok (Obj.literal [ ("success", VBool false);
                             ("error", VStr "Cannot find package 'tesseract.js'");
                             ("ocrResult", VNull) ]), st')).
Proof.
  intros imageData.
  assert (Hrej : forall src, exists e, recognize allFail src = Throw e)
    by (intros src; eexists; reflexivity).
  assert (E1 : exists r st', Client.runSimpleOCR loaded allFail imageData st0 = (Ok r, st')).
  { vm_compute. do 2 eexists. reflexivity. }
  assert (E2 : exists r st',
             Client.runSimpleOCR engineMissing allFail imageData st0 = (Ok r, st')).
  { vm_compute. do 2 eexists. reflexivity. }
  split; [ reflexivity | ]. split; [ reflexivity | ]. split; [ exact Hrej | ].
  split; [ | split; [ reflexivity | ] ].
  - destruct E1 as (r & st' & E1). exists r, st'. split; [ exact E1 | ].
    destruct (runSimpleOCR_reports_success loaded allFail imageData st0 r st' eq_refl E1)
      as (Hl & _ & _).
    destruct (Hl eq_refl) as [Hs He]. split; [ exact Hs | exact (He Hrej) ].
  - destruct E2 as (r & st' & E2). exists st'.
    destruct (runSimpleOCR_reports_success engineMissing allFail imageData st0 r st'
                eq_refl E2) as (_ & Hf & _).
    rewrite (Hf _ eq_refl) in E2. exact E2.
Defined.

Lemma quick_tier_is_more_lenient_witness :
  JS.get fairlyConfidentOCR "confidence" = VNum (Num (82 # 100))
  /\ ((8 # 10 < 82 # 100 /\ 82 # 100 < 85 # 100)
      \/ (6 # 10 < 82 # 100 /\ 82 # 100 < 7 # 10))%Q
  /\ loaded "../activities/aiValidation.js" = Ok tt
  /\ exists r st',
       Client.runSimpleAIValidation loaded allFail fairlyConfidentOCR st0 = (Ok r, st')
       /\ exists quick assessed,
            JS.get (JS.get r "validationResult") "inputQuality" = VStr quick
            /\ (forall s a s', OCR.assessOCRQuality allFail fairlyConfidentOCR s = (Ok a, s') ->
                               JS.get a "overall" = VStr assessed)
            /\ ((quick = "good" /\ assessed = "fair") \/ (quick = "fair" /\ assessed = "poor")).
Proof.
  assert (Hq : ((8 # 10 < 82 # 100 /\ 82 # 100 < 85 # 100)
                \/ (6 # 10 < 82 # 100 /\ 82 # 100 < 7 # 10))%Q)
    by (left; split; unfold Qlt; simpl; lia).
  assert (E : exists r st',
             Client.runSimpleAIValidation loaded allFail fairlyConfidentOCR st0
             = (Ok r, st')).
  { vm_compute. do 2 eexists. reflexivity. }
  split; [ reflexivity | ]. split; [ exact Hq | ]. split; [ reflexivity | ].
  destruct E as (r & st' & E). exists r, st'. split; [ exact E | ].
  exact (quick_tier_is_more_lenient loaded allFail fairlyConfidentOCR (82 # 100) st0 r st'
           eq_refl Hq eq_refl E).
Defined.

Lemma ocrValidate_OCR_failure_is_an_import_failure_witness :
  JS.truthy (JS.get uploadRequest "file") = true
  /\ engineMissing "../../temporal/clients/ocrClient.js" = Ok tt
  /\ engineMissing "../activities/ocr.js" = Throw (Error "Cannot find package 'tesseract.js'")
  /\ Backend.ocrValidate engineMissing reading uploadRequest st0
     = (Ok (Backend.mkReply 500
              (Obj.literal [ ("error", VStr "OCR processing failed");
                             ("details", VStr "Cannot find package 'tesseract.js'") ])), st0)
  /\ (forall rep st',
        Backend.ocrValidate loaded allFail uploadRequest st0 = (Ok rep, st') ->
        JS.get (Backend.body rep) "error" <> VStr "OCR processing failed").
Proof.
  split; [ reflexivity | ]. split; [ reflexivity | ]. split; [ reflexivity | ].
  split.
  - exact (proj2 (ocrValidate_OCR_failure_is_an_import_failure engineMissing reading
                    uploadRequest st0) _ eq_refl eq_refl eq_refl).
  - intros rep st' E H.
    destruct (proj1 (ocrValidate_OCR_failure_is_an_import_failure loaded allFail
                       uploadRequest st0) rep st' E H) as (e & Hl & _).
    discriminate Hl.
Defined.

Lemma ocrValidate_engine_failure_is_a_success_witness :
  JS.truthy (JS.get uploadRequest "file") = true
  /\ loaded "../../temporal/clients/ocrClient.js" = Ok tt
  /\ loaded "../activities/ocr.js" = Ok tt
  /\ (forall src, exists e, recognize allFail src = Throw e)
  /\ exists rep st',
       Backend.ocrValidate loaded allFail uploadRequest st0 = (Ok rep, st')
       /\ Backend.code rep = 200
       /\ JS.get (Backend.body rep) "success" = VBool true
       /\ JS.get (JS.get (Backend.body rep) "ocr") "text" = VUndefined
       /\ JS.get (JS.get (JS.get (Backend.body rep) "ocr") "qualityAssessment") "overall"
          = VStr "poor"
       /\ JS.get (Backend.body rep) "aiValidation" = Backend.notPerformed.
Proof.
  assert (H : forall src, exists e, recognize allFail src = Throw e)
    by (intros src; eexists; reflexivity).
  split; [ reflexivity | ]. split; [ reflexivity | ]. split; [ reflexivity | ].
  split; [ exact H | ].
  exact (ocrValidate_engine_failure_is_a_success loaded allFail uploadRequest st0
           eq_refl eq_refl eq_refl H).
Defined.

Lemma request_line_round_trip_witness :
  let args := Obj.literal [("ingredients", VArr [VStr "water"; VStr "red 40"])] in
  plain args = true
  /\ JSON.parse_string (FDA.requestLine "validate_ingredients" args)
     = Ok (FDA.mcpRequest "validate_ingredients" args)
  /\ JS.get (JS.get (FDA.mcpRequest "validate_ingredients" args) "params") "name"
     = VStr "validate_ingredients"
  /\ JS.get (JS.get (FDA.mcpRequest "validate_ingredients" args) "params") "arguments" = args.
Proof.
  intros args. split; [ reflexivity | ].
  exact (request_line_round_trip "validate_ingredients" args eq_refl).
Defined.

Lemma review_status_is_never_recommended_witness :
  let names := ["xanthan gum"; "milk"] in
  let st := mkState 0 [] [("issues", VArr []); ("recommendations", VArr [])] in
  findsBool mockWorld
  /\ Recs [] st
  /\ exists result srv' response,
       Server.validateIngredients mockWorld (VArr (List.map VStr names)) st0 = (Ok result, srv')
       /\ resolvesWith served "validate_ingredients"
            (Obj.literal [("ingredients", VArr (List.map VStr names))]) response
       /\ JS.nullish response = false
       /\ JS.get response "result" = result
       /\ exists st' f,
            FDA.queryFDA served (VArr (List.map VStr names)) st = (Ok tt, st')
            /\ Obj.lookup "recommendations" (store st') = Some (VArr [f])
            /\ JS.get f "type" = VStr "FDA_VALIDATION_SUMMARY"
            /\ JS.get f "severity" = VStr "INFO".
Proof.
  intros names st.
  assert (HI : Recs [] st) by (split; [ exists []; reflexivity | reflexivity ]).
  assert (E : exists result srv' response,
             Server.validateIngredients mockWorld (VArr (List.map VStr names)) st0
             = (Ok result, srv')
             /\ resolvesWith served "validate_ingredients"
                  (Obj.literal [("ingredients", VArr (List.map VStr names))]) response
             /\ JS.nullish response = false
             /\ JS.get response "result" = result).
  { vm_compute. do 3 eexists. split; [ reflexivity | ]. split; [ reflexivity | ].
    split; reflexivity. }
  split; [ exact mockWorld_findsBool | ]. split; [ exact HI | ].
  destruct E as (result & srv' & response & E & Hc & Hn & Hr).
  exists result, srv', response.
  split; [ exact E | ]. split; [ exact Hc | ]. split; [ exact Hn | ]. split; [ exact Hr | ].
  exact (review_status_is_never_recommended mockWorld served names st0 result srv' response st
           mockWorld_findsBool E Hc Hn Hr HI).
Defined.

Lemma last_line_is_the_response_witness :
  let events :=
    [ StdoutData ("FDA Validation MCP Server running on stdio" ++ Str.nl);
      StderrData "debug";
      Elapsed 10;
      StdoutData (JS.toString (JSON.stringify approvedResponse));
      StdoutData Str.nl ] in
  let logs := "FDA Validation MCP Server running on stdio" ++ Str.nl in
  child chatty (FDA.requestLine "check_additive_status" (VObj []))
  = (events ++ [Close (VNum (Num 0))])%list
  /\ existsb closes events = false
  /\ existsb unhandled events = false
  /\ allChars ascii7 (stdoutOf events) = true
  /\ stdoutOf events = logs ++ JS.toString (JSON.stringify approvedResponse) ++ Str.nl
  /\ endsLine logs
  /\ plain approvedResponse = true
  /\ FDA.callFDAMCPTool chatty "check_additive_status" (VObj []) st0
     = (Ok approvedResponse,
        mkState (ticks st0)
          (trace st0 ++ callActions "check_additive_status" (VObj []))%list (store st0)).
Proof.
  intros events logs.
  assert (Hout : stdoutOf events
                 = logs ++ JS.toString (JSON.stringify approvedResponse) ++ Str.nl)
    by (vm_compute; reflexivity).
  assert (Hlogs : endsLine logs) by (right; eexists; reflexivity).
  assert (Hascii : allChars ascii7 (stdoutOf events) = true) by (vm_compute; reflexivity).
  split; [ reflexivity | ]. split; [ reflexivity | ]. split; [ reflexivity | ].
  split; [ exact Hascii | ]. split; [ exact Hout | ].
  split; [ exact Hlogs | ]. split; [ reflexivity | ].
  exact (last_line_is_the_response chatty "check_additive_status" (VObj []) events logs
           approvedResponse st0 eq_refl eq_refl eq_refl Hascii Hout Hlogs eq_refl).
Defined.
